(** * The BEEP command line: structuring and featurization runs

    A shallow embedding of [beep/cmd.py]: the [structure] and [featurize]
    subcommands, the helpers they call ([add_suffix]) and the fragment of
    Python's [os.path] (posixpath) and of the object model (dictionaries held
    by reference, exceptions) that they rely on; and of
    [beep/utils/secrets_manager.py]: [secret_accessible] and [get_secret].

    Conventions.
    - Python strings are [string]; lists and tuples are [list].
    - A dictionary whose iteration order is observed (the status report and
      its per-file records) is an insertion-ordered association list with
      Python's assignment semantics ([PyDict]); the hyperparameter
      dictionaries, whose order is never observed, are [gmap string hval] and
      live in a heap of objects addressed by location, because the code holds
      them by reference.
    - Calls that leave [cmd.py] (the S3 client, the file system, the
      datapath and featurizer classes, [dumpfn], [md5sum] of a file, the
      import system) are fields of a [world] record.
    - A run is a computation in a state-and-exception monad over a
      [machine]: the paths on disk, the heap, the external calls made so
      far, the log and the local [status_json].
    - The model starts at the body of each subcommand function, with its
      arguments as Click would pass them; Click's own parsing is outside. *)

From Stdlib Require Import ZArith Lia Ascii String.
From stdpp Require Import base strings list gmap.

Open Scope string_scope.
Open Scope list_scope.

(** ** Strings *)

Module Str.

Definition startswith_char (c : ascii) (s : string) : bool :=
  match s with
  | String c' _ => Ascii.eqb c' c
  | EmptyString => false
  end.

Fixpoint endswith_char (c : ascii) (s : string) : bool :=
  match s with
  | EmptyString => false
  | String c' EmptyString => Ascii.eqb c' c
  | String _ r => endswith_char c r
  end.

Fixpoint contains_char (c : ascii) (s : string) : bool :=
  match s with
  | EmptyString => false
  | String c' r => Ascii.eqb c' c || contains_char c r
  end.

(** [s.rfind(c)]: the highest index of [c] in [s], [-1] when absent. *)
Fixpoint rfind_from (c : ascii) (s : string) (i acc : Z) : Z :=
  match s with
  | EmptyString => acc
  | String c' r => rfind_from c r (i + 1) (if Ascii.eqb c' c then i else acc)
  end.

Definition rfind (c : ascii) (s : string) : Z := rfind_from c s 0 (-1).

(** [s[n:]] and [s[:n]] for an index [n >= 0]. *)
Fixpoint drop (n : nat) (s : string) : string :=
  match n, s with
  | O, _ => s
  | S n', String _ r => drop n' r
  | S _, EmptyString => EmptyString
  end.

Fixpoint take (n : nat) (s : string) : string :=
  match n, s with
  | O, _ => EmptyString
  | S n', String c r => String c (take n' r)
  | S _, EmptyString => EmptyString
  end.

(** [s.split(c)] *)
Fixpoint split (c : ascii) (s : string) : list string :=
  match s with
  | EmptyString => [EmptyString]
  | String a r =>
      match split c r with
      | [] => [EmptyString]
      | h :: t => if Ascii.eqb a c then EmptyString :: h :: t
                  else String a h :: t
      end
  end.

(** [c.join(l)] *)
Fixpoint join (c : string) (l : list string) : string :=
  match l with
  | [] => EmptyString
  | [x] => x
  | x :: r => x +:+ c +:+ join c r
  end.

(** Python truthiness of a string. *)
Definition truthy (s : string) : bool :=
  match s with EmptyString => false | _ => true end.

(** [s.rpartition(c)] = (head, sep, tail), split at the last [c]. *)
Definition rpartition (c : ascii) (s : string) : string * string * string :=
  let i := rfind c s in
  if (i <? 0)%Z then (EmptyString, EmptyString, s)
  else (take (Z.to_nat i) s, String c EmptyString, drop (Z.to_nat (i + 1)) s).

End Str.

(** ** [os.path] on a POSIX host *)

Module PosixPath.

Definition sep : ascii := "/"%char.
Definition extsep : ascii := "."%char.

Definition isabs (p : string) : bool := Str.startswith_char sep p.

(** [i = p.rfind(sep) + 1; return p[i:]] *)
Definition basename (p : string) : string :=
  Str.drop (Z.to_nat (Str.rfind sep p + 1)) p.

(** The loop of [genericpath._splitext] that skips leading dots:
    [fuel] bounds [dotIndex - filenameIndex]. *)
Fixpoint splitext_scan (p : string) (dotIndex : Z) (filenameIndex : Z)
    (fuel : nat) : string * string :=
  match fuel with
  | O => (p, EmptyString)
  | S fuel' =>
      if (filenameIndex <? dotIndex)%Z then
        if negb (Str.startswith_char extsep (Str.drop (Z.to_nat filenameIndex) p))
        then (Str.take (Z.to_nat dotIndex) p, Str.drop (Z.to_nat dotIndex) p)
        else splitext_scan p dotIndex (filenameIndex + 1) fuel'
      else (p, EmptyString)
  end.

Definition splitext (p : string) : string * string :=
  let sepIndex := Str.rfind sep p in
  let dotIndex := Str.rfind extsep p in
  if (sepIndex <? dotIndex)%Z
  then splitext_scan p dotIndex (sepIndex + 1) (String.length p)
  else (p, EmptyString).

(** [os.path.join(a, b)] *)
Definition join (a b : string) : string :=
  if Str.startswith_char sep b then b
  else if negb (Str.truthy a) || Str.endswith_char sep a then a +:+ b
  else a +:+ "/" +:+ b.

(** The component loop of [normpath]; [new_comps] is kept reversed. *)
Fixpoint normpath_comps (initial_slashes : nat) (comps new_comps : list string)
    : list string :=
  match comps with
  | [] => rev new_comps
  | comp :: rest =>
      if String.eqb comp "" || String.eqb comp "." then
        normpath_comps initial_slashes rest new_comps
      else if negb (String.eqb comp "..")
              || (Nat.eqb initial_slashes 0 && bool_decide (new_comps = []))
              || match new_comps with
                 | last :: _ => String.eqb last ".."
                 | [] => false
                 end
      then normpath_comps initial_slashes rest (comp :: new_comps)
      else normpath_comps initial_slashes rest (tl new_comps)
  end.

Definition normpath (path : string) : string :=
  if String.eqb path "" then "."
  else
    let initial_slashes :=
      if Str.startswith_char sep path then
        if Str.startswith_char sep (Str.drop 1 path)
           && negb (Str.startswith_char sep (Str.drop 2 path))
        then 2 else 1
      else 0 in
    let comps := normpath_comps initial_slashes (Str.split sep path) [] in
    let path' := Str.join "/" comps in
    let path' :=
      match initial_slashes with
      | 0 => path'
      | 1 => "/" +:+ path'
      | _ => "//" +:+ path'
      end in
    if Str.truthy path' then path' else ".".

(** [os.path.abspath], with the process's working directory explicit. *)
Definition abspath (cwd path : string) : string :=
  if isabs path then normpath path else normpath (join cwd path).

End PosixPath.

(** ** Python values, exceptions and dictionaries *)

(** A hyperparameter value: a Python literal. *)
Inductive hval :=
| HInt (z : Z)
| HStr (s : string)
| HBool (b : bool)
| HNone.

(** A hyperparameter dictionary. *)
Abbreviation hdict := (gmap string hval).

(** [d.update(other)]: the entries of [other] win. *)
Definition dict_update (d other : hdict) : hdict := other ∪ d.

(** Exceptions. [External] stands for whatever a collaborator outside
    [cmd.py] raises, named by its class. *)
Inductive exn :=
| KeyboardInterrupt
| TypeError
| ValueError
| IndexError
| FileNotFoundError (file : string)
| BeepValidationError (reason : string)
| BEEPFeaturizationError (reason : string)
| ClickExit
| External (name : string).

Inductive outcome (A : Type) :=
| Ok (a : A)
| Raise (e : exn).
Arguments Ok {A} a.
Arguments Raise {A} e.

Definition is_interrupt (e : exn) : bool :=
  match e with KeyboardInterrupt => true | _ => false end.

(** Whether a call of a collaborator is interrupted by the operator. *)
Definition interrupted {A} (r : outcome A) : bool :=
  match r with Raise e => is_interrupt e | Ok _ => false end.

Definition succeeds {A} (r : outcome A) : bool :=
  match r with Ok _ => true | Raise _ => false end.

(** An insertion-ordered dictionary with string keys: [d[k] = v] replaces the
    value in place when [k] is present and appends otherwise. *)
Module PyDict.
Section Dict.
Context {V : Type}.

Definition t := list (string * V).

Fixpoint set (k : string) (v : V) (d : t) : t :=
  match d with
  | [] => [(k, v)]
  | (k', v') :: r =>
      if String.eqb k' k then (k, v) :: r else (k', v') :: set k v r
  end.

Fixpoint get (k : string) (d : t) : option V :=
  match d with
  | [] => None
  | (k', v') :: r => if String.eqb k' k then Some v' else get k r
  end.

Definition keys (d : t) : list string := map fst d.
Definition values (d : t) : list V := map snd d.
End Dict.
Arguments t V : clear implicits.
End PyDict.

(** ** The machine and the monad of runs *)

Inductive level := Debug | Info | Warning | Error | Critical.

(** A log record: the level and the message as written in the source; the
    values interpolated into f-strings are not rendered. *)
Record log_record := LogRecord { lvl : level; text : string }.

Definition loc := nat.

(** A featurizer class object: its [__name__] and the location of the
    dictionary bound to its [DEFAULT_HYPERPARAMETERS] attribute. *)
Record featurizer := FClass { cname : string; defaults : loc }.

(** Calls that leave [cmd.py], in the order they are made. *)
Inductive event :=
| EvListS3 (bucket : string)
| EvFetch (bucket key dest : string)
| EvMd5 (path : string)
| EvAutoLoad (path : string)
| EvValidate (path : string)
| EvStructure (path : string)
| EvToJson (path output : string)
| EvImport (modname clsname : string)
| EvAutoLoadProcessed (path : string)
| EvConstruct (cls : featurizer) (path : string) (hps : hdict)
| EvFValidate (cls : featurizer) (path : string)
| EvCreateFeatures (cls : featurizer) (path : string)
| EvDumpfn (path : string).

(** Elapsed wall-clock time, a float whose value is not modelled. *)
Definition seconds := unit.

(** [op_result] of [structure]. *)
Record op_result := OpResult {
  validated : bool;
  validation_schema : option string;
  structured : bool;
  output : option string;
  traceback : option exn;
  walltime : option seconds;
  raw_md5_chksum : option string
}.

(** [op_subresult] of [featurize]. *)
Record op_subresult := OpSubresult {
  sub_output : option string;
  valid : bool;
  featurized : bool;
  sub_walltime : option seconds;
  sub_traceback : option exn;
  op_md5_chksum : option string
}.

(** A value of the per-file dictionary [op_result] of [featurize]. *)
Inductive op_entry :=
| OpWalltime (t : option seconds)
| OpMd5 (h : string)
| OpStep (r : op_subresult).

(** The metadata block; the version string and the timestamp are left out. *)
Record metadata := Metadata { md_run_id : option Z; md_tags : list string }.

(** A value of [status_json]. *)
Inductive status_value :=
| StructureResult (r : op_result)
| FeaturizeResult (d : PyDict.t op_entry)
| MetadataBlock (md : metadata).

Record machine := Machine {
  m_fs : gset string;                    (* absolute paths that exist on disk *)
  m_heap : gmap loc hdict;               (* dictionaries held by reference *)
  m_trace : list event;                  (* external calls, oldest first *)
  m_log : list log_record;               (* log records, oldest first *)
  m_status : PyDict.t status_value       (* the local [status_json] *)
}.

Section Monad.
Context {St : Type}.

Definition M (A : Type) : Type := St -> outcome A * St.

Definition ret {A} (a : A) : M A := fun s => (Ok a, s).

Definition bind {A B} (c : M A) (k : A -> M B) : M B :=
  fun s => match c s with
           | (Ok a, s') => k a s'
           | (Raise e, s') => (Raise e, s')
           end.

Definition raise {A} (e : exn) : M A := fun s => (Raise e, s).

Definition gets {A} (f : St -> A) : M A := fun s => (Ok (f s), s).

Definition modify (f : St -> St) : M unit := fun s => (Ok tt, f s).

(** [try: body except BaseException: handler] *)
Definition try_except {A} (body : M A) (handler : exn -> M A) : M A :=
  fun s => match body s with
           | (Ok a, s') => (Ok a, s')
           | (Raise e, s') => handler e s'
           end.
End Monad.
Arguments M St A : clear implicits.

Declare Scope run_scope.
Delimit Scope run_scope with run.
Notation "x <- c ;; k" := (bind c (fun x => k))
  (at level 100, c at next level, right associativity) : run_scope.
Notation "c ;; k" := (bind c (fun _ => k))
  (at level 100, right associativity) : run_scope.
Open Scope run_scope.

(** [for x in l: body x] *)
Fixpoint for_each {St A} (l : list A) (body : A -> M St unit) : M St unit :=
  match l with
  | [] => ret tt
  | x :: r => body x ;; for_each r body
  end.

(** [enumerate(l)], counting from [i]. *)
Fixpoint enumerate_from {A} (i : nat) (l : list A) : list (nat * A) :=
  match l with
  | [] => []
  | x :: r => (i, x) :: enumerate_from (S i) r
  end.

Definition enumerate {A} (l : list A) : list (nat * A) := enumerate_from 0 l.

(** A computation with one more local variable, which survives an exception
    of the computation. *)
Definition with_local {St L A} (l : L) (c : M (St * L) A) : M St (outcome A * L) :=
  fun s => match c (s, l) with (r, (s', l')) => (Ok (r, l'), s') end.

Definition lift {St L A} (c : M St A) : M (St * L) A :=
  fun sl => match c (fst sl) with (r, s') => (r, (s', snd sl)) end.

Definition set_local {St L} (f : L -> L) : M (St * L) unit :=
  modify (fun sl => (fst sl, f (snd sl))).

(** Machine primitives. *)
Definition log_at (l : level) (msg : string) : M machine unit :=
  modify (fun m => Machine (m_fs m) (m_heap m) (m_trace m)
                           (m_log m ++ [LogRecord l msg]) (m_status m)).

Definition emit (ev : event) : M machine unit :=
  modify (fun m => Machine (m_fs m) (m_heap m) (m_trace m ++ [ev])
                           (m_log m) (m_status m)).

(** A call of a collaborator: recorded, then its result or exception. *)
Definition call {A} (ev : event) (r : outcome A) : M machine A :=
  emit ev ;; (fun m => (r, m)).

Definition touch (path : string) : M machine unit :=
  modify (fun m => Machine ({[path]} ∪ m_fs m) (m_heap m) (m_trace m)
                           (m_log m) (m_status m)).

Definition exists_on_disk (path : string) : M machine bool :=
  gets (fun m => bool_decide (path ∈ m_fs m)).

Definition set_status (f : PyDict.t status_value -> PyDict.t status_value)
    : M machine unit :=
  modify (fun m => Machine (m_fs m) (m_heap m) (m_trace m) (m_log m)
                           (f (m_status m))).

Definition heap_get (l : loc) : M machine hdict :=
  gets (fun m => default ∅ (m_heap m !! l)).

Definition heap_set (l : loc) (d : hdict) : M machine unit :=
  modify (fun m => Machine (m_fs m) (<[l := d]> (m_heap m)) (m_trace m)
                           (m_log m) (m_status m)).

(** ** Collaborators and configuration *)

(** What the run calls outside [cmd.py]. Each function is the result of the
    call on its arguments; numeric structuring parameters are passed to the
    datapath unchanged and are part of [dp_structure]. *)
Record world := World {
  list_s3_objects : string -> outcome (list string);      (* the keys *)
  download_s3_object : string -> string -> string -> outcome unit;
  fnmatch : string -> string -> bool;                     (* name, pattern *)
  md5sum : string -> outcome string;
  auto_load : string -> outcome string;                   (* the schema *)
  dp_validate : string -> outcome (bool * string);
  dp_structure : string -> bool -> outcome unit;          (* file, automatic *)
  dp_to_json_file : string -> string -> bool -> outcome unit;
  import_class : string -> string -> outcome (featurizer * bool);
      (* [getattr(import_module(modname), clsname)] and whether it is a
         subclass of [BEEPFeaturizer] *)
  auto_load_processed : string -> outcome unit;
  construct : featurizer -> string -> hdict -> outcome unit;
  f_validate : featurizer -> string -> hdict -> outcome (bool * string);
  create_features : featurizer -> string -> hdict -> outcome unit;
  dumpfn : string -> outcome unit
}.

(** Constants of the [beep] package, read from the environment. *)
Record beep_env := BeepEnv {
  BEEP_PARAMETERS_DIR : option string;
  S3_CACHE : string
}.

(** [ContextPersister] *)
Record ContextPersister := Ctx {
  cwd : string;
  run_id : option Z;
  tags : list string;
  output_status_json : option string;
  halt_on_error : bool
}.

Definition STRUCTURED_SUFFIX : string := "-structured".
Definition FEATURIZED_SUFFIX : string := "-featurized".

(** Truthiness of an optional string argument ([None] and [""] are false). *)
Definition given (o : option string) : bool :=
  match o with Some s => Str.truthy s | None => false end.

(** ** [add_suffix] *)

Definition add_suffix (full_path output_dir suffix : string)
    (modified_ext : option string) : string :=
  let basename := PosixPath.basename full_path in
  let '(stripped_basename, ext) := PosixPath.splitext basename in
  let ext := if given modified_ext then default ext modified_ext else ext in
  let new_basename := stripped_basename +:+ suffix +:+ ext in
  PosixPath.join output_dir new_basename.

(** [add_metadata_to_status_json] *)
Definition add_metadata_to_status_json (status_dict : PyDict.t status_value)
    (run_id : option Z) (tags : list string) : PyDict.t status_value :=
  PyDict.set "metadata" (MetadataBlock (Metadata run_id tags)) status_dict.

(** ** [structure]: resolution of the input tokens (lines 361-405) *)

(** An element of [s3_keys_matched]: a key appended for a literal token, or
    the whole list of matches appended for a glob token. *)
Inductive s3_match :=
| MatchedKey (key : string)
| MatchedList (keys : list string).

(** [fnmatch.filter(names, pat)] *)
Definition fnmatch_filter (w : world) (names : list string) (pat : string)
    : list string :=
  List.filter (fun name => fnmatch w name pat) names.

(** The loop over [files] that fills [s3_keys_matched] and [local_files]. *)
Fixpoint match_tokens (w : world) (s3_keys : list string) (files : list string)
    (s3_keys_matched : list s3_match) (local_files : list string)
    : list s3_match * list string :=
  match files with
  | [] => (s3_keys_matched, local_files)
  | maybe_glob :: rest =>
      if negb (Str.contains_char "*" maybe_glob) then
        if bool_decide (maybe_glob ∈ s3_keys) then
          match_tokens w s3_keys rest
            (s3_keys_matched ++ [MatchedKey maybe_glob]) local_files
        else
          match_tokens w s3_keys rest s3_keys_matched
            (local_files ++ [maybe_glob])
      else
        let matching_files := fnmatch_filter w s3_keys maybe_glob in
        if bool_decide (matching_files ≠ []) then
          match_tokens w s3_keys rest
            (s3_keys_matched ++ [MatchedList matching_files]) local_files
        else
          match_tokens w s3_keys rest s3_keys_matched
            (local_files ++ [maybe_glob])
  end.

(** The loop over [s3_keys_matched] that downloads; [os.path.basename] of a
    list raises [TypeError]. The download writes the file named
    [s3k_local_fullname]; the disk holds it under its absolute, normalised
    path, which is what [os.path.exists] looks up afterwards. *)
Fixpoint fetch_matched (w : world) (e : beep_env) (ctx : ContextPersister)
    (s3_bucket : string) (s3_use_cache : bool)
    (s3_keys_matched : list s3_match) (local_files_from_s3 : list string)
    : M machine (list string) :=
  match s3_keys_matched with
  | [] => ret local_files_from_s3
  | MatchedList _ :: _ => raise TypeError
  | MatchedKey s3k :: rest =>
      let s3k_basename := PosixPath.basename s3k in
      let pardir := if s3_use_cache then S3_CACHE e else cwd ctx in
      let s3k_local_fullname := PosixPath.join pardir s3k_basename in
      log_at Info "Fetching {s3k} from {s3_bucket}" ;;
      call (EvFetch s3_bucket s3k s3k_local_fullname)
           (download_s3_object w s3_bucket s3k s3k_local_fullname) ;;
      touch (PosixPath.abspath (cwd ctx) s3k_local_fullname) ;;
      log_at Info "Fetched s3 file {s3k_basename} to {s3k_local_fullname}" ;;
      fetch_matched w e ctx s3_bucket s3_use_cache rest
        (local_files_from_s3 ++ [s3k_local_fullname])
  end.

(** Lines 361-399. *)
Definition resolve_s3 (w : world) (e : beep_env) (ctx : ContextPersister)
    (files : list string) (s3_bucket : option string) (s3_use_cache : bool)
    : M machine (list string) :=
  if given s3_bucket then
    let bucket := default "" s3_bucket in
    log_at Info "Fetching file list from s3 bucket {s3_bucket}..." ;;
    s3_keys <- call (EvListS3 bucket) (list_s3_objects w bucket) ;;
    log_at Info "Including {len(s3_objs)} available s3 objects in file match." ;;
    let '(s3_keys_matched, local_files) := match_tokens w s3_keys files [] [] in
    log_at Info "Found {len(s3_keys_matched)} matching files on s3" ;;
    local_files_from_s3 <-
      fetch_matched w e ctx bucket s3_use_cache s3_keys_matched [] ;;
    ret (local_files ++ local_files_from_s3)
  else ret files.

(** Lines 401-405. *)
Definition check_files_exist (files : list string) : M machine unit :=
  for_each files (fun file =>
    b <- exists_on_disk file ;;
    if negb b then raise (FileNotFoundError file) else ret tt).

(** Lines 361-406: the resolved, absolute input files. *)
Definition resolve_files (w : world) (e : beep_env) (ctx : ContextPersister)
    (files : list string) (s3_bucket : option string) (s3_use_cache : bool)
    : M machine (list string) :=
  files <- resolve_s3 w e ctx files s3_bucket s3_use_cache ;;
  let files := map (PosixPath.abspath (cwd ctx)) files in
  check_files_exist files ;;
  ret files.

(** ** [structure]: the output files (lines 410-438) *)

Definition output_files_of (ctx : ContextPersister) (files : list string)
    (output_dir : option string) (output_filenames : list string)
    : M machine (list string) :=
  let n_files := length files in
  if given output_dir then
    let output_dir := PosixPath.abspath (cwd ctx) (default "" output_dir) in
    let output_files :=
      map (fun f => add_suffix f output_dir STRUCTURED_SUFFIX (Some ".json.gz"))
          files in
    (if bool_decide (output_filenames ≠ []) then
       log_at Warning
         "Both --output-filenames and --output-dir were specified; defaulting to --output-dir with auto-naming."
     else ret tt) ;;
    ret output_files
  else
    if bool_decide (output_filenames ≠ []) then
      let output_files := map (PosixPath.abspath (cwd ctx)) output_filenames in
      let n_outputs := length output_files in
      if bool_decide (n_files ≠ n_outputs) then raise ValueError
      else ret output_files
    else
      ret (map (fun f => add_suffix f (cwd ctx) STRUCTURED_SUFFIX
                           (Some ".json.gz")) files).

(** ** [structure]: the per-file loop and the report (lines 440-563) *)

Definition params_dir_of (e : beep_env) (protocol_parameters_dir : option string)
    : M machine (option string) :=
  if given protocol_parameters_dir && given (BEEP_PARAMETERS_DIR e) then
    log_at Warning
      "Both --protocol-parameters-dir and $BEEP_PARAMETERS_PATH were specified. Defaulting to path from --protocol-parameters-dir." ;;
    ret protocol_parameters_dir
  else if given protocol_parameters_dir && negb (given (BEEP_PARAMETERS_DIR e)) then
    ret protocol_parameters_dir
  else if negb (given protocol_parameters_dir) && given (BEEP_PARAMETERS_DIR e) then
    ret (BEEP_PARAMETERS_DIR e)
  else ret None.

Definition op_result_init : op_result :=
  OpResult false None false None None None None.

Definition set_raw_md5_chksum (h : string) (r : op_result) : op_result :=
  OpResult (validated r) (validation_schema r) (structured r) (output r)
           (traceback r) (walltime r) (Some h).
Definition set_validation_schema (sch : string) (r : op_result) : op_result :=
  OpResult (validated r) (Some sch) (structured r) (output r)
           (traceback r) (walltime r) (raw_md5_chksum r).
Definition set_validated (b : bool) (r : op_result) : op_result :=
  OpResult b (validation_schema r) (structured r) (output r)
           (traceback r) (walltime r) (raw_md5_chksum r).
Definition set_structured (b : bool) (r : op_result) : op_result :=
  OpResult (validated r) (validation_schema r) b (output r)
           (traceback r) (walltime r) (raw_md5_chksum r).
Definition set_output (o : string) (r : op_result) : op_result :=
  OpResult (validated r) (validation_schema r) (structured r) (Some o)
           (traceback r) (walltime r) (raw_md5_chksum r).
Definition set_traceback (e : exn) (r : op_result) : op_result :=
  OpResult (validated r) (validation_schema r) (structured r) (output r)
           (Some e) (walltime r) (raw_md5_chksum r).
Definition set_walltime (r : op_result) : op_result :=
  OpResult (validated r) (validation_schema r) (structured r) (output r)
           (traceback r) (Some tt) (raw_md5_chksum r).

(** The body of the [try] (lines 485-517); the local is [op_result]. *)
Definition structure_try (w : world) (output_files : list string)
    (automatic validation_only no_raw : bool) (i : nat) (f : string)
    : M (machine * op_result) unit :=
  lift (log_at Debug "Hashing file '{f}' to MD5") ;;
  h <- lift (call (EvMd5 f) (md5sum w f)) ;;
  set_local (set_raw_md5_chksum h) ;;
  lift (log_at Info "{log_prefix}: Reading raw file {f} from disk...") ;;
  schema <- lift (call (EvAutoLoad f) (auto_load w f)) ;;
  lift (log_at Info
    "{log_prefix}: Validating: {f} according to schema file '{dp.schema}'") ;;
  set_local (set_validation_schema schema) ;;
  v <- lift (call (EvValidate f) (dp_validate w f)) ;;
  let '(is_valid, validation_reason) := v in
  set_local (set_validated is_valid) ;;
  (if negb is_valid then raise (BeepValidationError validation_reason)
   else ret tt) ;;
  lift (log_at Info "File {i + 1} of {n_files}: Validated: {f}") ;;
  if negb validation_only then
    lift (log_at Info "{log_prefix}: Structuring: Read from {f}") ;;
    lift (call (EvStructure f) (dp_structure w f automatic)) ;;
    output_fname <- match output_files !! i with
                    | Some o => ret o
                    | None => raise IndexError
                    end ;;
    lift (call (EvToJson f output_fname)
               (dp_to_json_file w f output_fname no_raw)) ;;
    lift (touch output_fname) ;;
    set_local (set_structured true) ;;
    set_local (set_output output_fname) ;;
    lift (log_at Info "{log_prefix}: Structured: Written to {output_fname}")
  else ret tt.

(** One iteration of the loop of lines 472-534. *)
Definition structure_file (w : world) (ctx : ContextPersister)
    (output_files : list string) (automatic validation_only no_raw : bool)
    (item : nat * string) : M machine unit :=
  let '(i, f) := item in
  x <- with_local op_result_init
         (structure_try w output_files automatic validation_only no_raw i f) ;;
  let '(r, op_result) := x in
  op_result <-
    match r with
    | Ok _ => ret op_result
    | Raise e =>
        if is_interrupt e then
          log_at Critical "Keyboard interrupt caught - exiting..." ;;
          raise ClickExit
        else
          log_at Error "{log_prefix}: Failed/invalid: ({tbinfo[0].__name__}): {f}" ;;
          let op_result := set_traceback e op_result in
          if halt_on_error ctx then raise e else ret op_result
    end ;;
  let op_result := set_walltime op_result in
  set_status (PyDict.set f (StructureResult op_result)).

(** The three lists of the status report (lines 537-545). *)
Fixpoint structure_classify (items : PyDict.t status_value)
    (succeeded failed invalid : list string)
    : list string * list string * list string :=
  match items with
  | [] => (succeeded, failed, invalid)
  | (input_fname, StructureResult op_result) :: rest =>
      if validated op_result && structured op_result then
        structure_classify rest (succeeded ++ [input_fname]) failed invalid
      else if validated op_result && negb (structured op_result) then
        structure_classify rest succeeded (failed ++ [input_fname]) invalid
      else
        structure_classify rest succeeded failed (invalid ++ [input_fname])
  | _ :: rest => structure_classify rest succeeded failed invalid
  end.

Definition structure_report (validation_only : bool) : M machine unit :=
  status_json <- gets m_status ;;
  let '(succeeded, failed, invalid) := structure_classify status_json [] [] [] in
  log_at Info "{'Validation' if validation_only else 'Structuring'} report:" ;;
  log_at Info
    "\t{'Structured' if validation_only else 'Succeeded'}: {len(succeeded)}/{n_files}" ;;
  log_at Info "\tInvalid: {len(invalid)}/{n_files}" ;;
  for_each invalid (fun inv => log_at Info "\t\t- {inv}") ;;
  log_at Info
    "\t{'Validated, not structured' if validation_only else 'Failed'}: {len(failed)}/{n_files}" ;;
  for_each failed (fun fail => log_at Info "\t\t- {fail}").

(** Lines 558-563 and 807-811. *)
Definition write_status (w : world) (ctx : ContextPersister) : M machine unit :=
  set_status (fun status_json =>
    add_metadata_to_status_json status_json (run_id ctx) (tags ctx)) ;;
  if given (output_status_json ctx) then
    let osj := default "" (output_status_json ctx) in
    call (EvDumpfn osj) (dumpfn w osj) ;;
    touch (PosixPath.abspath (cwd ctx) osj) ;;
    log_at Info "Wrote status json file to {osj}"
  else ret tt.

(** Lines 470-534. *)
Definition structure_files (w : world) (ctx : ContextPersister)
    (output_files : list string) (automatic validation_only no_raw : bool)
    (files : list string) : M machine unit :=
  set_status (fun _ => []) ;;
  for_each (enumerate files)
    (structure_file w ctx output_files automatic validation_only no_raw).

(** The [structure] subcommand. *)
Definition structure (w : world) (e : beep_env) (ctx : ContextPersister)
    (files : list string) (output_filenames : list string)
    (output_dir protocol_parameters_dir s3_bucket : option string)
    (automatic validation_only no_raw s3_use_cache : bool) : M machine unit :=
  files <- resolve_files w e ctx files s3_bucket s3_use_cache ;;
  log_at Info "Structuring {n_files} files" ;;
  output_files <- output_files_of ctx files output_dir output_filenames ;;
  params_dir <- params_dir_of e protocol_parameters_dir ;;
  (if automatic && negb (given params_dir) then
     log_at Warning
       "--automatic was passed but no protocol parameters directory was specified! Either set BEEP_PARAMETERS_DIR or pass --protocol-parameters-dir to use autostructuring."
   else ret tt) ;;
  structure_files w ctx output_files automatic validation_only no_raw files ;;
  structure_report validation_only ;;
  write_status w ctx.

(** ** [featurize]: the featurizers to apply (lines 622-686) *)

(** The classes imported from [beep.features]; each owns the dictionary
    bound to its [DEFAULT_HYPERPARAMETERS]. *)
Definition HPPCResistanceVoltageFeatures := FClass "HPPCResistanceVoltageFeatures" 0.
Definition DeltaQFastCharge := FClass "DeltaQFastCharge" 1.
Definition TrajectoryFastCharge := FClass "TrajectoryFastCharge" 2.
Definition CycleSummaryStats := FClass "CycleSummaryStats" 3.
Definition DiagnosticProperties := FClass "DiagnosticProperties" 4.
Definition DiagnosticSummaryStats := FClass "DiagnosticSummaryStats" 5.
Definition IntracellCycles := FClass "IntracellCycles" 6.
Definition IntracellFeatures := FClass "IntracellFeatures" 7.

Definition core_fclasses : list featurizer :=
  [ HPPCResistanceVoltageFeatures; DeltaQFastCharge; TrajectoryFastCharge;
    CycleSummaryStats; DiagnosticProperties; DiagnosticSummaryStats ].

Definition native_fclasses : list featurizer :=
  core_fclasses ++ [IntracellCycles; IntracellFeatures].

(** [{fclass.__name__: fclass for fclass in l}] *)
Definition fclasses_map (l : list featurizer) : PyDict.t featurizer :=
  fold_left (fun d fclass => PyDict.set (cname fclass) fclass d) l [].

Definition core_fclasses_map := fclasses_map core_fclasses.
Definition native_fclasses_map := fclasses_map native_fclasses.

(** The value given for a featurizer in [--featurize-with-hyperparams]:
    [None], a dictionary, or any other literal. On a literal that is not a
    dictionary [dict.update] iterates: it merges the pairs the literal
    yields, in order, until the literal is exhausted ([err] is [None]) or an
    element that is not a pair raises [err]; a literal that is not iterable
    raises at once, with no pair. So [[]] is [POther [] None], [[["k", 1]]]
    is [POther [("k", HInt 1)] None] and [3] is [POther [] (Some TypeError)]. *)
Inductive pyparams :=
| PNone
| PDict (d : hdict)
| POther (pairs : list (string * hval)) (err : option exn).

(** The dictionary that a sequence of pairs amounts to: a later pair wins. *)
Definition pairs_to_dict (pairs : list (string * hval)) : hdict :=
  fold_left (fun d kv => <[fst kv := snd kv]> d) pairs ∅.

(** What [ast.literal_eval] makes of one [--featurize-with-hyperparams]
    string: an exception, a literal that is not a dictionary, or a
    dictionary (its items, keys being strings). *)
Inductive hp_literal :=
| Malformed (e : exn)
| NotADict
| ADict (items : list (string * pyparams)).

(** Lines 641-647. *)
Definition select_featurizers (featurize_with : list string)
    : list (string * pyparams) :=
  let featurize_with :=
    if bool_decide ("all" ∈ featurize_with)
    then PyDict.keys core_fclasses_map
    else featurize_with in
  map (fun fclass_name => (fclass_name, PNone)) featurize_with.

(** Lines 649-657. *)
Fixpoint add_hyperparams (featurize_with_hyperparams : list hp_literal)
    (fclass_names_w_params : list (string * pyparams))
    : M machine (list (string * pyparams)) :=
  match featurize_with_hyperparams with
  | [] => ret fclass_names_w_params
  | fstr :: rest =>
      match fstr with
      | Malformed e => raise e
      | NotADict => raise TypeError
      | ADict fdict =>
          match fdict with
          | [fclass_name_w_params] =>
              add_hyperparams rest
                (fclass_names_w_params ++ [fclass_name_w_params])
          | _ => raise ValueError
          end
      end
  end.

(** Lines 662-680: the class for a name. *)
Definition find_fclass (w : world) (fclass_name : string) : M machine featurizer :=
  match PyDict.get fclass_name native_fclasses_map with
  | Some fclass => ret fclass
  | None =>
      (if negb (Str.contains_char "." fclass_name) then
         log_at Critical
           "'{fclass_name}' not recognized as BEEP native featurizer or importable module." ;;
         raise ClickExit
       else ret tt) ;;
      let '(modname, _, clsname) := Str.rpartition "." fclass_name in
      x <- call (EvImport modname clsname) (import_class w modname clsname) ;;
      let '(cls, is_subclass) := x in
      (if negb is_subclass then
         log_at Critical "Class {cls.__name__} is not a subclass of BeepFeatures." ;;
         raise ClickExit
       else ret tt) ;;
      ret cls
  end.

(** Lines 682-686: [hps] is the class's own dictionary, updated in place;
    the tuple holds a reference to it. *)
Definition configure (fclass : featurizer) (fclass_params : pyparams)
    : M machine (featurizer * loc) :=
  let hps := defaults fclass in
  match fclass_params with
  | PNone => ret tt
  | PDict d =>
      cur <- heap_get hps ;;
      heap_set hps (dict_update cur d)
  | POther pairs err =>
      cur <- heap_get hps ;;
      heap_set hps (dict_update cur (pairs_to_dict pairs)) ;;
      match err with
      | Some e => raise e
      | None => ret tt
      end
  end ;;
  ret (fclass, hps).

(** Lines 660-686. *)
Fixpoint resolve_fclasses (w : world)
    (fclass_names_w_params : list (string * pyparams))
    (fclass_tuples : list (featurizer * loc)) : M machine (list (featurizer * loc)) :=
  match fclass_names_w_params with
  | [] => ret fclass_tuples
  | (fclass_name, fclass_params) :: rest =>
      fclass <- find_fclass w fclass_name ;;
      t <- configure fclass fclass_params ;;
      resolve_fclasses w rest (fclass_tuples ++ [t])
  end.

(** ** [featurize]: the loops (lines 693-770) *)

Definition op_subresult_init : op_subresult :=
  OpSubresult None false false None None None.

Definition set_valid (b : bool) (r : op_subresult) : op_subresult :=
  OpSubresult (sub_output r) b (featurized r) (sub_walltime r)
              (sub_traceback r) (op_md5_chksum r).
Definition set_featurized (b : bool) (r : op_subresult) : op_subresult :=
  OpSubresult (sub_output r) (valid r) b (sub_walltime r)
              (sub_traceback r) (op_md5_chksum r).
Definition set_sub_output (o : string) (r : op_subresult) : op_subresult :=
  OpSubresult (Some o) (valid r) (featurized r) (sub_walltime r)
              (sub_traceback r) (op_md5_chksum r).
Definition set_op_md5_chksum (h : string) (r : op_subresult) : op_subresult :=
  OpSubresult (sub_output r) (valid r) (featurized r) (sub_walltime r)
              (sub_traceback r) (Some h).
Definition set_sub_traceback (e : exn) (r : op_subresult) : op_subresult :=
  OpSubresult (sub_output r) (valid r) (featurized r) (sub_walltime r)
              (Some e) (op_md5_chksum r).
Definition set_sub_walltime (r : op_subresult) : op_subresult :=
  OpSubresult (sub_output r) (valid r) (featurized r) (Some tt)
              (sub_traceback r) (op_md5_chksum r).

(** Lines 741-742: where the features of a class for a file are written. *)
Definition feature_output_path (output_dir fclass_name file : string) : string :=
  let output_filename := fclass_name +:+ "-" +:+ PosixPath.basename file in
  PosixPath.join output_dir output_filename.

(** The body of the [try] (lines 723-747); the local is [op_subresult]. *)
Definition featurize_try (w : world) (output_dir file : string)
    (fclass : featurizer) (f_hyperparams : loc) : M (machine * op_subresult) unit :=
  let fclass_name := cname fclass in
  hps <- lift (heap_get f_hyperparams) ;;
  lift (call (EvConstruct fclass file hps) (construct w fclass file hps)) ;;
  v <- lift (call (EvFValidate fclass file) (f_validate w fclass file hps)) ;;
  let '(is_valid, reason) := v in
  (if is_valid then
     set_local (set_valid true) ;;
     lift (log_at Info
       "{log_prefix}: Featurizer {fclass_name} valid with params {f_hyperparams} for '{file}'")
   else raise (BEEPFeaturizationError reason)) ;;
  lift (call (EvCreateFeatures fclass file) (create_features w fclass file hps)) ;;
  set_local (set_featurized true) ;;
  lift (log_at Info
    "{log_prefix}: Featurizer {fclass_name} applied with params {f_hyperparams} for '{file}'") ;;
  let output_path := feature_output_path output_dir fclass_name file in
  lift (call (EvDumpfn output_path) (dumpfn w output_path)) ;;
  lift (touch output_path) ;;
  lift (log_at Info
    "{log_prefix}: Featurizer {fclass_name} features for '{file}' written to '{output_path}'") ;;
  set_local (set_sub_output output_path) ;;
  h <- lift (call (EvMd5 output_path) (md5sum w output_path)) ;;
  set_local (set_op_md5_chksum h).

(** One iteration of the inner loop (lines 709-765): [op_result] in, the
    updated [op_result] out. *)
Definition featurize_step (w : world) (ctx : ContextPersister)
    (output_dir file : string) (op_result : PyDict.t op_entry)
    (t : featurizer * loc) : M machine (PyDict.t op_entry) :=
  let '(fclass, f_hyperparams) := t in
  let fclass_name := cname fclass in
  x <- with_local op_subresult_init
         (featurize_try w output_dir file fclass f_hyperparams) ;;
  let '(r, op_subresult) := x in
  op_subresult <-
    match r with
    | Ok _ => ret op_subresult
    | Raise e =>
        if is_interrupt e then
          log_at Critical "Keyboard interrupt caught - exiting..." ;;
          raise ClickExit
        else
          log_at Error
            "{log_prefix}: Failed/invalid: ({tbinfo[0].__name__}): {fclass.__name__}" ;;
          let op_subresult := set_sub_traceback e op_subresult in
          if halt_on_error ctx then raise e else ret op_subresult
    end ;;
  let op_subresult := set_sub_walltime op_subresult in
  ret (PyDict.set fclass_name (OpStep op_subresult) op_result).

(** [for x in l: acc = body acc x] *)
Fixpoint foldM {St A B} (body : B -> A -> M St B) (acc : B) (l : list A)
    : M St B :=
  match l with
  | [] => ret acc
  | x :: r => acc' <- body acc x ;; foldM body acc' r
  end.

(** One iteration of the outer loop (lines 695-770); the counter [i] only
    feeds the log prefix. *)
Definition featurize_file (w : world) (ctx : ContextPersister)
    (output_dir : string) (fclass_tuples : list (featurizer * loc))
    (i : nat) (file : string) : M machine nat :=
  h <- call (EvMd5 file) (md5sum w file) ;;
  let op_result : PyDict.t op_entry :=
    [("walltime", OpWalltime None); ("processed_md5_chksum", OpMd5 h)] in
  log_at Debug "{log_prefix}: Loading processed run '{file}'." ;;
  call (EvAutoLoadProcessed file) (auto_load_processed w file) ;;
  log_at Debug "{log_prefix}: Loaded processed run '{file}' into memory." ;;
  op_result <- foldM (featurize_step w ctx output_dir file) op_result
                     fclass_tuples ;;
  let op_result := PyDict.set "walltime" (OpWalltime (Some tt)) op_result in
  set_status (PyDict.set file (FeaturizeResult op_result)) ;;
  ret (i + 1).

(** ** [featurize]: the summary (lines 772-811) *)

(** [feats_succeeded] of one file's record (lines 778-781). *)
Fixpoint feats_succeeded (data : PyDict.t op_entry) : list bool :=
  match data with
  | [] => []
  | (fname, fdata) :: rest =>
      if bool_decide (fname ∉ ["walltime"; "processed_md5_chksum"]) then
        match fdata with
        | OpStep r => featurized r :: feats_succeeded rest
        | _ => feats_succeeded rest
        end
      else feats_succeeded rest
  end.

Definition count_true (l : list bool) : nat := length (List.filter id l).

Fixpoint featurize_classify (n_tuples : nat) (items : PyDict.t status_value)
    (all_succeeded some_succeeded none_succeeded : list (string * nat))
    : list (string * nat) * list (string * nat) * list (string * nat) :=
  match items with
  | [] => (all_succeeded, some_succeeded, none_succeeded)
  | (file, FeaturizeResult data) :: rest =>
      let n_success := count_true (feats_succeeded data) in
      if Nat.eqb n_success n_tuples then
        featurize_classify n_tuples rest
          (all_succeeded ++ [(file, n_success)]) some_succeeded none_succeeded
      else if Nat.eqb n_success 0 then
        featurize_classify n_tuples rest
          all_succeeded some_succeeded (none_succeeded ++ [(file, n_success)])
      else
        featurize_classify n_tuples rest
          all_succeeded (some_succeeded ++ [(file, n_success)]) none_succeeded
  | _ :: rest =>
      featurize_classify n_tuples rest all_succeeded some_succeeded none_succeeded
  end.

Definition featurize_report (n_tuples : nat) : M machine unit :=
  log_at Info "Featurization report:" ;;
  status_json <- gets m_status ;;
  let '(all_succeeded, some_succeeded, none_succeeded) :=
    featurize_classify n_tuples status_json [] [] [] in
  log_at Info
    "\tAll {len(fclass_tuples)} featurizers succeeded: {len(all_succeeded)}/{n_files}" ;;
  for_each all_succeeded (fun _ => log_at Info "\t\t- {filename}") ;;
  (if Nat.ltb 1 n_tuples then
     log_at Info "\tSome featurizers succeeded: {len(some_succeeded)}/{n_files}" ;;
     for_each some_succeeded (fun _ =>
       log_at Info "\t\t- {filename}: {n_success}/{len(fclass_tuples)}")
   else ret tt) ;;
  log_at Info
    "\tNo featurizers succeeded or file failed: {len(none_succeeded)}/{n_files}" ;;
  for_each none_succeeded (fun _ => log_at Info "\t\t- {filename}").

(** Lines 622-686: from the command line to [fclass_tuples]. *)
Definition featurizers_of (w : world) (featurize_with : list string)
    (featurize_with_hyperparams : list hp_literal)
    : M machine (list (featurizer * loc)) :=
  let fclass_names_w_params := select_featurizers featurize_with in
  fclass_names_w_params <-
    add_hyperparams featurize_with_hyperparams fclass_names_w_params ;;
  resolve_fclasses w fclass_names_w_params [].

(** Lines 693-770. *)
Definition featurize_files (w : world) (ctx : ContextPersister)
    (output_dir : string) (fclass_tuples : list (featurizer * loc))
    (files : list string) : M machine unit :=
  set_status (fun _ => []) ;;
  foldM (featurize_file w ctx output_dir fclass_tuples) 0 files ;;
  ret tt.

(** The [featurize] subcommand. *)
Definition featurize (w : world) (ctx : ContextPersister)
    (files : list string) (output_dir : option string)
    (featurize_with : list string)
    (featurize_with_hyperparams : list hp_literal) : M machine unit :=
  let files := map (PosixPath.abspath (cwd ctx)) files in
  let output_dir :=
    if given output_dir
    then PosixPath.abspath (cwd ctx) (default "" output_dir)
    else cwd ctx in
  log_at Info "Featurizing {n_files} files" ;;
  fclass_tuples <- featurizers_of w featurize_with featurize_with_hyperparams ;;
  log_at Info "Applying {len(fclass_tuples)} featurizers to each of {n_files} files" ;;
  featurize_files w ctx output_dir fclass_tuples files ;;
  featurize_report (length fclass_tuples) ;;
  write_status w ctx.

(** ** Concrete collaborators for the scenarios *)

(** The fragment of [fnmatch] without bracket expressions: [*] matches any
    run of characters, [?] any one character. *)
Fixpoint glob_match (pat name : string) : bool :=
  match pat with
  | EmptyString => bool_decide (name = "")
  | String c pat' =>
      if Ascii.eqb c "*" then
        (fix star (n : string) : bool :=
           glob_match pat' n ||
           match n with
           | EmptyString => false
           | String _ n' => star n'
           end) name
      else
        match name with
        | EmptyString => false
        | String c' name' =>
            (Ascii.eqb c "?" || Ascii.eqb c c') && glob_match pat' name'
        end
  end.

Module Scenario.

(** Two classes of the same name in two installed packages. *)
Definition pkg1_Foo := FClass "Foo" 8.
Definition pkg2_Foo := FClass "Foo" 9.

(** A class whose name is a bookkeeping key of the per-file record. *)
Definition pkg1_walltime := FClass "walltime" 10.

Definition importer (modname clsname : string) : outcome (featurizer * bool) :=
  if String.eqb modname "pkg1" && String.eqb clsname "Foo" then Ok (pkg1_Foo, true)
  else if String.eqb modname "pkg2" && String.eqb clsname "Foo" then Ok (pkg2_Foo, true)
  else if String.eqb modname "pkg1" && String.eqb clsname "walltime"
  then Ok (pkg1_walltime, true)
  else Raise (External "ModuleNotFoundError").

(** A host where every collaborator succeeds and every file is valid; the
    bucket holds [keys]. *)
Definition calm (keys : list string) : world := {|
  list_s3_objects := fun _ => Ok keys;
  download_s3_object := fun _ _ _ => Ok tt;
  fnmatch := fun name pat => glob_match pat name;
  md5sum := fun _ => Ok "d41d8cd98f00b204e9800998ecf8427e";
  auto_load := fun _ => Ok "schema.yaml";
  dp_validate := fun _ => Ok (true, "");
  dp_structure := fun _ _ => Ok tt;
  dp_to_json_file := fun _ _ _ => Ok tt;
  import_class := importer;
  auto_load_processed := fun _ => Ok tt;
  construct := fun _ _ _ => Ok tt;
  f_validate := fun _ _ _ => Ok (true, "");
  create_features := fun _ _ _ => Ok tt;
  dumpfn := fun _ => Ok tt
|}.

(** As [calm], but [create_features] raises on the file [bad]. *)
Definition failing_on (bad : string) : world := {|
  list_s3_objects := fun _ => Ok [];
  download_s3_object := fun _ _ _ => Ok tt;
  fnmatch := fun name pat => glob_match pat name;
  md5sum := fun _ => Ok "d41d8cd98f00b204e9800998ecf8427e";
  auto_load := fun _ => Ok "schema.yaml";
  dp_validate := fun _ => Ok (true, "");
  dp_structure := fun f _ =>
    if String.eqb f bad then Raise (External "RuntimeError") else Ok tt;
  dp_to_json_file := fun _ _ _ => Ok tt;
  import_class := importer;
  auto_load_processed := fun _ => Ok tt;
  construct := fun _ _ _ => Ok tt;
  f_validate := fun _ _ _ => Ok (true, "");
  create_features := fun _ f _ =>
    if String.eqb f bad then Raise (External "RuntimeError") else Ok tt;
  dumpfn := fun _ => Ok tt
|}.

Definition env : beep_env := BeepEnv None "/var/cache/beep".

Definition ctx (halt : bool) : ContextPersister :=
  Ctx "/home/u" None [] None halt.

(** A machine whose disk holds [paths] and whose class dictionaries are
    those of [heap]. *)
Definition boot (paths : list string) (heap : gmap loc hdict) : machine :=
  Machine (list_to_set paths) heap [] [] [].

(** Declared defaults for [DeltaQFastCharge], for the scenarios. *)
Definition declared : gmap loc hdict :=
  {[ 1 := {[ "n_interp" := HInt 1000 ]} ]}.

End Scenario.

(** ** Predicates used in the statements *)

(** A computation that only appends log records satisfying [P]; [lg] reads
    the log off the state. *)
Definition logs_only {St A} (lg : St -> list log_record)
    (P : log_record -> Prop) (c : M St A) : Prop :=
  forall s, exists l, lg (snd (c s)) = lg s ++ l /\ Forall P l.

Definition not_warning (r : log_record) : Prop := lvl r <> Warning.

#[global] Instance level_eq_dec : EqDecision level.
Proof. solve_decision. Defined.

#[global] Instance featurizer_eq_dec : EqDecision featurizer.
Proof. solve_decision. Defined.

#[global] Instance not_warning_dec (r : log_record) : Decision (not_warning r).
Proof. unfold not_warning. apply _. Defined.

(** The names of the core classes. *)
Definition core_names : list string :=
  [ "HPPCResistanceVoltageFeatures"; "DeltaQFastCharge"; "TrajectoryFastCharge";
    "CycleSummaryStats"; "DiagnosticProperties"; "DiagnosticSummaryStats" ].

(** The dictionary a tuple's reference [l] denotes in the machine [m]: the
    hyperparameters a featurizer built from that tuple is given. *)
Definition effective (m : machine) (l : loc) : hdict := default ∅ (m_heap m !! l).

(** The class [find_fclass] returns for a name, when it returns one. *)
Definition class_of (w : world) (fclass_name : string) : option featurizer :=
  match PyDict.get fclass_name native_fclasses_map with
  | Some fclass => Some fclass
  | None =>
      if Str.contains_char "." fclass_name then
        let '(modname, _, clsname) := Str.rpartition "." fclass_name in
        match import_class w modname clsname with
        | Ok (cls, true) => Some cls
        | _ => None
        end
      else None
  end.

(** The dictionaries given, in order, for the classes whose
    [DEFAULT_HYPERPARAMETERS] is at [l]. *)
Fixpoint overrides_of (w : world) (l : loc) (specs : list (string * pyparams))
    : list hdict :=
  match specs with
  | [] => []
  | (fclass_name, PDict d) :: rest =>
      match class_of w fclass_name with
      | Some fclass =>
          if Nat.eqb (defaults fclass) l then d :: overrides_of w l rest
          else overrides_of w l rest
      | None => overrides_of w l rest
      end
  | (fclass_name, POther pairs _) :: rest =>
      match class_of w fclass_name with
      | Some fclass =>
          if Nat.eqb (defaults fclass) l
          then pairs_to_dict pairs :: overrides_of w l rest
          else overrides_of w l rest
      | None => overrides_of w l rest
      end
  | (_, PNone) :: rest => overrides_of w l rest
  end.

(** The error, if any, that the [try] of one featurizer on one file meets:
    the first exception of a collaborator, or the failed validation. *)
Definition step_error (w : world) (output_dir : string) (fclass : featurizer)
    (file : string) (hps : hdict) : option exn :=
  match construct w fclass file hps with
  | Raise e => Some e
  | Ok _ =>
      match f_validate w fclass file hps with
      | Raise e => Some e
      | Ok (false, reason) => Some (BEEPFeaturizationError reason)
      | Ok (true, _) =>
          match create_features w fclass file hps with
          | Raise e => Some e
          | Ok _ =>
              let output_path :=
                feature_output_path output_dir (cname fclass) file in
              match dumpfn w output_path with
              | Raise e => Some e
              | Ok _ =>
                  match md5sum w output_path with
                  | Raise e => Some e
                  | Ok _ => None
                  end
              end
          end
      end
  end.



(** The error, if any, that the [try] of [structure] meets on the [i]-th
    file. *)
Definition structure_error (w : world) (output_files : list string)
    (automatic validation_only no_raw : bool) (i : nat) (f : string)
    : option exn :=
  match md5sum w f with
  | Raise e => Some e
  | Ok _ =>
      match auto_load w f with
      | Raise e => Some e
      | Ok _ =>
          match dp_validate w f with
          | Raise e => Some e
          | Ok (false, reason) => Some (BeepValidationError reason)
          | Ok (true, _) =>
              if validation_only then None
              else
                match dp_structure w f automatic with
                | Raise e => Some e
                | Ok _ =>
                    match output_files !! i with
                    | None => Some IndexError
                    | Some output_fname =>
                        match dp_to_json_file w f output_fname no_raw with
                        | Raise e => Some e
                        | Ok _ => None
                        end
                    end
                end
          end
      end
  end.

(** Keys of a dictionary after [d[k] = v]. *)
Definition add_key (k : string) (ks : list string) : list string :=
  if bool_decide (k ∈ ks) then ks else ks ++ [k].

(** The distinct elements of a list, in order of first occurrence: the keys
    of a dictionary filled by assigning to each element in turn. *)
Definition first_seen_from (ks : list string) (l : list string) : list string :=
  fold_left (fun ks k => add_key k ks) l ks.

Definition first_seen (l : list string) : list string := first_seen_from [] l.

(** The keys of a per-file record of [featurize] that are not steps. *)
Definition reserved_keys : list string := ["walltime"; "processed_md5_chksum"].

(** An attempt that does not stop the run: no error, or an error other than
    an operator interrupt while errors do not halt. *)
Definition passes (halt : bool) (err : option exn) : Prop :=
  match err with
  | None => True
  | Some e => is_interrupt e = false /\ halt = false
  end.

(** A file whose featurization does not stop the run: it loads, and no
    featurizer stops the run on it. *)
Definition file_passes (w : world) (ctx : ContextPersister) (output_dir : string)
    (fclass_tuples : list (featurizer * loc)) (m : machine) (file : string)
    : Prop :=
  succeeds (md5sum w file) = true
  /\ succeeds (auto_load_processed w file) = true
  /\ forall t, In t fclass_tuples ->
       passes (halt_on_error ctx)
         (step_error w output_dir (fst t) file (effective m (snd t))).

(** The names under which the steps of [fclass_tuples] are recorded. *)
Definition step_names (fclass_tuples : list (featurizer * loc)) : list string :=
  map (fun t => cname (fst t)) fclass_tuples.

(** A complete per-file record of [featurize]: its keys are the two
    bookkeeping keys and the step names, each once, and each step name that
    is not a bookkeeping key holds a step record. *)
Definition complete_record (fclass_tuples : list (featurizer * loc))
    (d : PyDict.t op_entry) : Prop :=
  PyDict.keys d = first_seen (reserved_keys ++ step_names fclass_tuples)
  /\ forall name, In name (step_names fclass_tuples) ->
       name ∉ reserved_keys ->
       exists r, PyDict.get name d = Some (OpStep r).

(** The warning of line 420. *)
Definition both_given_warning : log_record :=
  LogRecord Warning
    "Both --output-filenames and --output-dir were specified; defaulting to --output-dir with auto-naming.".

(** Auto-named destinations in a directory. *)
Definition auto_named (dir : string) (files : list string) : list string :=
  map (fun f => add_suffix f dir STRUCTURED_SUFFIX (Some ".json.gz")) files.

(** Events of a kind, to count them in a trace. *)
Definition is_dumpfn (ev : event) : bool :=
  match ev with EvDumpfn _ => true | _ => false end.

Definition is_construct (ev : event) : bool :=
  match ev with EvConstruct _ _ _ => true | _ => false end.

(** ** Further vocabulary for the statements *)

(** Where the key [s3k] is downloaded to (lines 392-394). *)
Definition s3_local_fullname (e : beep_env) (ctx : ContextPersister)
    (s3_use_cache : bool) (s3k : string) : string :=
  PosixPath.join (if s3_use_cache then S3_CACHE e else cwd ctx)
    (PosixPath.basename s3k).

Definition in_keys (s3_keys : list string) (token : string) : bool :=
  bool_decide (token ∈ s3_keys).

Definition is_literal (token : string) : bool :=
  negb (Str.contains_char "*" token).

(** The record logged when the operator interrupts. *)
Definition interrupt_record : log_record :=
  LogRecord Critical "Keyboard interrupt caught - exiting...".

(** The three classes of the status report of [structure]. *)
Definition is_succeeded (kv : string * status_value) : bool :=
  match snd kv with
  | StructureResult r => validated r && structured r
  | _ => false
  end.

Definition is_failed (kv : string * status_value) : bool :=
  match snd kv with
  | StructureResult r => validated r && negb (structured r)
  | _ => false
  end.

Definition is_invalid (kv : string * status_value) : bool :=
  match snd kv with
  | StructureResult r => negb (validated r)
  | _ => false
  end.

(** The number of featurizers recorded as featurized for a file, when the
    entry is a record of [featurize]. *)
Definition n_success_of (kv : string * status_value) : option nat :=
  match snd kv with
  | FeaturizeResult data => Some (count_true (feats_succeeded data))
  | _ => None
  end.

Definition in_all (n_tuples : nat) (kv : string * status_value) : bool :=
  match n_success_of kv with
  | Some n => Nat.eqb n n_tuples
  | None => false
  end.

Definition in_none (n_tuples : nat) (kv : string * status_value) : bool :=
  match n_success_of kv with
  | Some n => negb (Nat.eqb n n_tuples) && Nat.eqb n 0
  | None => false
  end.

Definition in_some (n_tuples : nat) (kv : string * status_value) : bool :=
  match n_success_of kv with
  | Some n => negb (Nat.eqb n n_tuples) && negb (Nat.eqb n 0)
  | None => false
  end.

Definition with_count (kv : string * status_value) : string * nat :=
  (fst kv, default 0%nat (n_success_of kv)).

(** A computation that only appends to a list kept in the state, and only
    elements satisfying [P]. *)
Definition appends_only {St T A} (proj : St -> list T) (P : T -> Prop)
    (c : M St A) : Prop :=
  forall s, exists l, proj (snd (c s)) = proj s ++ l /\ Forall P l.



(** The calls that structure a file or write the result. *)
Definition is_structuring (ev : event) : bool :=
  match ev with
  | EvStructure _ | EvToJson _ _ => true
  | _ => false
  end.

(** The native class of a name, with its own dictionary. *)
Definition native_tuple (fclass_name : string) : option (featurizer * loc) :=
  match PyDict.get fclass_name native_fclasses_map with
  | Some fclass => Some (fclass, defaults fclass)
  | None => None
  end.

(** ** [beep/utils/secrets_manager.py] *)

Module SecretsManager.

(** What the module asks of boto3, in order: [boto3.session.Session()],
    [session.client(service_name=..., region_name=...)] and
    [client.get_secret_value(SecretId=...)] on a client of that region. *)
Inductive request :=
| NewSession
| NewClient (service_name region_name : string)
| GetSecretValue (region_name secret_id : string).

(** The fields of the response that the code reads. *)
Record response := Response {
  SecretString : option string;
  SecretBinary : option string
}.

(** boto3 and the two decoders; [J] is the type of parsed JSON. *)
Record host (J : Type) := Host {
  new_session : outcome unit;
  new_client : string -> string -> outcome unit;          (* service, region *)
  get_secret_value : string -> string -> outcome response;  (* region, id *)
  json_loads : string -> outcome J;
  b64decode : string -> outcome string
}.
Arguments new_session {J} h.
Arguments new_client {J} h service_name region_name.
Arguments get_secret_value {J} h region_name secret_id.
Arguments json_loads {J} h s.
Arguments b64decode {J} h s.

(** [beep.config.config]: environment, section, option, value. *)
Definition config_t := PyDict.t (PyDict.t (PyDict.t string)).

Definition KeyError : exn := External "KeyError".

(** The classes that derive from [BaseException] without deriving from
    [Exception]. *)
Definition base_only : list string :=
  [ "BaseException"; "BaseExceptionGroup"; "CancelledError"; "GeneratorExit";
    "KeyboardInterrupt"; "SystemExit" ].

(** Whether [except Exception] catches [e]. The exceptions of [cmd.py]
    derive from [Exception]; an exception named by its class does unless
    the class is one of [base_only]. *)
Definition is_exception (e : exn) : bool :=
  match e with
  | KeyboardInterrupt => false
  | External name => negb (bool_decide (name ∈ base_only))
  | _ => true
  end.

(** [d[k]] *)
Definition getitem {V} (k : string) (d : PyDict.t V) : M (list request) V :=
  match PyDict.get k d with
  | Some v => ret v
  | None => raise KeyError
  end.

(** A call on boto3: recorded, then its result or exception. *)
Definition send {A} (rq : request) (r : outcome A) : M (list request) A :=
  modify (fun sent => sent ++ [rq]) ;; (fun sent => (r, sent)).

Definition pure_call {A} (r : outcome A) : M (list request) A :=
  fun sent => (r, sent).

(** Lines 33-68. *)
Definition get_secret {J} (h : host J) (secret_name : string)
    : M (list request) J :=
  let region_name := "us-west-2" in
  send NewSession (new_session h) ;;
  send (NewClient "secretsmanager" region_name)
       (new_client h "secretsmanager" region_name) ;;
  get_secret_value_response <-
    try_except
      (send (GetSecretValue region_name secret_name)
            (get_secret_value h region_name secret_name))
      (fun e => raise e) ;;
  match SecretString get_secret_value_response with
  | Some secret => pure_call (json_loads h secret)
  | None =>
      match SecretBinary get_secret_value_response with
      | Some b =>
          decoded_binary_secret <- pure_call (b64decode h b) ;;
          pure_call (json_loads h decoded_binary_secret)
      | None => raise KeyError
      end
  end.

(** Lines 19-30. *)
Definition secret_accessible {J} (h : host J) (config : config_t)
    (environment : string) : M (list request) bool :=
  section <- getitem environment config ;;
  pg_config <- getitem "postgres" section ;;
  match PyDict.get "secret" pg_config with
  | Some secret_name =>
      try_except
        (get_secret h secret_name ;; ret true)
        (fun e => if is_exception e then ret false else raise e)
  | None => ret true
  end.

End SecretsManager.

(** ** More hosts for the scenarios *)

Module Hosts.

(** As [Scenario.calm], but the operator interrupts while the file [bad] is
    structured or featurized. *)
Definition interrupted_on (bad : string) : world := {|
  list_s3_objects := fun _ => Ok [];
  download_s3_object := fun _ _ _ => Ok tt;
  fnmatch := fun name pat => glob_match pat name;
  md5sum := fun _ => Ok "d41d8cd98f00b204e9800998ecf8427e";
  auto_load := fun _ => Ok "schema.yaml";
  dp_validate := fun _ => Ok (true, "");
  dp_structure := fun f _ =>
    if String.eqb f bad then Raise KeyboardInterrupt else Ok tt;
  dp_to_json_file := fun _ _ _ => Ok tt;
  import_class := Scenario.importer;
  auto_load_processed := fun _ => Ok tt;
  construct := fun _ _ _ => Ok tt;
  f_validate := fun _ _ _ => Ok (true, "");
  create_features := fun _ f _ =>
    if String.eqb f bad then Raise KeyboardInterrupt else Ok tt;
  dumpfn := fun _ => Ok tt
|}.

(** As [Scenario.calm], but the download of the key [bad] is refused. *)
Definition refusing (keys : list string) (bad : string) : world := {|
  list_s3_objects := fun _ => Ok keys;
  download_s3_object := fun _ k _ =>
    if String.eqb k bad then Raise (External "ClientError") else Ok tt;
  fnmatch := fun name pat => glob_match pat name;
  md5sum := fun _ => Ok "d41d8cd98f00b204e9800998ecf8427e";
  auto_load := fun _ => Ok "schema.yaml";
  dp_validate := fun _ => Ok (true, "");
  dp_structure := fun _ _ => Ok tt;
  dp_to_json_file := fun _ _ _ => Ok tt;
  import_class := Scenario.importer;
  auto_load_processed := fun _ => Ok tt;
  construct := fun _ _ _ => Ok tt;
  f_validate := fun _ _ _ => Ok (true, "");
  create_features := fun _ _ _ => Ok tt;
  dumpfn := fun _ => Ok tt
|}.


(** As [Scenario.calm], but nothing can be written by [dumpfn]. *)
Definition read_only : world := {|
  list_s3_objects := fun _ => Ok [];
  download_s3_object := fun _ _ _ => Ok tt;
  fnmatch := fun name pat => glob_match pat name;
  md5sum := fun _ => Ok "d41d8cd98f00b204e9800998ecf8427e";
  auto_load := fun _ => Ok "schema.yaml";
  dp_validate := fun _ => Ok (true, "");
  dp_structure := fun _ _ => Ok tt;
  dp_to_json_file := fun _ _ _ => Raise (External "PermissionError");
  import_class := Scenario.importer;
  auto_load_processed := fun _ => Ok tt;
  construct := fun _ _ _ => Ok tt;
  f_validate := fun _ _ _ => Ok (true, "");
  create_features := fun _ _ _ => Ok tt;
  dumpfn := fun _ => Raise (External "PermissionError")
|}.

(** A Secrets Manager that holds the secret [beep/stage] as a string. *)
Definition vault : SecretsManager.host string := {|
  SecretsManager.new_session := Ok tt;
  SecretsManager.new_client := fun _ _ => Ok tt;
  SecretsManager.get_secret_value := fun _ secret_id =>
    if String.eqb secret_id "beep/stage"
    then Ok (SecretsManager.Response (Some "{}") None)
    else Raise (External "ClientError");
  SecretsManager.json_loads := fun s => Ok s;
  SecretsManager.b64decode := fun s => Ok s
|}.

(** A machine without AWS credentials or region: no client can be made. *)
Definition offline : SecretsManager.host string := {|
  SecretsManager.new_session := Ok tt;
  SecretsManager.new_client := fun _ _ => Raise (External "NoCredentialsError");
  SecretsManager.get_secret_value := fun _ _ => Raise (External "ClientError");
  SecretsManager.json_loads := fun s => Ok s;
  SecretsManager.b64decode := fun s => Ok s
|}.

(** A Secrets Manager whose request makes the interpreter exit. *)
Definition exiting : SecretsManager.host string := {|
  SecretsManager.new_session := Ok tt;
  SecretsManager.new_client := fun _ _ => Ok tt;
  SecretsManager.get_secret_value := fun _ _ => Raise (External "SystemExit");
  SecretsManager.json_loads := fun s => Ok s;
  SecretsManager.b64decode := fun s => Ok s
|}.

Definition config : SecretsManager.config_t :=
  [ ("local", [("postgres", [("host", "localhost")])]);
    ("stage", [("postgres", [("secret", "beep/stage")])]);
    ("broken", [("postgres", [("secret", "beep/none")])]) ].

End Hosts.

(** * Properties *)

(** ** Strings and paths *)

Lemma length_append (s t : string) :
  String.length (s +:+ t) = (String.length s + String.length t)%nat.
Proof. induction s as [|c s IH]; simpl; [reflexivity | now rewrite IH]. Qed.

Lemma append_inv_tail (s1 s2 t : string) : s1 +:+ t = s2 +:+ t -> s1 = s2.
Proof.
  revert s2. induction s1 as [|c s1 IH]; intros [|c2 s2] H.
  - reflexivity.
  - exfalso. apply (f_equal String.length) in H.
    rewrite !length_append in H. simpl in H. lia.
  - exfalso. apply (f_equal String.length) in H.
    rewrite !length_append in H. simpl in H. lia.
  - change (String c (s1 +:+ t) = String c2 (s2 +:+ t)) in H.
    inversion H. f_equal. auto.
Qed.

Lemma append_inv_head (s t1 t2 : string) : s +:+ t1 = s +:+ t2 -> t1 = t2.
Proof.
  induction s as [|c s IH]; intros H; [exact H|].
  change (String c (s +:+ t1) = String c (s +:+ t2)) in H.
  inversion H. auto.
Qed.

Example basename_ex : PosixPath.basename "/data/run1/a.csv" = "a.csv".
Proof. reflexivity. Qed.

Example splitext_ex : PosixPath.splitext "a.tar.gz" = ("a.tar", ".gz").
Proof. reflexivity. Qed.

Example splitext_hidden : PosixPath.splitext "..bashrc" = ("..bashrc", "").
Proof. reflexivity. Qed.

Example abspath_ex :
  PosixPath.abspath "/home/u" "../x/./a.csv" = "/home/x/a.csv".
Proof. reflexivity. Qed.

Example add_suffix_ex :
  add_suffix "/data/a.csv" "/out" STRUCTURED_SUFFIX (Some ".json.gz")
  = "/out/a-structured.json.gz".
Proof. reflexivity. Qed.

(** ** The monad *)

Lemma bind_ok {St A B} (c : M St A) (k : A -> M St B) s a s' :
  c s = (Ok a, s') -> bind c k s = k a s'.
Proof. intros H. unfold bind. now rewrite H. Qed.

Lemma bind_raise {St A B} (c : M St A) (k : A -> M St B) s e s' :
  c s = (Raise e, s') -> bind c k s = (Raise e, s').
Proof. intros H. unfold bind. now rewrite H. Qed.

(** A computation that leaves a component [proj] of the state alone. *)
Definition preserves {St X A} (proj : St -> X) (c : M St A) : Prop :=
  forall s, proj (snd (c s)) = proj s.

Section Preserves.
Context {St X : Type} (proj : St -> X).

Lemma preserves_ret {A} (a : A) : preserves proj (ret a).
Proof. intros s. reflexivity. Qed.

Lemma preserves_raise {A} e : preserves proj (@raise St A e).
Proof. intros s. reflexivity. Qed.

Lemma preserves_gets {A} (f : St -> A) : preserves proj (gets f).
Proof. intros s. reflexivity. Qed.

Lemma preserves_modify (f : St -> St) :
  (forall s, proj (f s) = proj s) -> preserves proj (modify f).
Proof. intros Hf s. apply Hf. Qed.

Lemma preserves_bind {A B} (c : M St A) (k : A -> M St B) :
  preserves proj c -> (forall a, preserves proj (k a)) ->
  preserves proj (bind c k).
Proof.
  intros Hc Hk s. unfold bind. specialize (Hc s).
  destruct (c s) as [[a|e] s1]; simpl in *.
  - now rewrite Hk.
  - exact Hc.
Qed.

Lemma preserves_for_each {A} (l : list A) (body : A -> M St unit) :
  (forall x, preserves proj (body x)) -> preserves proj (for_each l body).
Proof.
  intros Hb. induction l as [|x l IH]; simpl.
  - apply preserves_ret.
  - apply preserves_bind; [apply Hb | intros _; exact IH].
Qed.

Lemma preserves_foldM {A B} (body : B -> A -> M St B) (l : list A) (acc : B) :
  (forall b x, preserves proj (body b x)) -> preserves proj (foldM body acc l).
Proof.
  intros Hb. revert acc. induction l as [|x l IH]; intros acc; simpl.
  - apply preserves_ret.
  - apply preserves_bind; [apply Hb | intros b; apply IH].
Qed.
End Preserves.

Section PreservesMachine.
Context {X : Type} (proj : machine -> X).

Lemma preserves_call {A} ev (r : outcome A) :
  (forall m, proj (Machine (m_fs m) (m_heap m) (m_trace m ++ [ev]) (m_log m)
                     (m_status m)) = proj m) ->
  preserves proj (call ev r).
Proof. intros H m. apply H. Qed.

Lemma preserves_lift {L A} (c : M machine A) :
  preserves proj c ->
  preserves (fun sl : machine * L => proj (fst sl)) (lift c).
Proof.
  intros Hc [m l]. unfold lift. simpl. specialize (Hc m).
  destruct (c m) as [r m']. exact Hc.
Qed.

Lemma preserves_set_local {L} (f : L -> L) :
  preserves (fun sl : machine * L => proj (fst sl)) (set_local f).
Proof. intros [m l]. reflexivity. Qed.

Lemma preserves_with_local {L A} (l0 : L) (c : M (machine * L) A) :
  preserves (fun sl : machine * L => proj (fst sl)) c ->
  preserves proj (with_local l0 c).
Proof.
  intros Hc m. unfold with_local. specialize (Hc (m, l0)).
  destruct (c (m, l0)) as [r [m' l']]. exact Hc.
Qed.
End PreservesMachine.

(** One step of a proof that a computation preserves a component: the
    goals left are the computations that do write to it. *)
Ltac frame_step :=
  first
    [ apply preserves_call; reflexivity
    | apply preserves_modify; reflexivity
    | apply preserves_ret
    | apply preserves_raise
    | apply preserves_gets
    | apply preserves_set_local
    | apply preserves_lift
    | apply preserves_for_each; intros ?
    | apply preserves_bind; [|intros ?]
    | match goal with
      | |- preserves _ (if ?b then _ else _) => destruct b
      | |- preserves _ (match ?x with _ => _ end) => destruct x
      end ].

Ltac frame :=
  unfold log_at, touch, exists_on_disk, set_status, heap_get, heap_set;
  repeat frame_step.

Lemma preserves_status_fetch_matched w e ctx bucket cache matched acc :
  preserves m_status (fetch_matched w e ctx bucket cache matched acc).
Proof.
  revert acc. induction matched as [|[k|ks] rest IH]; intros acc; simpl.
  - apply preserves_ret.
  - do 4 (apply preserves_bind; [frame | intros ?]). apply IH.
  - apply preserves_raise.
Qed.

Lemma preserves_status_resolve_files w e ctx files s3 cache :
  preserves m_status (resolve_files w e ctx files s3 cache).
Proof.
  unfold resolve_files, resolve_s3, check_files_exist.
  apply preserves_bind.
  - destruct (given s3); [|apply preserves_ret].
    do 3 (apply preserves_bind; [frame | intros ?]).
    destruct (match_tokens _ _ _ _ _) as [matched local_files].
    apply preserves_bind; [frame | intros ?].
    apply preserves_bind; [apply preserves_status_fetch_matched | intros ?].
    apply preserves_ret.
  - intros fs. frame.
Qed.

(** ** Output destinations of [structure] *)

(** C3, as the code has it: an output directory overrules the output
    filenames. With a directory given, the destinations are auto-named in
    that directory whatever filenames were passed, and a warning is logged
    when filenames were passed too; without a directory, the filenames (one
    per input) are the destinations; with neither, the destinations are
    auto-named in the working directory. *)
Theorem output_dir_overrules_output_filenames
    (ctx : ContextPersister) (files : list string) (output_dir : option string)
    (output_filenames : list string) (m : machine) :
  (given output_dir = true ->
     fst (output_files_of ctx files output_dir output_filenames m)
       = Ok (auto_named (PosixPath.abspath (cwd ctx) (default "" output_dir)) files)
     /\ (output_filenames <> [] ->
         m_log (snd (output_files_of ctx files output_dir output_filenames m))
           = m_log m ++ [both_given_warning]))
  /\ (given output_dir = false -> output_filenames <> [] ->
      length files = length output_filenames ->
      output_files_of ctx files output_dir output_filenames m
        = (Ok (map (PosixPath.abspath (cwd ctx)) output_filenames), m))
  /\ (given output_dir = false -> output_filenames = [] ->
      output_files_of ctx files output_dir output_filenames m
        = (Ok (auto_named (cwd ctx) files), m)).
Proof.
  unfold output_files_of, auto_named. split; [|split].
  - intros ->. split.
    + destruct (bool_decide (output_filenames <> [])); reflexivity.
    + intros Hne. rewrite bool_decide_eq_true_2 by exact Hne. reflexivity.
  - intros -> Hne Hlen. rewrite bool_decide_eq_true_2 by exact Hne.
    rewrite length_map. rewrite bool_decide_eq_false_2 by (intros H; apply H, Hlen).
    reflexivity.
  - intros -> ->. reflexivity.
Qed.

Lemma output_dir_overrules_output_filenames_witness :
  fst (output_files_of (Scenario.ctx false) ["/data/a.csv"] (Some "/out")
         ["/res/a.json"] (Scenario.boot [] ∅))
    = Ok ["/out/a-structured.json.gz"]
  /\ output_files_of (Scenario.ctx false) ["/data/a.csv"] None
         ["res/a.json"] (Scenario.boot [] ∅)
    = (Ok ["/home/u/res/a.json"], Scenario.boot [] ∅)
  /\ output_files_of (Scenario.ctx false) ["/data/a.csv"] None
         [] (Scenario.boot [] ∅)
    = (Ok ["/home/u/a-structured.json.gz"], Scenario.boot [] ∅).
Proof.
  pose proof (output_dir_overrules_output_filenames (Scenario.ctx false)
                ["/data/a.csv"] (Some "/out") ["/res/a.json"]
                (Scenario.boot [] ∅)) as (H1 & _ & _).
  pose proof (output_dir_overrules_output_filenames (Scenario.ctx false)
                ["/data/a.csv"] None ["res/a.json"]
                (Scenario.boot [] ∅)) as (_ & H2 & _).
  pose proof (output_dir_overrules_output_filenames (Scenario.ctx false)
                ["/data/a.csv"] None [] (Scenario.boot [] ∅)) as (_ & _ & H3).
  split; [| split].
  - exact (proj1 (H1 eq_refl)).
  - apply H2; [reflexivity | discriminate | reflexivity].
  - apply H3; reflexivity.
Defined.

(** C3, as the spec words it, fails: with both an output directory and an
    output filename, the destination is the auto-named file in the
    directory, not the filename. *)
Lemma output_filenames_not_used_with_output_dir :
  fst (output_files_of (Scenario.ctx false) ["/data/a.csv"] (Some "/out")
         ["/res/a.json"] (Scenario.boot [] ∅))
    = Ok ["/out/a-structured.json.gz"]
  /\ fst (output_files_of (Scenario.ctx false) ["/data/a.csv"] (Some "/out")
            ["/res/a.json"] (Scenario.boot [] ∅))
     <> Ok (map (PosixPath.abspath "/home/u") ["/res/a.json"]).
Proof. split; [reflexivity | discriminate]. Qed.

(** C6, as the code has it: when no output directory is given, output
    filenames are, and their number differs from the number of resolved
    input files, the run raises [ValueError] right after resolution: no
    further external call is made and [status_json] is untouched. *)
Theorem output_count_mismatch_fails_fast
    (w : world) (e : beep_env) (ctx : ContextPersister)
    (files output_filenames : list string)
    (output_dir protocol_parameters_dir s3_bucket : option string)
    (automatic validation_only no_raw s3_use_cache : bool)
    (m m1 : machine) (resolved : list string) :
  given output_dir = false ->
  output_filenames <> [] ->
  resolve_files w e ctx files s3_bucket s3_use_cache m = (Ok resolved, m1) ->
  length resolved <> length output_filenames ->
  exists m2,
    structure w e ctx files output_filenames output_dir protocol_parameters_dir
      s3_bucket automatic validation_only no_raw s3_use_cache m
      = (Raise ValueError, m2)
    /\ m_trace m2 = m_trace m1
    /\ m_fs m2 = m_fs m1
    /\ m_status m2 = m_status m.
Proof.
  intros Hod Hne Hres Hlen.
  pose proof (preserves_status_resolve_files w e ctx files s3_bucket
                s3_use_cache m) as Hst. rewrite Hres in Hst. simpl in Hst.
  eexists. split.
  - unfold structure. rewrite (bind_ok _ _ _ _ _ Hres).
    unfold bind at 1. simpl. unfold bind at 1.
    unfold output_files_of. rewrite Hod.
    rewrite bool_decide_eq_true_2 by exact Hne.
    rewrite length_map.
    rewrite bool_decide_eq_true_2 by exact Hlen.
    reflexivity.
  - simpl. auto.
Qed.

Lemma output_count_mismatch_fails_fast_witness :
  exists m2,
    structure (Scenario.calm []) Scenario.env (Scenario.ctx false)
      ["a.csv"; "b.csv"] ["out.json"] None None None false false false false
      (Scenario.boot ["/home/u/a.csv"; "/home/u/b.csv"] ∅)
      = (Raise ValueError, m2)
    /\ m_trace m2 = []
    /\ m_status m2 = [].
Proof.
  destruct (output_count_mismatch_fails_fast (Scenario.calm []) Scenario.env
              (Scenario.ctx false) ["a.csv"; "b.csv"] ["out.json"] None None
              None false false false false
              (Scenario.boot ["/home/u/a.csv"; "/home/u/b.csv"] ∅)
              (Scenario.boot ["/home/u/a.csv"; "/home/u/b.csv"] ∅)
              ["/home/u/a.csv"; "/home/u/b.csv"])
    as (m2 & Hrun & Htr & _ & Hst);
    [reflexivity | discriminate | vm_compute; reflexivity | simpl; lia |].
  exists m2. split; [exact Hrun | split; [exact Htr | exact Hst]].
Defined.

(** C6, as the spec words it, fails: with an output directory given, one
    output filename for two input files does not stop the run; both files
    are processed and reported. *)
Lemma output_count_mismatch_ignored_with_output_dir :
  let r := structure (Scenario.calm []) Scenario.env (Scenario.ctx false)
             ["a.csv"; "b.csv"] ["out.json"] (Some "/out") None None
             false false false false
             (Scenario.boot ["/home/u/a.csv"; "/home/u/b.csv"] ∅) in
  fst r = Ok tt
  /\ PyDict.keys (m_status (snd r))
     = ["/home/u/a.csv"; "/home/u/b.csv"; "metadata"]
  /\ In (EvToJson "/home/u/b.csv" "/out/b-structured.json.gz") (m_trace (snd r)).
Proof. vm_compute. repeat split; auto 20. Qed.

(** ** Output paths of [featurize] *)

(** C9, as the code has it: the features of two classes for one file go to
    different paths whenever the two class names differ and neither starts
    with the path separator (no name of a class defined by a [class]
    statement does). *)
Theorem feature_output_paths_differ
    (output_dir file fclass_name1 fclass_name2 : string) :
  fclass_name1 <> fclass_name2 ->
  Str.startswith_char "/" fclass_name1 = false ->
  Str.startswith_char "/" fclass_name2 = false ->
  feature_output_path output_dir fclass_name1 file
    <> feature_output_path output_dir fclass_name2 file.
Proof.
  intros Hne H1 H2 Heq. unfold feature_output_path, PosixPath.join in Heq.
  assert (Hs : forall n, Str.startswith_char "/" n = false ->
     Str.startswith_char PosixPath.sep (n +:+ "-" +:+ PosixPath.basename file)
       = false).
  { intros [|c n] Hn; [reflexivity | exact Hn]. }
  rewrite (Hs _ H1), (Hs _ H2) in Heq.
  destruct (negb (Str.truthy output_dir)
            || Str.endswith_char PosixPath.sep output_dir).
  - apply append_inv_head, append_inv_tail in Heq. congruence.
  - apply append_inv_head in Heq.
    change (String "/" (fclass_name1 +:+ "-" +:+ PosixPath.basename file)
            = String "/" (fclass_name2 +:+ "-" +:+ PosixPath.basename file))
      in Heq.
    inversion Heq as [Heq']. apply append_inv_tail in Heq'. congruence.
Qed.

Lemma feature_output_paths_differ_witness :
  feature_output_path "/out" "DeltaQFastCharge" "/data/a.json"
    <> feature_output_path "/out" "CycleSummaryStats" "/data/a.json".
Proof.
  apply feature_output_paths_differ; [discriminate | reflexivity | reflexivity].
Defined.

(** C9, as the spec words it, fails: the step identifiers [pkg1.Foo] and
    [pkg2.Foo] name two classes, both called [Foo]; their features for one
    file are written to one path, the second over the first. *)
Lemma same_class_name_same_output_path :
  let m := Scenario.boot ["/home/u/a.json"] ∅ in
  let w := Scenario.calm [] in
  "pkg1.Foo" <> "pkg2.Foo"
  /\ fst (featurizers_of w ["pkg1.Foo"; "pkg2.Foo"] [] m)
     = Ok [(Scenario.pkg1_Foo, 8); (Scenario.pkg2_Foo, 9)]
  /\ feature_output_path "/home/u" (cname Scenario.pkg1_Foo) "/home/u/a.json"
     = feature_output_path "/home/u" (cname Scenario.pkg2_Foo) "/home/u/a.json"
  /\ List.filter is_dumpfn
       (m_trace (snd (featurize w (Scenario.ctx false) ["a.json"] None
                        ["pkg1.Foo"; "pkg2.Foo"] [] m)))
     = [EvDumpfn "/home/u/Foo-a.json"; EvDumpfn "/home/u/Foo-a.json"].
Proof. vm_compute. repeat split. discriminate. Qed.

(** ** Resolution of the input tokens *)

(** C2 on the code: the token [data/a.csv] names a file on disk and a key of
    the bucket. The key is fetched, to the working directory, and the
    fetched copy is what resolution returns; the file on disk is not. *)
Lemma literal_token_on_s3_is_fetched :
  let m := Scenario.boot ["/home/u/data/a.csv"] ∅ in
  let r := resolve_files (Scenario.calm ["data/a.csv"]) Scenario.env
             (Scenario.ctx false) ["data/a.csv"] (Some "bucket") false m in
  PosixPath.abspath "/home/u" "data/a.csv" ∈ m_fs m
  /\ fst r = Ok ["/home/u/a.csv"]
  /\ m_trace (snd r)
     = [EvListS3 "bucket"; EvFetch "bucket" "data/a.csv" "/home/u/a.csv"].
Proof.
  cbn zeta. split; [|split].
  - vm_compute. set_solver.
  - vm_compute. reflexivity.
  - vm_compute. reflexivity.
Qed.

(** A literal token that is a key of the bucket is matched as a key, whatever
    is on disk: the matching loop never looks at the disk. *)
Lemma match_tokens_literal_key (w : world) (s3_keys : list string)
    (token : string) :
  Str.contains_char "*" token = false ->
  token ∈ s3_keys ->
  match_tokens w s3_keys [token] [] [] = ([MatchedKey token], []).
Proof.
  intros Hlit Hin. simpl. rewrite Hlit. simpl.
  rewrite bool_decide_eq_true_2 by exact Hin. reflexivity.
Qed.

(** C8 on the code: the glob [*.csv] matches three keys, one of which is also
    a file on disk. The list of matches is appended to [s3_keys_matched] as
    one element, [os.path.basename] of that list raises [TypeError], and the
    run ends there: nothing is fetched and no file list is produced. *)
Lemma glob_token_matching_keys_raises :
  let m := Scenario.boot ["/home/u/a.csv"] ∅ in
  let w := Scenario.calm ["a.csv"; "b.csv"; "c.csv"] in
  match_tokens w ["a.csv"; "b.csv"; "c.csv"] ["*.csv"] [] []
    = ([MatchedList ["a.csv"; "b.csv"; "c.csv"]], [])
  /\ fst (resolve_files w Scenario.env (Scenario.ctx false) ["*.csv"]
            (Some "bucket") false m) = Raise TypeError
  /\ m_trace (snd (resolve_files w Scenario.env (Scenario.ctx false) ["*.csv"]
                     (Some "bucket") false m)) = [EvListS3 "bucket"].
Proof. vm_compute. repeat split. Qed.

(** Any glob token with a match in the bucket ends the resolution with
    [TypeError] at the first such token reached by the download loop. *)
Lemma fetch_matched_list_raises (w : world) (e : beep_env)
    (ctx : ContextPersister) (bucket : string) (cache : bool)
    (keys : list string) (rest : list s3_match) (acc : list string)
    (m : machine) :
  fetch_matched w e ctx bucket cache (MatchedList keys :: rest) acc m
    = (Raise TypeError, m).
Proof. reflexivity. Qed.

(** ** What a run logs *)

Section LogsOnly.
Context {St : Type} (lg : St -> list log_record) (P : log_record -> Prop).

Lemma logs_only_ret {A} (a : A) : logs_only lg P (ret a).
Proof. intros s. exists []. split; [symmetry; apply app_nil_r | constructor]. Qed.

Lemma logs_only_raise {A} e : logs_only lg P (@raise St A e).
Proof. intros s. exists []. split; [symmetry; apply app_nil_r | constructor]. Qed.

Lemma logs_only_gets {A} (f : St -> A) : logs_only lg P (gets f).
Proof. intros s. exists []. split; [symmetry; apply app_nil_r | constructor]. Qed.

Lemma logs_only_modify (f : St -> St) :
  (forall s, lg (f s) = lg s) -> logs_only lg P (modify f).
Proof.
  intros Hf s. exists []. simpl. rewrite Hf.
  split; [symmetry; apply app_nil_r | constructor].
Qed.

Lemma logs_only_bind {A B} (c : M St A) (k : A -> M St B) :
  logs_only lg P c -> (forall a, logs_only lg P (k a)) ->
  logs_only lg P (bind c k).
Proof.
  intros Hc Hk s. unfold bind. destruct (Hc s) as (l1 & E1 & F1).
  destruct (c s) as [[a|e] s1]; simpl in *.
  - destruct (Hk a s1) as (l2 & E2 & F2). exists (l1 ++ l2).
    rewrite E2, E1, app_assoc. split; [reflexivity | now apply Forall_app].
  - exists l1. auto.
Qed.

Lemma logs_only_for_each {A} (l : list A) (body : A -> M St unit) :
  (forall x, logs_only lg P (body x)) -> logs_only lg P (for_each l body).
Proof.
  intros Hb. induction l as [|x l IH]; simpl.
  - apply logs_only_ret.
  - apply logs_only_bind; [apply Hb | intros _; exact IH].
Qed.

Lemma logs_only_foldM {A B} (body : B -> A -> M St B) (l : list A) (acc : B) :
  (forall b x, logs_only lg P (body b x)) -> logs_only lg P (foldM body acc l).
Proof.
  intros Hb. revert acc. induction l as [|x l IH]; intros acc; simpl.
  - apply logs_only_ret.
  - apply logs_only_bind; [apply Hb | intros b; apply IH].
Qed.
End LogsOnly.

Lemma logs_only_log_at (P : log_record -> Prop) l msg :
  P (LogRecord l msg) -> logs_only m_log P (log_at l msg).
Proof. intros HP m. exists [LogRecord l msg]. split; [reflexivity | auto]. Qed.

Lemma logs_only_call {A} (P : log_record -> Prop) ev (r : outcome A) :
  logs_only m_log P (call ev r).
Proof. intros m. exists []. split; [symmetry; apply app_nil_r | constructor]. Qed.

Lemma logs_only_lift {L A} (P : log_record -> Prop) (c : M machine A) :
  logs_only m_log P c ->
  logs_only (fun sl : machine * L => m_log (fst sl)) P (lift c).
Proof.
  intros Hc [m l]. unfold lift. simpl. destruct (Hc m) as (l1 & E & F).
  destruct (c m) as [r m']. simpl in *. eauto.
Qed.

Lemma logs_only_set_local {L} (P : log_record -> Prop) (f : L -> L) :
  logs_only (fun sl : machine * L => m_log (fst sl)) P (set_local f).
Proof. apply logs_only_modify. reflexivity. Qed.

Lemma logs_only_with_local {L A} (P : log_record -> Prop) (l0 : L)
    (c : M (machine * L) A) :
  logs_only (fun sl : machine * L => m_log (fst sl)) P c ->
  logs_only m_log P (with_local l0 c).
Proof.
  intros Hc m. unfold with_local. destruct (Hc (m, l0)) as (l1 & E & F).
  destruct (c (m, l0)) as [r [m' l']]. simpl in *. eauto.
Qed.

Ltac quiet_step :=
  first
    [ apply logs_only_bind; [|intros ?]
    | apply logs_only_ret
    | apply logs_only_raise
    | apply logs_only_gets
    | apply logs_only_call
    | apply logs_only_set_local
    | apply logs_only_lift
    | apply logs_only_log_at; discriminate
    | apply logs_only_modify; reflexivity
    | apply logs_only_for_each; intros ?
    | match goal with
      | |- logs_only _ _ (if ?b then _ else _) => destruct b
      | |- logs_only _ _ (match ?x with _ => _ end) => destruct x
      | |- logs_only _ _ (let '(_, _) := ?x in _) => destruct x
      end ].

Lemma featurize_try_quiet w od file fc l :
  logs_only (fun sl : machine * op_subresult => m_log (fst sl)) not_warning
    (featurize_try w od file fc l).
Proof. unfold featurize_try, heap_get, touch. repeat quiet_step. Qed.

Lemma featurize_step_quiet w ctx od file opr t :
  logs_only m_log not_warning (featurize_step w ctx od file opr t).
Proof.
  unfold featurize_step. destruct t as [fc l].
  apply logs_only_bind; [apply logs_only_with_local, featurize_try_quiet|].
  intros [r sub]. repeat quiet_step.
Qed.

Lemma featurize_file_quiet w ctx od tuples i file :
  logs_only m_log not_warning (featurize_file w ctx od tuples i file).
Proof.
  unfold featurize_file, set_status.
  do 5 (apply logs_only_bind; [repeat quiet_step | intros ?]).
  - apply logs_only_foldM. intros. apply featurize_step_quiet.
  - repeat quiet_step.
Qed.

Lemma find_fclass_quiet w name : logs_only m_log not_warning (find_fclass w name).
Proof.
  unfold find_fclass. destruct (PyDict.get name native_fclasses_map).
  - apply logs_only_ret.
  - destruct (Str.rpartition "." name) as [[modname sep] clsname].
    repeat quiet_step.
Qed.

Lemma configure_quiet fc ps : logs_only m_log not_warning (configure fc ps).
Proof. unfold configure, heap_get, heap_set. repeat quiet_step. Qed.

Lemma resolve_fclasses_quiet w specs acc :
  logs_only m_log not_warning (resolve_fclasses w specs acc).
Proof.
  revert acc. induction specs as [|[name ps] rest IH]; intros acc; simpl.
  - apply logs_only_ret.
  - apply logs_only_bind; [apply find_fclass_quiet | intros fc].
    apply logs_only_bind; [apply configure_quiet | intros t]. apply IH.
Qed.

Lemma add_hyperparams_quiet lits acc :
  logs_only m_log not_warning (add_hyperparams lits acc).
Proof.
  revert acc. induction lits as [|lit rest IH]; intros acc; simpl.
  - apply logs_only_ret.
  - destruct lit as [e| |[|item [|]]]; try apply logs_only_raise. apply IH.
Qed.

Lemma featurize_report_quiet n : logs_only m_log not_warning (featurize_report n).
Proof.
  unfold featurize_report.
  apply logs_only_bind; [repeat quiet_step | intros ?].
  apply logs_only_bind; [repeat quiet_step | intros st].
  destruct (featurize_classify n st [] [] []) as [[alls somes] nones].
  repeat quiet_step.
Qed.

Lemma write_status_quiet w ctx : logs_only m_log not_warning (write_status w ctx).
Proof. unfold write_status, set_status, touch. repeat quiet_step. Qed.

Lemma featurize_quiet w ctx files od fw fwh :
  logs_only m_log not_warning (featurize w ctx files od fw fwh).
Proof.
  unfold featurize, featurizers_of, featurize_files, set_status.
  apply logs_only_bind; [repeat quiet_step | intros ?].
  apply logs_only_bind.
  { apply logs_only_bind; [apply add_hyperparams_quiet | intros ?].
    apply resolve_fclasses_quiet. }
  intros tuples.
  apply logs_only_bind; [repeat quiet_step | intros ?].
  apply logs_only_bind.
  { apply logs_only_bind; [repeat quiet_step | intros ?].
    apply logs_only_bind; [|intros ?; apply logs_only_ret].
    apply logs_only_foldM. intros. apply featurize_file_quiet. }
  intros ?.
  apply logs_only_bind; [apply featurize_report_quiet | intros ?].
  apply write_status_quiet.
Qed.

Lemma select_all (fw : list string) : "all" ∈ fw ->
  select_featurizers fw = map (fun n => (n, PNone)) core_names.
Proof.
  intros H. unfold select_featurizers. rewrite bool_decide_eq_true_2 by exact H.
  reflexivity.
Qed.

Lemma featurizers_of_all w (fw : list string) m : "all" ∈ fw ->
  featurizers_of w fw [] m = (Ok (map (fun c => (c, defaults c)) core_fclasses), m).
Proof.
  intros H. unfold featurizers_of. rewrite (select_all _ H). reflexivity.
Qed.

(** C4, as the code has it: when the [-f] list contains [all], the steps
    taken from it are the six core classes with default parameters, whatever
    else the list names; the two other native classes, [IntracellCycles] and
    [IntracellFeatures], are not among them; and no run of [featurize] logs
    anything at warning level. *)
Theorem all_selects_core_featurizers_silently
    (w : world) (ctx : ContextPersister) (files : list string)
    (output_dir : option string) (featurize_with : list string)
    (featurize_with_hyperparams : list hp_literal) (m : machine) :
  "all" ∈ featurize_with ->
  select_featurizers featurize_with = map (fun n => (n, PNone)) core_names
  /\ featurizers_of w featurize_with [] m
     = (Ok (map (fun c => (c, defaults c)) core_fclasses), m)
  /\ (IntracellCycles ∈ native_fclasses) /\ (IntracellCycles ∉ core_fclasses)
  /\ (IntracellFeatures ∈ native_fclasses) /\ (IntracellFeatures ∉ core_fclasses)
  /\ exists l,
       m_log (snd (featurize w ctx files output_dir featurize_with
                     featurize_with_hyperparams m)) = m_log m ++ l
       /\ Forall not_warning l.
Proof.
  intros Hall. split; [exact (select_all _ Hall)|].
  split; [exact (featurizers_of_all w _ m Hall)|].
  split; [apply (bool_decide_unpack _); vm_compute; exact I|].
  split; [apply (bool_decide_unpack _); vm_compute; exact I|].
  split; [apply (bool_decide_unpack _); vm_compute; exact I|].
  split; [apply (bool_decide_unpack _); vm_compute; exact I|].
  apply featurize_quiet.
Qed.

Lemma all_selects_core_featurizers_silently_witness :
  select_featurizers ["all"; "IntracellCycles"]
    = map (fun n => (n, PNone)) core_names.
Proof.
  refine (proj1 (all_selects_core_featurizers_silently (Scenario.calm [])
                   (Scenario.ctx false) [] None ["all"; "IntracellCycles"] []
                   (Scenario.boot [] ∅) _)).
  apply (bool_decide_unpack _). vm_compute. exact I.
Defined.

(** C4, as the spec words it, fails: with [-f all -f IntracellCycles] the
    steps applied to the file are the six core classes, which are not the
    native set, and the run logs no warning. *)
Lemma all_is_not_the_native_set_and_no_warning :
  let r := featurize (Scenario.calm []) (Scenario.ctx false) ["a.json"] None
             ["all"; "IntracellCycles"] []
             (Scenario.boot ["/home/u/a.json"] ∅) in
  fst r = Ok tt
  /\ (exists d,
        PyDict.get "/home/u/a.json" (m_status (snd r)) = Some (FeaturizeResult d)
        /\ PyDict.keys d = ["walltime"; "processed_md5_chksum"] ++ core_names)
  /\ core_names <> map cname native_fclasses
  /\ Forall not_warning (m_log (snd r)).
Proof.
  cbn zeta. split; [vm_compute; reflexivity|].
  split; [eexists; split; vm_compute; reflexivity|].
  split; [discriminate|].
  apply (bool_decide_unpack _). vm_compute. exact I.
Qed.

(** ** Hyperparameters *)

Lemma dict_update_lookup_new (d other : hdict) k v :
  other !! k = Some v -> dict_update d other !! k = Some v.
Proof. intros H. unfold dict_update. now apply lookup_union_Some_l. Qed.

Lemma dict_update_lookup_old (d other : hdict) k :
  other !! k = None -> dict_update d other !! k = d !! k.
Proof. intros H. unfold dict_update. now apply lookup_union_r. Qed.

Lemma configure_PDict fc d m :
  configure fc (PDict d) m
  = (Ok (fc, defaults fc),
     Machine (m_fs m) (<[defaults fc := dict_update (effective m (defaults fc)) d]> (m_heap m))
             (m_trace m) (m_log m) (m_status m)).
Proof. reflexivity. Qed.

Lemma configure_PNone fc m : configure fc PNone m = (Ok (fc, defaults fc), m).
Proof. reflexivity. Qed.

Lemma configure_POther fc pairs m :
  configure fc (POther pairs None) m
  = configure fc (PDict (pairs_to_dict pairs)) m.
Proof. reflexivity. Qed.

Lemma configure_POther_raises fc pairs e m :
  configure fc (POther pairs (Some e)) m
  = (Raise e, snd (configure fc (PDict (pairs_to_dict pairs)) m)).
Proof. reflexivity. Qed.

Lemma configure_effective fc ps m t m' l :
  configure fc ps m = (Ok t, m') ->
  t = (fc, defaults fc)
  /\ effective m' l =
     match ps with
     | PDict d => if Nat.eqb (defaults fc) l then dict_update (effective m l) d
                  else effective m l
     | POther pairs _ =>
         if Nat.eqb (defaults fc) l
         then dict_update (effective m l) (pairs_to_dict pairs)
         else effective m l
     | PNone => effective m l
     end.
Proof.
  assert (HD : forall d,
            configure fc (PDict d) m = (Ok t, m') ->
            t = (fc, defaults fc)
            /\ effective m' l
               = if Nat.eqb (defaults fc) l then dict_update (effective m l) d
                 else effective m l).
  { intros d H. rewrite configure_PDict in H. inversion H; subst.
    split; [reflexivity|].
    unfold effective. simpl. destruct (Nat.eqb_spec (defaults fc) l) as [->|Hne].
    + now rewrite lookup_insert_eq.
    + now rewrite lookup_insert_ne. }
  destruct ps as [|d|pairs [e|]]; intros H.
  - rewrite configure_PNone in H. inversion H; subst. auto.
  - now apply HD.
  - rewrite configure_POther_raises in H. discriminate H.
  - rewrite configure_POther in H. now apply HD.
Qed.

Lemma find_fclass_ok w name m fc m' :
  find_fclass w name m = (Ok fc, m') ->
  class_of w name = Some fc /\ m_heap m' = m_heap m.
Proof.
  unfold find_fclass, class_of.
  destruct (PyDict.get name native_fclasses_map) as [c|].
  - intros H. inversion H; subst. auto.
  - destruct (Str.contains_char "." name); simpl.
    + destruct (Str.rpartition "." name) as [[modname sep] clsname].
      unfold bind, call, emit, modify, ret. simpl.
      destruct (import_class w modname clsname) as [[cls [|]]|e]; simpl;
        intros H; inversion H; subst; auto.
    + unfold bind, log_at, modify, raise. simpl. intros H. discriminate H.
Qed.

Lemma resolve_fclasses_effective w specs : forall acc m tuples m',
  resolve_fclasses w specs acc m = (Ok tuples, m') ->
  (exists new, tuples = acc ++ new /\ Forall (fun t => snd t = defaults (fst t)) new)
  /\ forall l, effective m' l = fold_left dict_update (overrides_of w l specs) (effective m l).
Proof.
  induction specs as [|[name ps] rest IH]; intros acc m tuples m' H; simpl in H.
  - inversion H; subst. split; [exists []; rewrite app_nil_r; auto|]. reflexivity.
  - unfold bind at 1 in H.
    destruct (find_fclass w name m) as [[fc|e] m1] eqn:Hf; [|discriminate H].
    apply find_fclass_ok in Hf as [Hc Hh].
    unfold bind at 1 in H.
    destruct (configure fc ps m1) as [[t|e] m2] eqn:Hcfg; [|discriminate H].
    apply IH in H as [(new & -> & Hnew) Heff].
    split.
    + exists (t :: new). rewrite <- app_assoc. split; [reflexivity|].
      constructor; [|exact Hnew].
      destruct (configure_effective _ _ _ _ _ 0 Hcfg) as [-> _]. reflexivity.
    + intros l. rewrite Heff.
      destruct (configure_effective _ _ _ _ _ l Hcfg) as [_ ->].
      assert (Hm : effective m1 l = effective m l) by (unfold effective; now rewrite Hh).
      simpl. destruct ps as [|d|pairs err]; rewrite ?Hm; try reflexivity;
        rewrite Hc; destruct (defaults fc =? l)%nat; reflexivity.
Qed.

Lemma overrides_of_app w l s1 s2 :
  overrides_of w l (s1 ++ s2) = overrides_of w l s1 ++ overrides_of w l s2.
Proof.
  induction s1 as [|[name [|d|pairs err]] s1 IH]; simpl; auto;
    destruct (class_of w name) as [fc|]; auto;
    destruct (defaults fc =? l)%nat; simpl; now rewrite IH.
Qed.

Lemma fold_update_lookup_untouched (ds : list hdict) (base : hdict) k :
  (forall d, In d ds -> d !! k = None) ->
  fold_left dict_update ds base !! k = base !! k.
Proof.
  revert base. induction ds as [|d ds IH]; intros base H; simpl; [reflexivity|].
  rewrite IH by (intros d' Hd'; apply H; now right).
  apply dict_update_lookup_old. apply H. now left.
Qed.




(** C10: configuring a class with the user's values updates the class's own
    [DEFAULT_HYPERPARAMETERS] in place. Once the featurizers are resolved,
    every tuple holds a reference to its class's dictionary; that dictionary
    is the one found at the start updated with all the values given for the
    class, in order; so a value given for a key, unless given again later
    for the same class, is in the hyperparameters of every tuple of that
    class, those configured without values included. *)
Theorem overrides_persist_in_class_defaults
    (w : world) (specs : list (string * pyparams)) (m m' : machine)
    (tuples : list (featurizer * loc)) :
  resolve_fclasses w specs [] m = (Ok tuples, m') ->
  Forall (fun t => snd t = defaults (fst t)) tuples
  /\ (forall l,
        effective m' l
        = fold_left dict_update (overrides_of w l specs) (effective m l))
  /\ (forall pre fclass_name p post fclass k v,
        specs = pre ++ (fclass_name, PDict p) :: post ->
        class_of w fclass_name = Some fclass ->
        p !! k = Some v ->
        (forall d, In d (overrides_of w (defaults fclass) post) ->
                   d !! k = None) ->
        forall t, In t tuples -> fst t = fclass ->
                  effective m' (snd t) !! k = Some v).
Proof.
  intros H. apply resolve_fclasses_effective in H as [(new & -> & Hnew) Heff].
  simpl. split; [exact Hnew|]. split; [exact Heff|].
  intros pre name p post fc k v -> Hc Hk Hpost t Ht Hfst.
  rewrite Forall_forall in Hnew. rewrite (Hnew t) by (now apply list_elem_of_In).
  rewrite Hfst, Heff, overrides_of_app. simpl. rewrite Hc, Nat.eqb_refl.
  rewrite fold_left_app. simpl.
  rewrite fold_update_lookup_untouched by exact Hpost.
  now apply dict_update_lookup_new.
Qed.

Lemma overrides_persist_in_class_defaults_witness :
  let specs := [ ("DeltaQFastCharge", PDict {[ "n_interp" := HInt 5 ]});
                 ("DeltaQFastCharge", PNone) ] in
  let m := Scenario.boot [] Scenario.declared in
  effective m 1 !! "n_interp" = Some (HInt 1000)
  /\ exists m',
       resolve_fclasses (Scenario.calm []) specs [] m
         = (Ok [(DeltaQFastCharge, 1); (DeltaQFastCharge, 1)], m')
       /\ effective m' 1 !! "n_interp" = Some (HInt 5).
Proof.
  cbn zeta. split; [reflexivity|].
  eexists. split; [vm_compute; reflexivity|].
  refine (proj2 (proj2 (overrides_persist_in_class_defaults (Scenario.calm [])
            [ ("DeltaQFastCharge", PDict {[ "n_interp" := HInt 5 ]});
              ("DeltaQFastCharge", PNone) ]
            (Scenario.boot [] Scenario.declared) _
            [(DeltaQFastCharge, 1); (DeltaQFastCharge, 1)] _))
          [] "DeltaQFastCharge" {[ "n_interp" := HInt 5 ]}
          [("DeltaQFastCharge", PNone)] DeltaQFastCharge "n_interp" (HInt 5)
          eq_refl eq_refl eq_refl _ (DeltaQFastCharge, 1) _ eq_refl).
  - vm_compute. reflexivity.
  - simpl. intros d [].
  - right. left. reflexivity.
Defined.

(** ** The outcome of one attempt *)

(** Unfolds the monad and the machine primitives. *)
Ltac run_simpl :=
  unfold bind, ret, raise, lift, call, emit, modify, gets, set_local, log_at,
    touch, heap_get, set_status; simpl.

Lemma featurize_try_outcome w od file fc l m sub :
  fst (featurize_try w od file fc l (m, sub))
  = match step_error w od fc file (effective m l) with
    | Some e => Raise e
    | None => Ok tt
    end.
Proof.
  unfold featurize_try, step_error, effective. run_simpl.
  destruct (construct w fc file _) as [[]|e]; simpl; [|reflexivity].
  destruct (f_validate w fc file _) as [[[|] reason]|e]; simpl; try reflexivity.
  destruct (create_features w fc file _) as [[]|e]; simpl; [|reflexivity].
  destruct (dumpfn w _) as [[]|e]; simpl; [|reflexivity].
  destruct (md5sum w _) as [h|e]; simpl; reflexivity.
Qed.

Lemma structure_try_outcome w ofs automatic vo nr i f m op :
  fst (structure_try w ofs automatic vo nr i f (m, op))
  = match structure_error w ofs automatic vo nr i f with
    | Some e => Raise e
    | None => Ok tt
    end.
Proof.
  unfold structure_try, structure_error. run_simpl.
  destruct (md5sum w f) as [h|e]; simpl; [|reflexivity].
  destruct (auto_load w f) as [sch|e]; simpl; [|reflexivity].
  destruct (dp_validate w f) as [[[|] reason]|e]; simpl; try reflexivity.
  destruct vo; simpl; [reflexivity|].
  destruct (dp_structure w f automatic) as [[]|e]; simpl; [|reflexivity].
  destruct (ofs !! i) as [o|]; simpl; [|reflexivity].
  destruct (dp_to_json_file w f o nr) as [[]|e]; simpl; reflexivity.
Qed.

(** ** Dictionaries *)

Lemma add_key_in (k : string) (ks : list string) : k ∈ ks -> add_key k ks = ks.
Proof. intros H. unfold add_key. now rewrite bool_decide_eq_true_2. Qed.

Lemma add_key_notin (k : string) (ks : list string) :
  k ∉ ks -> add_key k ks = ks ++ [k].
Proof. intros H. unfold add_key. now rewrite bool_decide_eq_false_2. Qed.

Lemma keys_set {V} (k : string) (v : V) (d : PyDict.t V) :
  PyDict.keys (PyDict.set k v d) = add_key k (PyDict.keys d).
Proof.
  unfold PyDict.keys. induction d as [|[k' v'] d IH].
  - rewrite add_key_notin by (intros H; inversion H). reflexivity.
  - cbn [PyDict.set map fst]. destruct (String.eqb_spec k' k) as [->|Hne].
    + rewrite add_key_in by left. reflexivity.
    + cbn [map fst]. rewrite IH.
      destruct (decide (k ∈ map fst d)) as [Hin|Hnin].
      * rewrite !add_key_in; [reflexivity | now right | exact Hin].
      * rewrite !add_key_notin; [reflexivity | | exact Hnin].
        intros H. inversion H; subst; [congruence | contradiction].
Qed.

Lemma get_set_eq {V} (k : string) (v : V) (d : PyDict.t V) :
  PyDict.get k (PyDict.set k v d) = Some v.
Proof.
  induction d as [|[k' v'] d IH]; simpl.
  - now rewrite String.eqb_refl.
  - destruct (String.eqb_spec k' k) as [->|Hne]; simpl.
    + now rewrite String.eqb_refl.
    + destruct (String.eqb_spec k' k); [congruence | exact IH].
Qed.

Lemma get_set_ne {V} (k k' : string) (v : V) (d : PyDict.t V) :
  k <> k' -> PyDict.get k' (PyDict.set k v d) = PyDict.get k' d.
Proof.
  intros Hne. induction d as [|[k0 v0] d IH]; simpl.
  - destruct (String.eqb_spec k k'); [congruence | reflexivity].
  - destruct (String.eqb_spec k0 k) as [->|Hne0]; simpl.
    + destruct (String.eqb_spec k k'); [congruence | reflexivity].
    + destruct (String.eqb_spec k0 k'); [reflexivity | exact IH].
Qed.


Lemma elem_of_add_key (k x : string) (ks : list string) :
  x ∈ add_key k ks <-> x = k \/ x ∈ ks.
Proof.
  destruct (decide (k ∈ ks)) as [Hin|Hnin].
  - rewrite add_key_in by exact Hin. split; [auto | intros [->|H]; auto].
  - rewrite add_key_notin by exact Hnin.
    rewrite elem_of_app, list_elem_of_singleton. tauto.
Qed.

Lemma NoDup_add_key (k : string) (ks : list string) :
  NoDup ks -> NoDup (add_key k ks).
Proof.
  intros H. destruct (decide (k ∈ ks)) as [Hin|E].
  { now rewrite add_key_in. }
  rewrite add_key_notin by exact E. apply NoDup_app. split; [exact H|].
  split; [|apply NoDup_singleton].
  intros x Hx Hx'. apply list_elem_of_singleton in Hx'. congruence.
Qed.

Lemma elem_of_first_seen_from (ks l : list string) (x : string) :
  x ∈ first_seen_from ks l <-> x ∈ ks \/ x ∈ l.
Proof.
  unfold first_seen_from. revert ks. induction l as [|k l IH]; intros ks; simpl.
  - split; [auto | intros [H|H]; [exact H | inversion H]].
  - rewrite IH, elem_of_add_key, elem_of_cons. tauto.
Qed.

Lemma NoDup_first_seen_from (ks l : list string) :
  NoDup ks -> NoDup (first_seen_from ks l).
Proof.
  unfold first_seen_from. revert ks. induction l as [|k l IH]; intros ks H; simpl.
  - exact H.
  - apply IH, NoDup_add_key, H.
Qed.

Lemma first_seen_from_app (ks l1 l2 : list string) :
  first_seen_from ks (l1 ++ l2) = first_seen_from (first_seen_from ks l1) l2.
Proof. unfold first_seen_from. apply fold_left_app. Qed.

Lemma first_seen_NoDup_id (l : list string) : NoDup l -> first_seen l = l.
Proof.
  unfold first_seen.
  assert (G : forall ks, NoDup (ks ++ l) -> first_seen_from ks l = ks ++ l).
  { induction l as [|k l IH]; intros ks H; simpl.
    - now rewrite app_nil_r.
    - change (first_seen_from (add_key k ks) l = ks ++ k :: l).
      rewrite add_key_notin.
      + rewrite IH; rewrite <- app_assoc; [reflexivity | exact H].
      + apply NoDup_app in H as (_ & H & _). intros Hk. apply (H k Hk). left. }
  intros H. apply (G []). exact H.
Qed.

(** ** The loops of [featurize] *)

Lemma effective_heap (m1 m : machine) (l : loc) :
  m_heap m1 = m_heap m -> effective m1 l = effective m l.
Proof. intros H. unfold effective. now rewrite H. Qed.

Ltac frame_local :=
  repeat first [ apply preserves_with_local | frame_step ].

Lemma preserves_status_featurize_step w ctx od file opr t :
  preserves m_status (featurize_step w ctx od file opr t).
Proof.
  destruct t as [fc l].
  unfold featurize_step, featurize_try, log_at, touch, heap_get. frame_local.
Qed.

Lemma preserves_heap_featurize_step w ctx od file opr t :
  preserves m_heap (featurize_step w ctx od file opr t).
Proof.
  destruct t as [fc l].
  unfold featurize_step, featurize_try, log_at, touch, heap_get. frame_local.
Qed.

Lemma featurize_step_run w ctx od file opr fc l m :
  exists sub m',
    featurize_step w ctx od file opr (fc, l) m =
      match step_error w od fc file (effective m l) with
      | None => (Ok (PyDict.set (cname fc) (OpStep sub) opr), m')
      | Some e =>
          if is_interrupt e then (Raise ClickExit, m')
          else if halt_on_error ctx then (Raise e, m')
          else (Ok (PyDict.set (cname fc) (OpStep sub) opr), m')
      end.
Proof.
  unfold featurize_step.
  pose proof (featurize_try_outcome w od file fc l m op_subresult_init) as H.
  unfold bind at 1, with_local.
  destruct (featurize_try w od file fc l (m, op_subresult_init))
    as [r [m1 sub1]]. simpl in H. subst r.
  destruct (step_error w od fc file (effective m l)) as [e|].
  - destruct (is_interrupt e); [run_simpl; eauto|].
    destruct (halt_on_error ctx); run_simpl; eauto.
  - run_simpl. eauto.
Qed.

(** The featurizers of one file, when none of them stops the run. *)
Lemma featurize_steps_pass w ctx od file tuples : forall opr m,
  (forall t, In t tuples ->
     passes (halt_on_error ctx)
       (step_error w od (fst t) file (effective m (snd t)))) ->
  exists opr' m',
    foldM (featurize_step w ctx od file) opr tuples m = (Ok opr', m')
    /\ m_status m' = m_status m
    /\ m_heap m' = m_heap m
    /\ PyDict.keys opr'
       = first_seen_from (PyDict.keys opr) (map (fun t => cname (fst t)) tuples)
    /\ (forall k, In k (map (fun t => cname (fst t)) tuples) ->
                  exists r, PyDict.get k opr' = Some (OpStep r))
    /\ (forall k, ~ In k (map (fun t => cname (fst t)) tuples) ->
                  PyDict.get k opr' = PyDict.get k opr).
Proof.
  induction tuples as [|[fc l] rest IH]; intros opr m Hpass.
  - exists opr, m. simpl. repeat split; auto. intros k [].
  - destruct (featurize_step_run w ctx od file opr fc l m) as (sub & m1 & Hstep).
    pose proof (preserves_status_featurize_step w ctx od file opr (fc, l) m) as Hst.
    pose proof (preserves_heap_featurize_step w ctx od file opr (fc, l) m) as Hhp.
    assert (Hok : featurize_step w ctx od file opr (fc, l) m
                  = (Ok (PyDict.set (cname fc) (OpStep sub) opr), m1)).
    { rewrite Hstep. specialize (Hpass (fc, l) (or_introl eq_refl)). simpl in Hpass.
      destruct (step_error w od fc file (effective m l)) as [e|]; [|reflexivity].
      destruct Hpass as [-> ->]. reflexivity. }
    rewrite Hok in Hst, Hhp. simpl in Hst, Hhp.
    destruct (IH (PyDict.set (cname fc) (OpStep sub) opr) m1)
      as (opr' & m' & Hrun & Hs & Hh & Hkeys & Hnew & Hold).
    { intros t Ht. rewrite (effective_heap _ _ _ Hhp). apply Hpass. now right. }
    exists opr', m'. split.
    { simpl. rewrite (bind_ok _ _ _ _ _ Hok). exact Hrun. }
    split; [congruence|]. split; [congruence|]. split.
    { rewrite Hkeys, keys_set. reflexivity. }
    split.
    + intros k Hk. simpl in Hk.
      destruct (in_dec String.string_dec k (map (fun t => cname (fst t)) rest))
        as [Hin|Hnin]; [now apply Hnew|].
      destruct Hk as [<-|Hk]; [|contradiction].
      rewrite (Hold _ Hnin). simpl. rewrite get_set_eq. eauto.
    + intros k Hk. simpl in Hk.
      rewrite Hold by tauto. apply get_set_ne. simpl. tauto.
Qed.




Lemma foldM_app {St A B} (body : B -> A -> M St B) (l1 l2 : list A) (acc : B) :
  forall s, foldM body acc (l1 ++ l2) s
            = bind (foldM body acc l1) (fun acc' => foldM body acc' l2) s.
Proof.
  revert acc. induction l1 as [|x l1 IH]; intros acc s; simpl.
  - reflexivity.
  - unfold bind in *. destruct (body acc x s) as [[b|e] s1]; [apply IH|].
    reflexivity.
Qed.

Lemma featurize_file_pass w ctx od tuples i file m :
  file_passes w ctx od tuples m file ->
  exists d m',
    featurize_file w ctx od tuples i file m = (Ok (i + 1)%nat, m')
    /\ m_status m' = PyDict.set file (FeaturizeResult d) (m_status m)
    /\ m_heap m' = m_heap m
    /\ complete_record tuples d.
Proof.
  intros (Hmd5 & Hload & Hsteps). unfold featurize_file.
  destruct (md5sum w file) as [h|e]; [|discriminate Hmd5].
  destruct (auto_load_processed w file) as [[]|e]; [|discriminate Hload].
  run_simpl.
  match goal with
  | |- context [foldM _ ?o _ ?m2] =>
      destruct (featurize_steps_pass w ctx od file tuples o m2)
        as (opr' & m' & Hrun & Hs & Hh & Hkeys & Hnew & Hold)
  end.
  { intros t Ht. apply Hsteps, Ht. }
  rewrite Hrun. simpl. eexists. eexists. split; [reflexivity|]. simpl.
  split; [now rewrite Hs|]. split; [now rewrite Hh|].
  split.
  - rewrite keys_set, Hkeys. simpl PyDict.keys.
    rewrite add_key_in.
    + unfold first_seen. now rewrite first_seen_from_app.
    + apply elem_of_first_seen_from. left. left.
  - intros name Hin Hres. destruct (Hnew name Hin) as [r Hr].
    exists r. rewrite get_set_ne; [exact Hr|].
    intros <-. apply Hres. left.
Qed.


Lemma file_passes_heap w ctx od tuples m1 m file :
  m_heap m1 = m_heap m ->
  file_passes w ctx od tuples m file -> file_passes w ctx od tuples m1 file.
Proof.
  intros Hh (H1 & H2 & H3). repeat split; auto.
  intros t Ht. rewrite (effective_heap _ _ _ Hh). now apply H3.
Qed.


(** The loop over the files, when no file stops the run. *)
Lemma featurize_files_pass w ctx od tuples files : forall i m,
  (forall f, In f files -> file_passes w ctx od tuples m f) ->
  exists i' m',
    foldM (featurize_file w ctx od tuples) i files m = (Ok i', m')
    /\ m_heap m' = m_heap m
    /\ PyDict.keys (m_status m')
       = first_seen_from (PyDict.keys (m_status m)) files
    /\ (forall f, In f files ->
          exists d, PyDict.get f (m_status m') = Some (FeaturizeResult d)
                    /\ complete_record tuples d)
    /\ (forall k, ~ In k files ->
          PyDict.get k (m_status m') = PyDict.get k (m_status m)).
Proof.
  induction files as [|f rest IH]; intros i m Hpass.
  - exists i, m. simpl. repeat split; auto. intros f [].
  - destruct (featurize_file_pass w ctx od tuples i f m (Hpass f (or_introl eq_refl)))
      as (d & m1 & Hfile & Hst & Hhp & Hrec).
    destruct (IH (i + 1)%nat m1) as (i' & m' & Hrun & Hh & Hkeys & Hnew & Hold).
    { intros x Hx. apply (file_passes_heap _ _ _ _ _ m); [exact Hhp|].
      apply Hpass. now right. }
    exists i', m'. split.
    { simpl. rewrite (bind_ok _ _ _ _ _ Hfile). exact Hrun. }
    split; [congruence|]. split.
    { rewrite Hkeys, Hst, keys_set. reflexivity. }
    split.
    + intros x Hx.
      destruct (in_dec String.string_dec x rest) as [Hin|Hnin]; [now apply Hnew|].
      destruct Hx as [<-|Hx]; [|contradiction].
      rewrite (Hold _ Hnin), Hst, get_set_eq. eauto.
    + intros k Hk. simpl in Hk. rewrite Hold by tauto.
      rewrite Hst. apply get_set_ne. tauto.
Qed.

(** ** The loop of [structure] *)

Lemma preserves_status_structure_try w ofs a vo nr i f :
  preserves (fun sl : machine * op_result => m_status (fst sl))
    (structure_try w ofs a vo nr i f).
Proof. unfold structure_try, log_at, touch. frame_local. Qed.

Lemma structure_file_run w ctx ofs a vo nr i f m :
  exists op m',
    structure_file w ctx ofs a vo nr (i, f) m =
      match structure_error w ofs a vo nr i f with
      | None => (Ok tt, m')
      | Some e =>
          if is_interrupt e then (Raise ClickExit, m')
          else if halt_on_error ctx then (Raise e, m')
          else (Ok tt, m')
      end
    /\ m_status m' =
       match structure_error w ofs a vo nr i f with
       | None => PyDict.set f (StructureResult op) (m_status m)
       | Some e =>
           if is_interrupt e || halt_on_error ctx then m_status m
           else PyDict.set f (StructureResult op) (m_status m)
       end.
Proof.
  unfold structure_file.
  pose proof (structure_try_outcome w ofs a vo nr i f m op_result_init) as H.
  pose proof (preserves_status_structure_try w ofs a vo nr i f
                (m, op_result_init)) as Hst.
  unfold bind at 1, with_local.
  destruct (structure_try w ofs a vo nr i f (m, op_result_init))
    as [r [m1 op1]]. simpl in H, Hst. subst r.
  destruct (structure_error w ofs a vo nr i f) as [e|].
  - destruct (is_interrupt e); [run_simpl; eauto|].
    destruct (halt_on_error ctx); run_simpl; rewrite <- Hst; eauto.
  - run_simpl. rewrite <- Hst. eauto.
Qed.

Lemma for_each_app {St A} (body : A -> M St unit) (l1 l2 : list A) :
  forall s, for_each (l1 ++ l2) body s
            = bind (for_each l1 body) (fun _ => for_each l2 body) s.
Proof.
  induction l1 as [|x l1 IH]; intros s; simpl.
  - reflexivity.
  - unfold bind in *. destruct (body x s) as [[[]|e] s1]; [apply IH|].
    reflexivity.
Qed.

Lemma enumerate_from_app {A} (l1 l2 : list A) (i : nat) :
  enumerate_from i (l1 ++ l2)
  = enumerate_from i l1 ++ enumerate_from (i + length l1) l2.
Proof.
  revert i. induction l1 as [|x l1 IH]; intros i; simpl.
  - now rewrite Nat.add_0_r.
  - rewrite IH. do 3 f_equal. lia.
Qed.

(** The loop over the files, when no file stops the run. *)
Lemma structure_loop_pass w ctx ofs a vo nr files : forall i m,
  (forall j f, files !! j = Some f ->
     passes (halt_on_error ctx) (structure_error w ofs a vo nr (i + j) f)) ->
  exists m',
    for_each (enumerate_from i files) (structure_file w ctx ofs a vo nr) m
      = (Ok tt, m')
    /\ PyDict.keys (m_status m')
       = first_seen_from (PyDict.keys (m_status m)) files
    /\ (forall f, In f files ->
          exists op, PyDict.get f (m_status m') = Some (StructureResult op))
    /\ (forall k, ~ In k files ->
          PyDict.get k (m_status m') = PyDict.get k (m_status m)).
Proof.
  induction files as [|f rest IH]; intros i m Hpass.
  - exists m. simpl. repeat split; auto. intros f [].
  - destruct (structure_file_run w ctx ofs a vo nr i f m) as (op & m1 & Hfile & Hst).
    assert (Hp := Hpass 0%nat f eq_refl). rewrite Nat.add_0_r in Hp.
    assert (Hok : structure_file w ctx ofs a vo nr (i, f) m = (Ok tt, m1)
                  /\ m_status m1 = PyDict.set f (StructureResult op) (m_status m)).
    { rewrite Hfile, Hst.
      destruct (structure_error w ofs a vo nr i f) as [e|]; [|auto].
      destruct Hp as [-> ->]. auto. }
    destruct Hok as [Hok Hst1].
    destruct (IH (S i) m1) as (m' & Hrun & Hkeys & Hnew & Hold).
    { intros j x Hx. replace (S i + j)%nat with (i + S j)%nat by lia.
      apply Hpass. exact Hx. }
    exists m'. split.
    { simpl. rewrite (bind_ok _ _ _ _ _ Hok). exact Hrun. }
    split.
    { rewrite Hkeys, Hst1, keys_set. reflexivity. }
    split.
    + intros x Hx.
      destruct (in_dec String.string_dec x rest) as [Hin|Hnin]; [now apply Hnew|].
      destruct Hx as [<-|Hx]; [|contradiction].
      rewrite (Hold _ Hnin), Hst1, get_set_eq. eauto.
    + intros k Hk. simpl in Hk. rewrite Hold by tauto.
      rewrite Hst1. apply get_set_ne. tauto.
Qed.

(** ** The report *)

Lemma passes_no_halt (err : option exn) :
  (forall e, err = Some e -> is_interrupt e = false) -> passes false err.
Proof. intros H. destruct err as [e|]; simpl; auto. Qed.

Lemma NoDup_first_seen (l : list string) : NoDup (first_seen l).
Proof. apply NoDup_first_seen_from. constructor. Qed.

(** C1, as the code has it: when errors do not halt and no call is
    interrupted by the operator, the loop of either subcommand runs to its
    end whatever the steps raise, and then [status_json] has one entry per
    distinct input file, in order of first occurrence. For [featurize]
    (where also every file must load) the record of a file has, besides its
    two bookkeeping keys, one key per distinct class name of the configured
    featurizers, each holding a step record; for [structure] the entry of a
    file is its one result record. *)
Theorem report_has_one_record_per_file_and_step_name
    (w : world) (ctx : ContextPersister) (files : list string) (m : machine) :
  halt_on_error ctx = false ->
  (forall (output_dir : string) (fclass_tuples : list (featurizer * loc)),
     (forall f, In f files ->
        succeeds (md5sum w f) = true
        /\ succeeds (auto_load_processed w f) = true) ->
     (forall f t e, In f files -> In t fclass_tuples ->
        step_error w output_dir (fst t) f (effective m (snd t)) = Some e ->
        is_interrupt e = false) ->
     exists m',
       featurize_files w ctx output_dir fclass_tuples files m = (Ok tt, m')
       /\ PyDict.keys (m_status m') = first_seen files
       /\ NoDup (PyDict.keys (m_status m'))
       /\ forall f, In f files ->
            exists d, PyDict.get f (m_status m') = Some (FeaturizeResult d)
                      /\ complete_record fclass_tuples d)
  /\ (forall (output_files : list string)
             (automatic validation_only no_raw : bool),
        (forall j f e, files !! j = Some f ->
           structure_error w output_files automatic validation_only no_raw j f
             = Some e ->
           is_interrupt e = false) ->
        exists m',
          structure_files w ctx output_files automatic validation_only no_raw
            files m = (Ok tt, m')
          /\ PyDict.keys (m_status m') = first_seen files
          /\ NoDup (PyDict.keys (m_status m'))
          /\ forall f, In f files ->
               exists op, PyDict.get f (m_status m') = Some (StructureResult op)).
Proof.
  intros Hhalt. split.
  - intros od tuples Hload Hsteps. unfold featurize_files.
    set (m0 := Machine (m_fs m) (m_heap m) (m_trace m) (m_log m) []).
    destruct (featurize_files_pass w ctx od tuples files 0%nat m0)
      as (i' & m' & Hrun & _ & Hkeys & Hnew & _).
    { intros f Hf. destruct (Hload f Hf) as [H1 H2]. repeat split; auto.
      intros t Ht. rewrite Hhalt. apply passes_no_halt. intros e.
      apply (Hsteps f t e Hf Ht). }
    exists m'. run_simpl. fold m0. rewrite Hrun. simpl.
    split; [reflexivity|]. split; [exact Hkeys|].
    split; [rewrite Hkeys; apply NoDup_first_seen | exact Hnew].
  - intros ofs a vo nr Hsteps. unfold structure_files, enumerate.
    set (m0 := Machine (m_fs m) (m_heap m) (m_trace m) (m_log m) []).
    destruct (structure_loop_pass w ctx ofs a vo nr files 0%nat m0)
      as (m' & Hrun & Hkeys & Hnew & _).
    { intros j f Hf. rewrite Hhalt. apply passes_no_halt. intros e.
      apply (Hsteps j f e Hf). }
    exists m'. run_simpl. fold m0. rewrite Hrun.
    split; [reflexivity|]. split; [exact Hkeys|].
    split; [rewrite Hkeys; apply NoDup_first_seen | exact Hnew].
Qed.



Lemma report_has_one_record_per_file_and_step_name_witness :
  (exists m',
     featurize_files (Scenario.failing_on "/home/u/b.json") (Scenario.ctx false)
       "/home/u" [(DeltaQFastCharge, 1); (CycleSummaryStats, 3)]
       ["/home/u/a.json"; "/home/u/b.json"] (Scenario.boot [] Scenario.declared)
       = (Ok tt, m')
     /\ PyDict.keys (m_status m') = ["/home/u/a.json"; "/home/u/b.json"])
  /\ (exists m',
        structure_files (Scenario.failing_on "/home/u/b.csv") (Scenario.ctx false)
          ["/home/u/a-structured.json.gz"; "/home/u/b-structured.json.gz"]
          false false false ["/home/u/a.csv"; "/home/u/b.csv"]
          (Scenario.boot [] ∅) = (Ok tt, m')
        /\ PyDict.keys (m_status m') = ["/home/u/a.csv"; "/home/u/b.csv"]).
Proof.
  split.
  - destruct (proj1 (report_has_one_record_per_file_and_step_name
                (Scenario.failing_on "/home/u/b.json") (Scenario.ctx false)
                ["/home/u/a.json"; "/home/u/b.json"]
                (Scenario.boot [] Scenario.declared) eq_refl)
              "/home/u" [(DeltaQFastCharge, 1); (CycleSummaryStats, 3)])
      as (m' & Hrun & Hkeys & _).
    + intros f [<-|[<-|[]]]; split; reflexivity.
    + intros f t e [<-|[<-|[]]] [<-|[<-|[]]]; vm_compute; intros H;
        inversion H; reflexivity.
    + exists m'. split; [exact Hrun | exact Hkeys].
  - destruct (proj2 (report_has_one_record_per_file_and_step_name
                (Scenario.failing_on "/home/u/b.csv") (Scenario.ctx false)
                ["/home/u/a.csv"; "/home/u/b.csv"]
                (Scenario.boot [] ∅) eq_refl)
              ["/home/u/a-structured.json.gz"; "/home/u/b-structured.json.gz"]
              false false false)
      as (m' & Hrun & Hkeys & _).
    + intros [|[|j]] f e Hf; try discriminate Hf; inversion Hf; subst f;
        vm_compute; intros H; inversion H; reflexivity.
    + exists m'. split; [exact Hrun | exact Hkeys].
Defined.

(** C1, as the spec words it, fails. With [-f pkg1.Foo -f pkg2.Foo] two
    steps are configured and both run on the file, but the record of the
    file has one step record, [Foo], the second written over the first; the
    summary counts one success out of two. And the step record of a class
    named [walltime] is overwritten by the elapsed time of the file. *)
Lemma same_named_steps_share_one_record :
  let m := Scenario.boot ["/home/u/a.json"] ∅ in
  let w := Scenario.calm [] in
  let r := featurize w (Scenario.ctx false) ["a.json"] None
             ["pkg1.Foo"; "pkg2.Foo"] [] m in
  let r' := featurize w (Scenario.ctx false) ["a.json"] None
              ["pkg1.walltime"] [] m in
  fst (featurizers_of w ["pkg1.Foo"; "pkg2.Foo"] [] m)
    = Ok [(Scenario.pkg1_Foo, 8); (Scenario.pkg2_Foo, 9)]
  /\ fst r = Ok tt
  /\ length (List.filter is_construct (m_trace (snd r))) = 2
  /\ (exists d,
        PyDict.get "/home/u/a.json" (m_status (snd r)) = Some (FeaturizeResult d)
        /\ PyDict.keys d = ["walltime"; "processed_md5_chksum"; "Foo"]
        /\ feats_succeeded d = [true])
  /\ featurize_classify 2 (m_status (snd r)) [] [] []
     = ([], [("/home/u/a.json", 1)], [])
  /\ fst r' = Ok tt
  /\ (exists d,
        PyDict.get "/home/u/a.json" (m_status (snd r')) = Some (FeaturizeResult d)
        /\ PyDict.get "walltime" d = Some (OpWalltime (Some tt))
        /\ feats_succeeded d = []).
Proof.
  cbn zeta.
  split; [vm_compute; reflexivity|]. split; [vm_compute; reflexivity|].
  split; [vm_compute; reflexivity|].
  split.
  { eexists. split; [vm_compute; reflexivity|].
    split; vm_compute; reflexivity. }
  split; [vm_compute; reflexivity|]. split; [vm_compute; reflexivity|].
  eexists. split; [vm_compute; reflexivity|].
  split; vm_compute; reflexivity.
Qed.

(** ** The scenarios of the specification *)

(** Two local files, no bucket, two native steps: four step records. *)
Example two_files_two_steps :
  let r := featurize (Scenario.calm []) (Scenario.ctx false)
             ["a.json"; "b.json"] None
             ["DeltaQFastCharge"; "CycleSummaryStats"] []
             (Scenario.boot ["/home/u/a.json"; "/home/u/b.json"] ∅) in
  fst r = Ok tt
  /\ map (fun kv => match snd kv with
                    | FeaturizeResult d => length (feats_succeeded d)
                    | _ => 0%nat
                    end) (m_status (snd r)) = [2; 2; 0]%nat.
Proof. vm_compute. split; reflexivity. Qed.

(** A failed validation is recorded with [valid] false and the exception
    that the code raises for it. *)
Example invalid_file_is_recorded :
  let w := {| list_s3_objects := fun _ => Ok [];
              download_s3_object := fun _ _ _ => Ok tt;
              fnmatch := fun name pat => glob_match pat name;
              md5sum := fun _ => Ok "d41d8cd98f00b204e9800998ecf8427e";
              auto_load := fun _ => Ok "schema.yaml";
              dp_validate := fun _ => Ok (false, "bad header");
              dp_structure := fun _ _ => Ok tt;
              dp_to_json_file := fun _ _ _ => Ok tt;
              import_class := Scenario.importer;
              auto_load_processed := fun _ => Ok tt;
              construct := fun _ _ _ => Ok tt;
              f_validate := fun _ _ _ => Ok (true, "");
              create_features := fun _ _ _ => Ok tt;
              dumpfn := fun _ => Ok tt |} in
  let r := structure w Scenario.env (Scenario.ctx false) ["a.csv"] [] None None
             None false false false false
             (Scenario.boot ["/home/u/a.csv"] ∅) in
  fst r = Ok tt
  /\ PyDict.get "/home/u/a.csv" (m_status (snd r))
     = Some (StructureResult
               (OpResult false (Some "schema.yaml") false None
                  (Some (BeepValidationError "bad header")) (Some tt)
                  (Some "d41d8cd98f00b204e9800998ecf8427e"))).
Proof. vm_compute. split; reflexivity. Qed.

(** * Further properties of the code *)

(** ** Paths and file names *)

(** ** More on paths *)

Lemma append_empty_r (s : string) : s +:+ "" = s.
Proof.
  induction s as [|c s IH]; [reflexivity|].
  change (String c (s +:+ "") = String c s). now rewrite IH.
Qed.

Lemma append_assoc (a b c : string) : (a +:+ b) +:+ c = a +:+ (b +:+ c).
Proof.
  induction a as [|x a IH]; [reflexivity|].
  change (String x ((a +:+ b) +:+ c) = String x (a +:+ (b +:+ c))).
  now rewrite IH.
Qed.

Lemma take_drop (n : nat) (s : string) : Str.take n s +:+ Str.drop n s = s.
Proof.
  revert s. induction n as [|n IH]; intros [|c s]; try reflexivity.
  change (String c (Str.take n s +:+ Str.drop n s) = String c s).
  now rewrite IH.
Qed.

Lemma contains_char_app (c : ascii) (s t : string) :
  Str.contains_char c (s +:+ t) = Str.contains_char c s || Str.contains_char c t.
Proof.
  induction s as [|x s IH]; [reflexivity|].
  change (Ascii.eqb x c || Str.contains_char c (s +:+ t)
          = Ascii.eqb x c || Str.contains_char c s || Str.contains_char c t).
  rewrite IH. now rewrite orb_assoc.
Qed.

Lemma contains_char_take (c : ascii) (n : nat) (s : string) :
  Str.contains_char c s = false -> Str.contains_char c (Str.take n s) = false.
Proof.
  revert s. induction n as [|n IH]; intros [|x s] H; try reflexivity.
  simpl in *. apply orb_false_iff in H as [H1 H2]. rewrite H1. simpl. now apply IH.
Qed.

Lemma contains_char_drop (c : ascii) (n : nat) (s : string) :
  Str.contains_char c s = false -> Str.contains_char c (Str.drop n s) = false.
Proof.
  revert s. induction n as [|n IH]; intros [|x s] H; try reflexivity; try exact H.
  simpl in *. apply orb_false_iff in H as [H1 H2]. now apply IH.
Qed.

Lemma rfind_from_absent (c : ascii) (s : string) : forall i acc,
  Str.contains_char c s = false -> Str.rfind_from c s i acc = acc.
Proof.
  induction s as [|x s IH]; intros i acc H; [reflexivity|].
  simpl in *. apply orb_false_iff in H as [H1 H2]. rewrite H1. now apply IH.
Qed.

Lemma rfind_from_present (c : ascii) (s : string) : forall i acc acc',
  Str.contains_char c s = true ->
  Str.rfind_from c s i acc = (i + Str.rfind_from c s 0 acc')%Z.
Proof.
  induction s as [|x s IH]; intros i acc acc' H; [discriminate H|].
  simpl in *. destruct (Str.contains_char c s) eqn:E.
  - rewrite (IH (i + 1)%Z _ acc' eq_refl), (IH 1%Z _ acc' eq_refl). lia.
  - rewrite orb_false_r in H. rewrite H.
    rewrite !rfind_from_absent by exact E. lia.
Qed.

Lemma rfind_from_lower (c : ascii) (s : string) : forall i acc,
  (-1 <= acc)%Z -> (0 <= i)%Z -> (-1 <= Str.rfind_from c s i acc)%Z.
Proof.
  induction s as [|x s IH]; intros i acc Ha Hi; [exact Ha|].
  simpl. apply IH; [destruct (Ascii.eqb x c); lia | lia].
Qed.

(** [basename], one character at a time. *)
Lemma basename_cons (x : ascii) (s : string) :
  PosixPath.basename (String x s)
  = if Str.contains_char PosixPath.sep s then PosixPath.basename s
    else if Ascii.eqb x PosixPath.sep then s else String x s.
Proof.
  unfold PosixPath.basename, Str.rfind. simpl Str.rfind_from.
  destruct (Str.contains_char PosixPath.sep s) eqn:E.
  - rewrite (rfind_from_present _ _ 1%Z _ (-1)%Z E).
    pose proof (rfind_from_lower PosixPath.sep s 0%Z (-1)%Z) as Hl.
    replace (Z.to_nat (1 + Str.rfind_from PosixPath.sep s 0 (-1) + 1))
      with (S (Z.to_nat (Str.rfind_from PosixPath.sep s 0 (-1) + 1))) by lia.
    reflexivity.
  - rewrite rfind_from_absent by exact E.
    destruct (Ascii.eqb x PosixPath.sep); reflexivity.
Qed.

Lemma basename_no_sep (p : string) :
  Str.contains_char PosixPath.sep p = false -> PosixPath.basename p = p.
Proof.
  destruct p as [|x s]; [reflexivity|]. intros H. rewrite basename_cons.
  simpl in H. apply orb_false_iff in H as [H1 H2]. now rewrite H2, H1.
Qed.

Lemma basename_has_no_sep (p : string) :
  Str.contains_char PosixPath.sep (PosixPath.basename p) = false.
Proof.
  induction p as [|x s IH]; [reflexivity|]. rewrite basename_cons.
  destruct (Str.contains_char PosixPath.sep s) eqn:E; [exact IH|].
  destruct (Ascii.eqb x PosixPath.sep) eqn:Ex; [exact E|].
  simpl. now rewrite Ex, E.
Qed.

Lemma basename_app_sep (a b : string) :
  PosixPath.basename (a +:+ String PosixPath.sep b) = PosixPath.basename b.
Proof.
  induction a as [|x a IH].
  - change (PosixPath.basename (String PosixPath.sep b) = PosixPath.basename b).
    rewrite basename_cons. destruct (Str.contains_char PosixPath.sep b) eqn:E.
    + reflexivity.
    + simpl. symmetry. now apply basename_no_sep.
  - change (PosixPath.basename (String x (a +:+ String PosixPath.sep b))
            = PosixPath.basename b).
    rewrite basename_cons, contains_char_app.
    replace (Str.contains_char PosixPath.sep (String PosixPath.sep b))
      with true by reflexivity.
    rewrite orb_true_r. exact IH.
Qed.

Lemma endswith_char_split (c : ascii) (a : string) :
  Str.endswith_char c a = true -> exists a', a = a' +:+ String c "".
Proof.
  induction a as [|x a IH]; [discriminate|].
  destruct a as [|y a].
  - simpl. intros H. apply Ascii.eqb_eq in H. subst. now exists "".
  - intros H. destruct (IH H) as [a' Ha']. exists (String x a').
    change (String x (String y a) = String x (a' +:+ String c "")). now rewrite Ha'.
Qed.

(** The base name of a joined path is that of its second part. *)
Lemma basename_join (a b : string) :
  PosixPath.basename (PosixPath.join a b) = PosixPath.basename b.
Proof.
  unfold PosixPath.join.
  destruct (Str.startswith_char PosixPath.sep b) eqn:Hb; [reflexivity|].
  destruct (Str.endswith_char PosixPath.sep a) eqn:Ha.
  - rewrite orb_true_r. destruct (endswith_char_split _ _ Ha) as [a' ->].
    rewrite append_assoc. apply basename_app_sep.
  - rewrite orb_false_r. destruct a as [|x a]; [reflexivity|].
    apply basename_app_sep.
Qed.

(** ** More on the resolution of the input tokens *)

Lemma check_files_exist_ok (files : list string) (m : machine) :
  (forall f, In f files -> f ∈ m_fs m) ->
  check_files_exist files m = (Ok tt, m).
Proof.
  unfold check_files_exist. induction files as [|f rest IH]; intros H; simpl.
  - reflexivity.
  - unfold bind at 1. unfold bind at 1. unfold exists_on_disk, gets.
    rewrite bool_decide_eq_true_2 by (apply H; now left). simpl.
    apply IH. intros x Hx. apply H. now right.
Qed.

Lemma check_files_exist_missing (pre post : list string) (f : string) (m : machine) :
  (forall x, In x pre -> x ∈ m_fs m) ->
  f ∉ m_fs m ->
  check_files_exist (pre ++ f :: post) m = (Raise (FileNotFoundError f), m).
Proof.
  unfold check_files_exist. induction pre as [|x pre IH]; intros H Hf; simpl.
  - unfold bind at 1. unfold bind at 1. unfold exists_on_disk, gets.
    rewrite bool_decide_eq_false_2 by exact Hf. reflexivity.
  - unfold bind at 1. unfold bind at 1. unfold exists_on_disk, gets.
    rewrite bool_decide_eq_true_2 by (apply H; now left). simpl.
    apply IH; [|exact Hf]. intros y Hy. apply H. now right.
Qed.

Lemma match_tokens_literal (w : world) (s3_keys : list string)
    (files : list string) : forall matched local_files,
  Forall (fun t => is_literal t = true) files ->
  match_tokens w s3_keys files matched local_files
  = (matched ++ map MatchedKey (List.filter (in_keys s3_keys) files),
     local_files ++ List.filter (fun t => negb (in_keys s3_keys t)) files).
Proof.
  induction files as [|t rest IH]; intros matched local_files H; simpl.
  - now rewrite !app_nil_r.
  - inversion H as [|? ? Ht Hrest]; subst. unfold is_literal in Ht.
    rewrite Ht. fold (in_keys s3_keys t).
    destruct (in_keys s3_keys t); simpl.
    + rewrite IH by exact Hrest. now rewrite <- app_assoc.
    + rewrite IH by exact Hrest. now rewrite <- app_assoc.
Qed.

Lemma fetch_matched_keys (w : world) (e : beep_env) (ctx : ContextPersister)
    (bucket : string) (cache : bool) (keys : list string) :
  forall (rest : list s3_match) (acc : list string) (m : machine),
  (forall k, In k keys ->
     download_s3_object w bucket k (s3_local_fullname e ctx cache k) = Ok tt) ->
  exists m1,
    fetch_matched w e ctx bucket cache (map MatchedKey keys ++ rest) acc m
    = fetch_matched w e ctx bucket cache rest
        (acc ++ map (s3_local_fullname e ctx cache) keys) m1
    /\ m_trace m1
       = m_trace m
         ++ map (fun k => EvFetch bucket k (s3_local_fullname e ctx cache k)) keys
    /\ m_status m1 = m_status m
    /\ m_heap m1 = m_heap m
    /\ (forall p, p ∈ m_fs m1 <->
          p ∈ m_fs m
          \/ In p (map (fun k => PosixPath.abspath (cwd ctx)
                                   (s3_local_fullname e ctx cache k)) keys)).
Proof.
  induction keys as [|k keys IH]; intros rest acc m H.
  - exists m. simpl. rewrite !app_nil_r. repeat split; auto. 
    intros [?|[]]; auto.
  - simpl map. simpl app. cbn [fetch_matched].
    fold (s3_local_fullname e ctx cache k).
    rewrite (H k (or_introl eq_refl)).
    unfold bind, log_at, call, emit, touch, modify. simpl.
    match goal with
    | |- context [fetch_matched _ _ _ _ _ _ ?acc' ?m'] =>
        destruct (IH rest acc' m') as (m1 & Hrun & Htr & Hst & Hh & Hfs)
    end.
    { intros k' Hk'. apply H. now right. }
    exists m1. rewrite Hrun. rewrite <- app_assoc. split; [reflexivity|].
    split; [rewrite Htr; simpl; now rewrite <- app_assoc|].
    split; [exact Hst|]. split; [exact Hh|].
    intros p. rewrite Hfs. simpl. rewrite elem_of_union, elem_of_singleton.
    intuition.
Qed.

Lemma resolve_files_local
    (w : world) (e : beep_env) (ctx : ContextPersister) (files : list string)
    (s3_bucket : option string) (s3_use_cache : bool) (m : machine) :
  given s3_bucket = false ->
  (forall f, In f files -> PosixPath.abspath (cwd ctx) f ∈ m_fs m) ->
  resolve_files w e ctx files s3_bucket s3_use_cache m
  = (Ok (map (PosixPath.abspath (cwd ctx)) files), m).
Proof.
  intros Hb H. unfold resolve_files, resolve_s3. rewrite Hb.
  unfold bind at 1. simpl. unfold bind at 1.
  rewrite check_files_exist_ok; [reflexivity|].
  intros f Hf. apply in_map_iff in Hf as (x & <- & Hx). now apply H.
Qed.

(** X1: with an empty suffix and no new extension, [add_suffix] only moves the
    file: the result is the base name of the input, unchanged, in
    [output_dir]. *)
Theorem add_suffix_without_suffix (full_path output_dir : string) :
  add_suffix full_path output_dir "" None
  = PosixPath.join output_dir (PosixPath.basename full_path).
Proof.
  unfold add_suffix.
  assert (H : forall p, fst (PosixPath.splitext p) +:+ snd (PosixPath.splitext p) = p).
  { intros p. unfold PosixPath.splitext.
    destruct (Str.rfind PosixPath.sep p <? Str.rfind PosixPath.extsep p)%Z;
      [|apply append_empty_r].
    generalize (Str.rfind PosixPath.sep p + 1)%Z as k.
    induction (String.length p) as [|n IH]; intros k; simpl.
    - apply append_empty_r.
    - destruct (k <? Str.rfind PosixPath.extsep p)%Z; [|apply append_empty_r].
      destruct (negb _); [apply take_drop | apply IH]. }
  specialize (H (PosixPath.basename full_path)).
  destruct (PosixPath.splitext (PosixPath.basename full_path)) as [stem ext].
  cbn [fst snd] in H. cbn [given]. change ("" +:+ ext) with ext. now rewrite H.
Qed.

Lemma splitext_parts (p : string) :
  PosixPath.splitext p = (p, "")
  \/ exists n, PosixPath.splitext p = (Str.take n p, Str.drop n p).
Proof.
  unfold PosixPath.splitext.
  destruct (Str.rfind PosixPath.sep p <? Str.rfind PosixPath.extsep p)%Z;
    [|now left].
  generalize (Str.rfind PosixPath.sep p + 1)%Z as k.
  induction (String.length p) as [|n IH]; intros k; simpl; [now left|].
  destruct (k <? Str.rfind PosixPath.extsep p)%Z; [|now left].
  destruct (negb _); [right; eauto | apply IH].
Qed.

(** X2: [add_suffix] names a file directly in [output_dir], whatever
    directories the input path has: the base name of the result is the stem of
    the input's base name, the suffix, and the extension (the new one if a
    non-empty one is given), provided neither the suffix nor the new extension
    holds a separator. *)
Theorem add_suffix_basename (full_path output_dir suffix : string)
    (modified_ext : option string) :
  Str.contains_char "/" suffix = false ->
  (forall e, modified_ext = Some e -> Str.contains_char "/" e = false) ->
  let '(stem, ext) := PosixPath.splitext (PosixPath.basename full_path) in
  let ext := if given modified_ext then default ext modified_ext else ext in
  PosixPath.basename (add_suffix full_path output_dir suffix modified_ext)
  = stem +:+ suffix +:+ ext.
Proof.
  intros Hs He. unfold add_suffix.
  pose proof (basename_has_no_sep full_path) as Hb.
  assert (Hparts : forall stem ext,
            PosixPath.splitext (PosixPath.basename full_path) = (stem, ext) ->
            Str.contains_char "/" stem = false /\ Str.contains_char "/" ext = false).
  { intros stem ext E.
    destruct (splitext_parts (PosixPath.basename full_path)) as [H|[n H]];
      rewrite H in E; inversion E; subst.
    - auto.
    - split; [now apply contains_char_take | now apply contains_char_drop]. }
  destruct (PosixPath.splitext (PosixPath.basename full_path)) as [stem ext].
  destruct (Hparts stem ext eq_refl) as [H1 H2].
  rewrite basename_join. apply basename_no_sep.
  rewrite !contains_char_app.
  change (Str.contains_char PosixPath.sep) with (Str.contains_char "/").
  rewrite H1, Hs. simpl.
  destruct modified_ext as [e|]; simpl; [|exact H2].
  destruct (Str.truthy e); [now apply He | exact H2].
Qed.

Lemma add_suffix_basename_witness :
  PosixPath.basename
    (add_suffix "/data/run/a.csv" "/out" STRUCTURED_SUFFIX (Some ".json.gz"))
  = "a-structured.json.gz".
Proof.
  refine (add_suffix_basename "/data/run/a.csv" "/out" STRUCTURED_SUFFIX
            (Some ".json.gz") eq_refl _).
  intros e H. inversion H. reflexivity.
Defined.

(** X3: without a bucket, resolution makes no external call: it returns the
    absolute paths of the tokens, in order, when all exist on disk, and raises
    [FileNotFoundError] for the first that does not. *)
Theorem resolve_files_without_bucket
    (w : world) (e : beep_env) (ctx : ContextPersister) (files : list string)
    (s3_bucket : option string) (s3_use_cache : bool) (m : machine) :
  given s3_bucket = false ->
  ((forall f, In f files -> PosixPath.abspath (cwd ctx) f ∈ m_fs m) ->
   resolve_files w e ctx files s3_bucket s3_use_cache m
   = (Ok (map (PosixPath.abspath (cwd ctx)) files), m))
  /\ (forall pre f post,
        files = pre ++ f :: post ->
        (forall x, In x pre -> PosixPath.abspath (cwd ctx) x ∈ m_fs m) ->
        PosixPath.abspath (cwd ctx) f ∉ m_fs m ->
        resolve_files w e ctx files s3_bucket s3_use_cache m
        = (Raise (FileNotFoundError (PosixPath.abspath (cwd ctx) f)), m)).
Proof.
  intros Hb. split; [now apply resolve_files_local|].
  unfold resolve_files, resolve_s3. rewrite Hb.
  intros pre f post -> Hpre Hf. unfold bind at 1. simpl. unfold bind at 1.
  {
    rewrite map_app. simpl map.
    rewrite check_files_exist_missing; [reflexivity| |exact Hf].
    intros y Hy. apply in_map_iff in Hy as (x & <- & Hx). now apply Hpre. }
Qed.

Lemma resolve_files_without_bucket_witness :
  let m := Scenario.boot ["/home/u/a.csv"; "/data/b.csv"] ∅ in
  resolve_files (Scenario.calm []) Scenario.env (Scenario.ctx false)
    ["a.csv"; "/data/b.csv"] None false m
  = (Ok ["/home/u/a.csv"; "/data/b.csv"], m)
  /\ resolve_files (Scenario.calm []) Scenario.env (Scenario.ctx false)
       ["a.csv"; "c.csv"; "/data/b.csv"] None false m
     = (Raise (FileNotFoundError "/home/u/c.csv"), m).
Proof.
  intros m. split.
  - apply (proj1 (resolve_files_without_bucket (Scenario.calm []) Scenario.env
                    (Scenario.ctx false) ["a.csv"; "/data/b.csv"] None false m
                    eq_refl)).
    intros f [<-|[<-|[]]]; refine (bool_decide_unpack _ _); vm_compute; exact I.
  - apply (proj2 (resolve_files_without_bucket (Scenario.calm []) Scenario.env
                    (Scenario.ctx false) ["a.csv"; "c.csv"; "/data/b.csv"]
                    None false m eq_refl)
             ["a.csv"] "c.csv" ["/data/b.csv"] eq_refl).
    + intros f [<-|[]]; refine (bool_decide_unpack _ _); vm_compute; exact I.
    + refine (bool_decide_unpack _ _); vm_compute; exact I.
Defined.

(** X4: with a bucket and tokens without wildcard, the tokens that are keys of
    the bucket are downloaded, in order, each to the base name of the key in
    the download directory; the result lists the other tokens first and the
    downloaded files after them, so the order of the tokens is not kept. *)
Theorem resolve_s3_literal_tokens
    (w : world) (e : beep_env) (ctx : ContextPersister) (files : list string)
    (bucket : string) (s3_use_cache : bool) (s3_keys : list string)
    (m : machine) :
  Str.truthy bucket = true ->
  list_s3_objects w bucket = Ok s3_keys ->
  Forall (fun t => is_literal t = true) files ->
  (forall k, In k (List.filter (in_keys s3_keys) files) ->
     download_s3_object w bucket k (s3_local_fullname e ctx s3_use_cache k)
     = Ok tt) ->
  exists m',
    resolve_s3 w e ctx files (Some bucket) s3_use_cache m
    = (Ok (List.filter (fun t => negb (in_keys s3_keys t)) files
           ++ map (s3_local_fullname e ctx s3_use_cache)
                (List.filter (in_keys s3_keys) files)), m')
    /\ m_trace m'
       = m_trace m
         ++ EvListS3 bucket
            :: map (fun k => EvFetch bucket k
                               (s3_local_fullname e ctx s3_use_cache k))
                 (List.filter (in_keys s3_keys) files)
    /\ (forall k, In k (List.filter (in_keys s3_keys) files) ->
          PosixPath.abspath (cwd ctx) (s3_local_fullname e ctx s3_use_cache k)
            ∈ m_fs m'
          /\ PosixPath.basename (s3_local_fullname e ctx s3_use_cache k)
             = PosixPath.basename k).
Proof.
  intros Hb Hlist Hlit Hdl. unfold resolve_s3. cbn [given default]. rewrite Hb.
  run_simpl. rewrite Hlist. cbn [fst snd].
  rewrite (match_tokens_literal w s3_keys files [] [] Hlit). cbn [app].
  match goal with
  | |- context [fetch_matched _ _ _ _ _ _ [] ?m0] =>
      destruct (fetch_matched_keys w e ctx bucket s3_use_cache
                  (List.filter (in_keys s3_keys) files) [] [] m0 Hdl)
        as (m1 & Hrun & Htr & _ & _ & Hfs)
  end.
  rewrite app_nil_r in Hrun. rewrite Hrun. cbn [fetch_matched app].
  exists m1. split; [reflexivity|]. split.
  - rewrite Htr. cbn [m_trace]. now rewrite <- app_assoc.
  - intros k Hk. split.
    + apply Hfs. right. apply in_map_iff. exists k. split; [reflexivity|exact Hk].
    + unfold s3_local_fullname. rewrite basename_join.
      apply basename_no_sep, basename_has_no_sep.
Qed.

Lemma resolve_s3_literal_tokens_witness :
  exists m',
    resolve_s3 (Scenario.calm ["data/a.csv"; "data/c.csv"]) Scenario.env
      (Scenario.ctx false) ["data/a.csv"; "b.csv"; "data/c.csv"]
      (Some "bucket") false (Scenario.boot [] ∅)
    = (Ok ["b.csv"; "/home/u/a.csv"; "/home/u/c.csv"], m')
    /\ m_trace m'
       = [EvListS3 "bucket"; EvFetch "bucket" "data/a.csv" "/home/u/a.csv";
          EvFetch "bucket" "data/c.csv" "/home/u/c.csv"].
Proof.
  destruct (resolve_s3_literal_tokens
              (Scenario.calm ["data/a.csv"; "data/c.csv"]) Scenario.env
              (Scenario.ctx false) ["data/a.csv"; "b.csv"; "data/c.csv"]
              "bucket" false ["data/a.csv"; "data/c.csv"]
              (Scenario.boot [] ∅) eq_refl eq_refl)
    as (m' & Hrun & Htrace & _).
  - repeat constructor.
  - intros k _. reflexivity.
  - exists m'. split; [exact Hrun | exact Htrace].
Defined.

(** X5: a download that fails ends the resolution with its exception: the keys
    before it have been fetched, those after it are not, and no file list is
    returned. *)
Theorem failed_download_aborts_resolution
    (w : world) (e : beep_env) (ctx : ContextPersister) (files : list string)
    (bucket : string) (s3_use_cache : bool) (s3_keys : list string)
    (m : machine) (pre post : list string) (k : string) (err : exn) :
  Str.truthy bucket = true ->
  list_s3_objects w bucket = Ok s3_keys ->
  Forall (fun t => is_literal t = true) files ->
  List.filter (in_keys s3_keys) files = pre ++ k :: post ->
  (forall x, In x pre ->
     download_s3_object w bucket x (s3_local_fullname e ctx s3_use_cache x)
     = Ok tt) ->
  download_s3_object w bucket k (s3_local_fullname e ctx s3_use_cache k)
    = Raise err ->
  exists m',
    resolve_s3 w e ctx files (Some bucket) s3_use_cache m = (Raise err, m')
    /\ m_trace m'
       = m_trace m
         ++ EvListS3 bucket
            :: map (fun x => EvFetch bucket x
                               (s3_local_fullname e ctx s3_use_cache x))
                 (pre ++ [k]).
Proof.
  intros Hb Hlist Hlit Hsplit Hpre Hk. unfold resolve_s3.
  cbn [given default]. rewrite Hb.
  run_simpl. rewrite Hlist. cbn [fst snd].
  rewrite (match_tokens_literal w s3_keys files [] [] Hlit). cbn [app].
  rewrite Hsplit, map_app. cbn [map].
  match goal with
  | |- context [fetch_matched _ _ _ _ _ (_ ++ ?rest) [] ?m0] =>
      destruct (fetch_matched_keys w e ctx bucket s3_use_cache pre rest [] m0 Hpre)
        as (m1 & Hrun & Htr & _)
  end.
  rewrite Hrun. cbn [fetch_matched].
  fold (s3_local_fullname e ctx s3_use_cache k). rewrite Hk.
  run_simpl. eexists. split; [reflexivity|]. simpl. rewrite Htr. simpl.
  rewrite map_app. simpl. now rewrite <- !app_assoc.
Qed.

Lemma failed_download_aborts_resolution_witness :
  exists m',
    resolve_s3 (Hosts.refusing ["a.csv"; "b.csv"; "c.csv"] "b.csv")
      Scenario.env (Scenario.ctx false) ["a.csv"; "b.csv"; "c.csv"]
      (Some "bucket") false (Scenario.boot [] ∅)
    = (Raise (External "ClientError"), m')
    /\ m_trace m'
       = [EvListS3 "bucket"; EvFetch "bucket" "a.csv" "/home/u/a.csv";
          EvFetch "bucket" "b.csv" "/home/u/b.csv"].
Proof.
  destruct (failed_download_aborts_resolution
              (Hosts.refusing ["a.csv"; "b.csv"; "c.csv"] "b.csv")
              Scenario.env (Scenario.ctx false) ["a.csv"; "b.csv"; "c.csv"]
              "bucket" false ["a.csv"; "b.csv"; "c.csv"] (Scenario.boot [] ∅)
              ["a.csv"] ["c.csv"] "b.csv" (External "ClientError")
              eq_refl eq_refl)
    as (m' & Hrun & Htrace).
  - repeat constructor.
  - reflexivity.
  - intros x [<-|[]]. reflexivity.
  - reflexivity.
  - exists m'. split; [exact Hrun | exact Htrace].
Defined.

(** X6: the output files of [structure] are as many as the input files, so the
    loop finds an output name for every file it reaches. *)
Theorem output_files_match_inputs
    (ctx : ContextPersister) (files : list string) (output_dir : option string)
    (output_filenames output_files : list string) (m m' : machine) :
  output_files_of ctx files output_dir output_filenames m = (Ok output_files, m') ->
  length output_files = length files
  /\ forall i f, files !! i = Some f -> is_Some (output_files !! i).
Proof.
  intros H.
  assert (Hlen : length output_files = length files).
  { unfold output_files_of in H. destruct (given output_dir).
    - unfold bind in H.
      destruct (bool_decide (output_filenames <> [])); simpl in H;
        inversion H; subst; apply length_map.
    - destruct (bool_decide (output_filenames <> [])).
      + destruct (bool_decide (length files <>
                     length (map (PosixPath.abspath (cwd ctx)) output_filenames)))
          eqn:E; [discriminate H|].
        apply bool_decide_eq_false_1 in E. inversion H; subst.
        destruct (decide (length files =
                    length (map (PosixPath.abspath (cwd ctx)) output_filenames)));
          [congruence | contradiction].
      + inversion H; subst. apply length_map. }
  split; [exact Hlen|].
  intros i f Hf. apply lookup_lt_is_Some. rewrite Hlen.
  now apply lookup_lt_Some in Hf.
Qed.

Lemma output_files_match_inputs_witness :
  length ["/out/a-structured.json.gz"; "/out/b-structured.json.gz"]
  = length ["/home/u/a.csv"; "/home/u/b.csv"].
Proof.
  refine (proj1 (output_files_match_inputs (Scenario.ctx false)
                   ["/home/u/a.csv"; "/home/u/b.csv"] (Some "/out") []
                   ["/out/a-structured.json.gz"; "/out/b-structured.json.gz"]
                   (Scenario.boot [] ∅) _ _)).
  vm_compute. reflexivity.
Defined.

(** X7: a native class is found by its name without any import, on any host.
    *)
Theorem find_fclass_native (w : world) (fclass : featurizer) (m : machine) :
  In fclass native_fclasses ->
  find_fclass w (cname fclass) m = (Ok fclass, m).
Proof.
  intros H. repeat (destruct H as [<-|H]; [reflexivity|]). destruct H.
Qed.

Lemma find_fclass_native_witness :
  find_fclass (Scenario.calm []) "CycleSummaryStats" (Scenario.boot [] ∅)
  = (Ok CycleSummaryStats, Scenario.boot [] ∅).
Proof.
  apply (find_fclass_native (Scenario.calm []) CycleSummaryStats
           (Scenario.boot [] ∅)).
  simpl. tauto.
Defined.



Lemma add_hyperparams_ok (lits : list hp_literal) :
  forall acc m specs m',
  add_hyperparams lits acc m = (Ok specs, m') ->
  m' = m
  /\ exists items, lits = map (fun it => ADict [it]) items
                   /\ specs = acc ++ items.
Proof.
  induction lits as [|lit rest IH]; intros acc m specs m' H; simpl in H.
  - inversion H; subst. split; [reflexivity|]. exists []. now rewrite app_nil_r.
  - destruct lit as [e| |[|item [|]]]; try discriminate H.
    apply IH in H as [-> (items & -> & ->)]. split; [reflexivity|].
    exists (item :: items). now rewrite <- app_assoc.
Qed.

Lemma resolve_fclasses_classes (w : world) (specs : list (string * pyparams)) :
  forall acc m tuples m',
  resolve_fclasses w specs acc m = (Ok tuples, m') ->
  exists new,
    tuples = acc ++ new
    /\ Forall2 (fun spec t => class_of w (fst spec) = Some (fst t)
                              /\ snd t = defaults (fst t)) specs new.
Proof.
  induction specs as [|[name ps] rest IH]; intros acc m tuples m' H; simpl in H.
  - inversion H; subst. exists []. rewrite app_nil_r. split; [reflexivity|constructor].
  - unfold bind at 1 in H.
    destruct (find_fclass w name m) as [[fc|e] m1] eqn:Hf; [|discriminate H].
    apply find_fclass_ok in Hf as [Hc _].
    unfold bind at 1 in H.
    destruct (configure fc ps m1) as [[t|e] m2] eqn:Hcfg; [|discriminate H].
    destruct (configure_effective _ _ _ _ _ 0%nat Hcfg) as [-> _].
    apply IH in H as (new & -> & Hnew).
    exists ((fc, defaults fc) :: new). rewrite <- app_assoc.
    split; [reflexivity|]. constructor; [split; [exact Hc | reflexivity] | exact Hnew].
Qed.

(** X9: the steps of a run are those of the [-f] list (or the six core classes
    for [all]) followed by one step per [-h] dictionary, in order; each [-h]
    string must be a dictionary with a single key. *)
Theorem featurizers_of_steps
    (w : world) (featurize_with : list string)
    (featurize_with_hyperparams : list hp_literal) (m m' : machine)
    (fclass_tuples : list (featurizer * loc)) :
  featurizers_of w featurize_with featurize_with_hyperparams m
    = (Ok fclass_tuples, m') ->
  exists items,
    featurize_with_hyperparams = map (fun it => ADict [it]) items
    /\ Forall2 (fun spec t => class_of w (fst spec) = Some (fst t)
                              /\ snd t = defaults (fst t))
         (select_featurizers featurize_with ++ items) fclass_tuples
    /\ length fclass_tuples
       = (length (select_featurizers featurize_with)
          + length featurize_with_hyperparams)%nat.
Proof.
  unfold featurizers_of. intros H. unfold bind at 1 in H.
  destruct (add_hyperparams featurize_with_hyperparams
              (select_featurizers featurize_with) m) as [[specs|e] m1] eqn:Ha;
    [|discriminate H].
  apply add_hyperparams_ok in Ha as [-> (items & -> & ->)].
  apply resolve_fclasses_classes in H as (new & -> & Hnew).
  exists items. split; [reflexivity|]. split; [exact Hnew|].
  apply Forall2_length in Hnew. simpl. rewrite <- Hnew.
  rewrite length_app, length_map. reflexivity.
Qed.

Lemma featurizers_of_steps_witness :
  exists items,
    [ADict [("CycleSummaryStats", PDict {[ "cycle_index" := HInt 10 ]})]]
    = map (fun it => ADict [it]) items
    /\ length [(DeltaQFastCharge, 1%nat); (CycleSummaryStats, 3%nat)]
       = (length (select_featurizers ["DeltaQFastCharge"]) + 1)%nat.
Proof.
  destruct (featurizers_of_steps (Scenario.calm []) ["DeltaQFastCharge"]
              [ADict [("CycleSummaryStats", PDict {[ "cycle_index" := HInt 10 ]})]]
              (Scenario.boot [] Scenario.declared)
              (snd (featurizers_of (Scenario.calm []) ["DeltaQFastCharge"]
                      [ADict [("CycleSummaryStats",
                               PDict {[ "cycle_index" := HInt 10 ]})]]
                      (Scenario.boot [] Scenario.declared)))
              [(DeltaQFastCharge, 1%nat); (CycleSummaryStats, 3%nat)])
    as (items & Hitems & _ & Hlen).
  - vm_compute. reflexivity.
  - exists items. split; [exact Hitems | exact Hlen].
Defined.

(** ** Operator interrupts *)

Lemma preserves_status_featurize_try w od file fc l :
  preserves (fun sl : machine * op_subresult => m_status (fst sl))
    (featurize_try w od file fc l).
Proof. unfold featurize_try, log_at, touch, heap_get. frame_local. Qed.

Lemma featurize_step_interrupt w ctx od file opr fc l m e :
  step_error w od fc file (effective m l) = Some e ->
  is_interrupt e = true ->
  exists m',
    featurize_step w ctx od file opr (fc, l) m = (Raise ClickExit, m')
    /\ m_status m' = m_status m
    /\ exists lg, m_log m' = lg ++ [interrupt_record].
Proof.
  intros Herr Hint. unfold featurize_step.
  pose proof (featurize_try_outcome w od file fc l m op_subresult_init) as H.
  pose proof (preserves_status_featurize_try w od file fc l
                (m, op_subresult_init)) as Hst.
  unfold bind at 1, with_local.
  destruct (featurize_try w od file fc l (m, op_subresult_init))
    as [r [m1 sub1]]. simpl in H, Hst. subst r. rewrite Herr, Hint.
  run_simpl. eexists. split; [reflexivity|]. simpl. eauto.
Qed.

Lemma structure_file_interrupt w ctx ofs a vo nr i f m e :
  structure_error w ofs a vo nr i f = Some e ->
  is_interrupt e = true ->
  exists m',
    structure_file w ctx ofs a vo nr (i, f) m = (Raise ClickExit, m')
    /\ m_status m' = m_status m
    /\ exists lg, m_log m' = lg ++ [interrupt_record].
Proof.
  intros Herr Hint. unfold structure_file.
  pose proof (structure_try_outcome w ofs a vo nr i f m op_result_init) as H.
  pose proof (preserves_status_structure_try w ofs a vo nr i f
                (m, op_result_init)) as Hst.
  unfold bind at 1, with_local.
  destruct (structure_try w ofs a vo nr i f (m, op_result_init))
    as [r [m1 op1]]. simpl in H, Hst. subst r. rewrite Herr, Hint.
  run_simpl. eexists. split; [reflexivity|]. simpl. eauto.
Qed.

(** X10: an operator interrupt during a featurizer ends the run with Click's
    exit, whether or not errors halt: a critical record is the last thing
    logged, and [status_json] holds the files processed before, not the file
    being processed. *)
Theorem interrupt_ends_featurize
    (w : world) (ctx : ContextPersister) (output_dir : string)
    (pre post : list string) (f : string)
    (tpre tpost : list (featurizer * loc)) (t : featurizer * loc)
    (m : machine) (e : exn) :
  (forall x, In x pre ->
     file_passes w ctx output_dir (tpre ++ t :: tpost) m x) ->
  succeeds (md5sum w f) = true ->
  succeeds (auto_load_processed w f) = true ->
  (forall t', In t' tpre ->
     passes (halt_on_error ctx)
       (step_error w output_dir (fst t') f (effective m (snd t')))) ->
  step_error w output_dir (fst t) f (effective m (snd t)) = Some e ->
  is_interrupt e = true ->
  exists m',
    featurize_files w ctx output_dir (tpre ++ t :: tpost) (pre ++ f :: post) m
      = (Raise ClickExit, m')
    /\ PyDict.keys (m_status m') = first_seen pre
    /\ exists lg, m_log m' = lg ++ [interrupt_record].
Proof.
  intros Hpre Hmd5 Hload Htpre Herr Hint. unfold featurize_files.
  set (m0 := Machine (m_fs m) (m_heap m) (m_trace m) (m_log m) []).
  destruct (featurize_files_pass w ctx output_dir (tpre ++ t :: tpost) pre 0%nat m0)
    as (i' & m1 & Hrun & Hh & Hkeys & _ & _).
  { intros x Hx. apply (file_passes_heap _ _ _ _ _ m); [reflexivity|]. now apply Hpre. }
  assert (Hfile : exists m',
    featurize_file w ctx output_dir (tpre ++ t :: tpost) i' f m1
      = (Raise ClickExit, m')
    /\ m_status m' = m_status m1
    /\ exists lg, m_log m' = lg ++ [interrupt_record]).
  { unfold featurize_file.
    destruct (md5sum w f) as [h|]; [|discriminate Hmd5].
    destruct (auto_load_processed w f) as [[]|]; [|discriminate Hload].
    run_simpl.
    match goal with
    | |- context [foldM _ ?o _ ?m2] =>
        destruct (featurize_steps_pass w ctx output_dir f tpre o m2)
          as (opr' & m3 & Hsteps & Hs3 & Hh3 & _)
    end.
    { intros t' Ht'. simpl. rewrite (effective_heap _ m1) by reflexivity.
      rewrite (effective_heap _ _ _ Hh). now apply Htpre. }
    destruct t as [fc l].
    destruct (featurize_step_interrupt w ctx output_dir f opr' fc l m3 e)
      as (m4 & Hstep & Hs4 & Hlog); [|exact Hint|].
    { rewrite (effective_heap _ _ _ Hh3). simpl.
      rewrite (effective_heap _ m1) by reflexivity.
      rewrite (effective_heap _ _ _ Hh). exact Herr. }
    rewrite foldM_app. rewrite (bind_ok _ _ _ _ _ Hsteps). simpl.
    rewrite (bind_raise _ _ _ _ _ Hstep).
    eexists. split; [reflexivity|]. split; [|exact Hlog].
    rewrite Hs4, Hs3. reflexivity. }
  destruct Hfile as (m' & Hfile & Hst & Hlog).
  exists m'. split.
  { run_simpl. fold m0. rewrite foldM_app. rewrite (bind_ok _ _ _ _ _ Hrun).
    simpl. rewrite (bind_raise _ _ _ _ _ Hfile). reflexivity. }
  rewrite Hst. split; [exact Hkeys | exact Hlog].
Qed.

Lemma interrupt_ends_featurize_witness :
  exists m',
    featurize_files (Hosts.interrupted_on "/home/u/b.json") (Scenario.ctx false)
      "/home/u" ([] ++ (DeltaQFastCharge, 1%nat) :: [(CycleSummaryStats, 3%nat)])
      (["/home/u/a.json"] ++ "/home/u/b.json" :: ["/home/u/c.json"])
      (Scenario.boot [] Scenario.declared)
    = (Raise ClickExit, m')
    /\ PyDict.keys (m_status m') = ["/home/u/a.json"]
    /\ exists lg, m_log m' = lg ++ [interrupt_record].
Proof.
  apply (interrupt_ends_featurize (Hosts.interrupted_on "/home/u/b.json")
           (Scenario.ctx false) "/home/u" ["/home/u/a.json"] ["/home/u/c.json"]
           "/home/u/b.json" [] [(CycleSummaryStats, 3%nat)]
           (DeltaQFastCharge, 1%nat) (Scenario.boot [] Scenario.declared)
           KeyboardInterrupt).
  - intros x [<-|[]]. split; [reflexivity|]. split; [reflexivity|].
    intros t [<-|[<-|[]]]; vm_compute; exact I.
  - reflexivity.
  - reflexivity.
  - intros t' [].
  - vm_compute. reflexivity.
  - reflexivity.
Defined.

(** X11: an operator interrupt while a file is structured ends [structure]
    with Click's exit, whether or not errors halt: a critical record is the
    last thing logged, and [status_json] holds the files processed before, not
    the file being processed. *)
Theorem interrupt_ends_structure
    (w : world) (ctx : ContextPersister) (output_files : list string)
    (automatic validation_only no_raw : bool)
    (pre post : list string) (f : string) (m : machine) (e : exn) :
  (forall j x, pre !! j = Some x ->
     passes (halt_on_error ctx)
       (structure_error w output_files automatic validation_only no_raw j x)) ->
  structure_error w output_files automatic validation_only no_raw
    (length pre) f = Some e ->
  is_interrupt e = true ->
  exists m',
    structure_files w ctx output_files automatic validation_only no_raw
      (pre ++ f :: post) m = (Raise ClickExit, m')
    /\ PyDict.keys (m_status m') = first_seen pre
    /\ exists lg, m_log m' = lg ++ [interrupt_record].
Proof.
  intros Hpre Herr Hint. unfold structure_files, enumerate.
  set (m0 := Machine (m_fs m) (m_heap m) (m_trace m) (m_log m) []).
  destruct (structure_loop_pass w ctx output_files automatic validation_only
              no_raw pre 0%nat m0) as (m1 & Hrun & Hkeys & _ & _).
  { intros j x Hx. simpl. now apply Hpre. }
  destruct (structure_file_interrupt w ctx output_files automatic validation_only
              no_raw (length pre) f m1 e Herr Hint) as (m' & Hfile & Hst & Hlog).
  exists m'. split.
  { run_simpl. fold m0. rewrite enumerate_from_app, for_each_app.
    rewrite (bind_ok _ _ _ _ _ Hrun). simpl.
    rewrite (bind_raise _ _ _ _ _ Hfile). reflexivity. }
  rewrite Hst. split; [exact Hkeys | exact Hlog].
Qed.

Lemma interrupt_ends_structure_witness :
  exists m',
    structure_files (Hosts.interrupted_on "/home/u/b.csv") (Scenario.ctx true)
      ["/o/a.json.gz"; "/o/b.json.gz"; "/o/c.json.gz"] false false false
      (["/home/u/a.csv"] ++ "/home/u/b.csv" :: ["/home/u/c.csv"])
      (Scenario.boot [] ∅)
    = (Raise ClickExit, m')
    /\ PyDict.keys (m_status m') = ["/home/u/a.csv"]
    /\ exists lg, m_log m' = lg ++ [interrupt_record].
Proof.
  apply (interrupt_ends_structure (Hosts.interrupted_on "/home/u/b.csv")
           (Scenario.ctx true)
           ["/o/a.json.gz"; "/o/b.json.gz"; "/o/c.json.gz"] false false false
           ["/home/u/a.csv"] ["/home/u/c.csv"] "/home/u/b.csv"
           (Scenario.boot [] ∅) KeyboardInterrupt).
  - intros [|j] x Hx; [|discriminate Hx]. inversion Hx; subst x.
    vm_compute. exact I.
  - vm_compute. reflexivity.
  - reflexivity.
Defined.

(** ** What the records say *)

Lemma structure_try_record w ofs a vo nr i f m :
  let r := snd (snd (structure_try w ofs a vo nr i f (m, op_result_init))) in
  (structured r = true <-> structure_error w ofs a vo nr i f = None /\ vo = false)
  /\ (structured r = true -> validated r = true)
  /\ (forall o, output r = Some o <-> structured r = true /\ ofs !! i = Some o)
  /\ (validated r = true <-> exists reason, dp_validate w f = Ok (true, reason)
                             /\ succeeds (md5sum w f) = true
                             /\ succeeds (auto_load w f) = true)
  /\ traceback r = None.
Proof.
  unfold structure_try, structure_error. run_simpl.
  destruct (md5sum w f) as [h|e]; simpl.
  2:{ repeat split; try congruence; try (intros []; congruence).
      intros (? & ? & ? & ?). discriminate. }
  destruct (auto_load w f) as [sch|e]; simpl.
  2:{ repeat split; try congruence; try (intros []; congruence).
      intros (? & ? & ? & ?). discriminate. }
  destruct (dp_validate w f) as [[[|] reason]|e]; simpl.
  2,3:(repeat split; try congruence; try (intros []; congruence);
       intros (? & ? & ? & ?); congruence).
  destruct vo; simpl.
  { repeat split; try congruence; try (intros []; congruence); eauto. }
  destruct (dp_structure w f a) as [[]|e]; simpl.
  2:{ repeat split; try congruence; try (intros []; congruence); eauto. }
  destruct (ofs !! i) as [o|] eqn:Eo; simpl.
  2:{ repeat split; try congruence; try (intros []; congruence); eauto. }
  destruct (dp_to_json_file w f o nr) as [[]|e]; simpl.
  - repeat split; try congruence; eauto. intros [_ ?]. congruence.
  - repeat split; try congruence; try (intros []; congruence); eauto.
Qed.

(** Closes the cases of a record lemma once the outcomes are known. *)
Ltac record_case :=
  simpl;
  repeat match goal with
         | |- _ /\ _ => split
         | |- _ <-> _ => split
         | |- forall _, _ => intros
         end;
  repeat match goal with
         | H : _ /\ _ |- _ => destruct H
         | H : exists _, _ |- _ => destruct H
         end;
  subst; try congruence; try reflexivity; eauto 6.

Lemma featurize_try_record w od file fc l m :
  let r := snd (snd (featurize_try w od file fc l (m, op_subresult_init))) in
  let hps := effective m l in
  let path := feature_output_path od (cname fc) file in
  (valid r = true <->
     succeeds (construct w fc file hps) = true
     /\ exists reason, f_validate w fc file hps = Ok (true, reason))
  /\ (featurized r = true <->
        valid r = true /\ succeeds (create_features w fc file hps) = true)
  /\ (forall p, sub_output r = Some p <->
        featurized r = true /\ succeeds (dumpfn w path) = true /\ p = path)
  /\ (forall h, op_md5_chksum r = Some h <->
        sub_output r = Some path /\ md5sum w path = Ok h)
  /\ sub_traceback r = None.
Proof.
  unfold featurize_try, effective. run_simpl.
  destruct (construct w fc file _) as [[]|e]; simpl; [|record_case].
  destruct (f_validate w fc file _) as [[[|] reason]|e]; simpl;
    [|record_case|record_case].
  destruct (create_features w fc file _) as [[]|e]; simpl; [|record_case].
  destruct (dumpfn w _) as [[]|e]; simpl; [|record_case].
  destruct (md5sum w _) as [h0|e]; simpl; record_case.
Qed.

(** X12: the record [structure] stores for a file: the traceback is the error
    met, if any; [structured] holds exactly when no error was met and the run
    is not validation-only, and implies [validated]; an output is recorded
    exactly when the file was structured, and it is the output file of the
    same index. *)
Theorem structure_record_invariant
    (w : world) (ctx : ContextPersister) (output_files : list string)
    (automatic validation_only no_raw : bool) (i : nat) (f : string)
    (m : machine) :
  passes (halt_on_error ctx)
    (structure_error w output_files automatic validation_only no_raw i f) ->
  exists r m',
    structure_file w ctx output_files automatic validation_only no_raw (i, f) m
      = (Ok tt, m')
    /\ PyDict.get f (m_status m') = Some (StructureResult r)
    /\ traceback r
       = structure_error w output_files automatic validation_only no_raw i f
    /\ (structured r = true <->
          structure_error w output_files automatic validation_only no_raw i f
            = None /\ validation_only = false)
    /\ (structured r = true -> validated r = true)
    /\ (forall o, output r = Some o <->
          structured r = true /\ output_files !! i = Some o)
    /\ walltime r = Some tt.
Proof.
  intros Hp. unfold structure_file.
  pose proof (structure_try_outcome w output_files automatic validation_only
                no_raw i f m op_result_init) as H.
  pose proof (structure_try_record w output_files automatic validation_only
                no_raw i f m) as Hrec.
  unfold bind at 1, with_local.
  destruct (structure_try w output_files automatic validation_only no_raw i f
              (m, op_result_init)) as [r [m1 op1]].
  simpl in H, Hrec. subst r. destruct Hrec as (H1 & H2 & H3 & _ & H5).
  destruct (structure_error w output_files automatic validation_only no_raw i f)
    as [e|].
  - destruct Hp as [Hint Hhalt]. rewrite Hint, Hhalt. run_simpl.
    eexists. eexists. split; [reflexivity|]. simpl. rewrite get_set_eq.
    split; [reflexivity|]. simpl.
    split; [reflexivity|]. split; [exact H1|]. split; [exact H2|].
    split; [exact H3 | reflexivity].
  - run_simpl. eexists. eexists. split; [reflexivity|]. simpl.
    rewrite get_set_eq. split; [reflexivity|]. simpl.
    split; [exact H5|]. split; [exact H1|]. split; [exact H2|].
    split; [exact H3 | reflexivity].
Qed.

Lemma structure_record_invariant_witness :
  exists r m',
    structure_file (Scenario.failing_on "/home/u/b.csv") (Scenario.ctx false)
      ["/o/a.json.gz"; "/o/b.json.gz"] false false false
      (1%nat, "/home/u/b.csv") (Scenario.boot [] ∅) = (Ok tt, m')
    /\ PyDict.get "/home/u/b.csv" (m_status m') = Some (StructureResult r)
    /\ traceback r = Some (External "RuntimeError")
    /\ structured r = false
    /\ output r = None.
Proof.
  destruct (structure_record_invariant (Scenario.failing_on "/home/u/b.csv")
              (Scenario.ctx false) ["/o/a.json.gz"; "/o/b.json.gz"]
              false false false 1%nat "/home/u/b.csv" (Scenario.boot [] ∅))
    as (r & m' & Hrun & Hget & Htb & Hst & _ & Hout & _).
  - vm_compute. split; reflexivity.
  - assert (Hs : structured r = false).
    { destruct (structured r); [|reflexivity].
      destruct (proj1 Hst eq_refl) as [H _]. vm_compute in H. discriminate H. }
    exists r, m'. split; [exact Hrun|]. split; [exact Hget|].
    split; [exact Htb|]. split; [exact Hs|].
    destruct (output r) as [o|] eqn:Ho; [|reflexivity].
    destruct (proj1 (Hout o) eq_refl) as [H _]. rewrite Hs in H. discriminate H.
Defined.

(** X13: the record [featurize] stores for a step: the traceback is the error
    met, if any; [valid] says that the class was constructed and validated;
    [featurized] says, further, that [create_features] returned, whether or
    not the features could then be written; an output is recorded exactly when
    the features were also written, and a checksum when the written file could
    be hashed. *)
Theorem featurize_record_invariant
    (w : world) (ctx : ContextPersister) (output_dir file : string)
    (op_result : PyDict.t op_entry) (fclass : featurizer) (l : loc)
    (m : machine) :
  let hps := effective m l in
  let path := feature_output_path output_dir (cname fclass) file in
  passes (halt_on_error ctx) (step_error w output_dir fclass file hps) ->
  exists r m',
    featurize_step w ctx output_dir file op_result (fclass, l) m
      = (Ok (PyDict.set (cname fclass) (OpStep r) op_result), m')
    /\ sub_traceback r = step_error w output_dir fclass file hps
    /\ (valid r = true <->
          succeeds (construct w fclass file hps) = true
          /\ exists reason, f_validate w fclass file hps = Ok (true, reason))
    /\ (featurized r = true <->
          valid r = true /\ succeeds (create_features w fclass file hps) = true)
    /\ (forall p, sub_output r = Some p <->
          featurized r = true /\ succeeds (dumpfn w path) = true /\ p = path)
    /\ (forall h, op_md5_chksum r = Some h <->
          sub_output r = Some path /\ md5sum w path = Ok h)
    /\ sub_walltime r = Some tt.
Proof.
  intros hps path Hp. subst hps path. unfold featurize_step.
  pose proof (featurize_try_outcome w output_dir file fclass l m
                op_subresult_init) as H.
  pose proof (featurize_try_record w output_dir file fclass l m) as Hrec.
  unfold bind at 1, with_local.
  destruct (featurize_try w output_dir file fclass l (m, op_subresult_init))
    as [r [m1 sub1]].
  simpl in H, Hrec. subst r.
  destruct Hrec as (H1 & H2 & H3 & H4 & H5).
  destruct (step_error w output_dir fclass file (effective m l)) as [e|].
  - destruct Hp as [Hint Hhalt]. rewrite Hint, Hhalt. run_simpl.
    eexists. eexists. split; [reflexivity|]. simpl.
    split; [reflexivity|]. split; [exact H1|]. split; [exact H2|].
    split; [exact H3|]. split; [exact H4 | reflexivity].
  - run_simpl. eexists. eexists. split; [reflexivity|]. simpl.
    split; [exact H5|]. split; [exact H1|]. split; [exact H2|].
    split; [exact H3|]. split; [exact H4 | reflexivity].
Qed.

Lemma featurize_record_invariant_witness :
  exists r m',
    featurize_step (Scenario.failing_on "/home/u/b.json") (Scenario.ctx false)
      "/out" "/home/u/b.json" [] (DeltaQFastCharge, 1%nat)
      (Scenario.boot [] Scenario.declared)
    = (Ok [("DeltaQFastCharge", OpStep r)], m')
    /\ sub_traceback r = Some (External "RuntimeError")
    /\ valid r = true
    /\ featurized r = false.
Proof.
  destruct (featurize_record_invariant (Scenario.failing_on "/home/u/b.json")
              (Scenario.ctx false) "/out" "/home/u/b.json" []
              DeltaQFastCharge 1%nat (Scenario.boot [] Scenario.declared))
    as (r & m' & Hrun & Htb & Hv & Hf & _).
  - vm_compute. split; reflexivity.
  - exists r, m'. split; [exact Hrun|]. split; [exact Htb|].
    split.
    + apply (proj2 Hv). split; [reflexivity|]. exists "". reflexivity.
    + destruct (featurized r); [|reflexivity].
      destruct (proj1 Hf eq_refl) as [_ H]. vm_compute in H. discriminate H.
Defined.

(** ** The summaries *)

Lemma structure_classify_acc (items : PyDict.t status_value) :
  forall succeeded failed invalid,
  structure_classify items succeeded failed invalid
  = (succeeded ++ map fst (List.filter is_succeeded items),
     failed ++ map fst (List.filter is_failed items),
     invalid ++ map fst (List.filter is_invalid items)).
Proof.
  induction items as [|[k v] items IH]; intros s f i; simpl.
  - now rewrite !app_nil_r.
  - destruct v as [r|d|md]; unfold is_succeeded, is_failed, is_invalid; simpl.
    + destruct (validated r), (structured r); simpl; rewrite IH;
        rewrite <- ?app_assoc; reflexivity.
    + apply IH.
    + apply IH.
Qed.

Lemma featurize_classify_acc (n_tuples : nat) (items : PyDict.t status_value) :
  forall all_s some_s none_s,
  featurize_classify n_tuples items all_s some_s none_s
  = (all_s ++ map with_count (List.filter (in_all n_tuples) items),
     some_s ++ map with_count (List.filter (in_some n_tuples) items),
     none_s ++ map with_count (List.filter (in_none n_tuples) items)).
Proof.
  induction items as [|[k v] items IH]; intros a s n; simpl.
  - now rewrite !app_nil_r.
  - destruct v as [r|d|md]; unfold in_all, in_some, in_none, n_success_of;
      simpl; try apply IH.
    destruct (count_true (feats_succeeded d) =? n_tuples)%nat; simpl.
    + rewrite IH, <- app_assoc. reflexivity.
    + destruct (count_true (feats_succeeded d) =? 0)%nat; simpl;
        rewrite IH, <- app_assoc; reflexivity.
Qed.

Lemma filter_three_way {A} (p q r : A -> bool) (l : list A) :
  (forall x, In x l ->
     (if p x then 1 else 0) + (if q x then 1 else 0) + (if r x then 1 else 0)
     = 1)%nat ->
  (length (List.filter p l) + length (List.filter q l)
   + length (List.filter r l) = length l)%nat.
Proof.
  induction l as [|x l IH]; intros H; [reflexivity|]. simpl.
  specialize (IH (fun y Hy => H y (or_intror Hy))).
  specialize (H x (or_introl eq_refl)).
  destruct (p x), (q x), (r x); simpl in *; lia.
Qed.

(** X14: the status report of [structure] lists every reported file once: as
    succeeded when validated and structured, as failed when validated and not
    structured, as invalid otherwise. *)
Theorem structure_report_partition
    (status_json : PyDict.t status_value)
    (succeeded failed invalid : list string) :
  structure_classify status_json [] [] [] = (succeeded, failed, invalid) ->
  (forall v, In v (PyDict.values status_json) -> exists r, v = StructureResult r) ->
  (length succeeded + length failed + length invalid = length status_json)%nat
  /\ (forall k, In k succeeded <->
        exists r, In (k, StructureResult r) status_json
                  /\ validated r = true /\ structured r = true)
  /\ (forall k, In k failed <->
        exists r, In (k, StructureResult r) status_json
                  /\ validated r = true /\ structured r = false)
  /\ (forall k, In k invalid <->
        exists r, In (k, StructureResult r) status_json
                  /\ validated r = false).
Proof.
  rewrite structure_classify_acc. intros H Hall. inversion H; subst; clear H.
  simpl. split.
  - rewrite !length_map. apply filter_three_way.
    intros [k v] Hin. destruct (Hall v) as [r ->].
    { apply in_map_iff. exists (k, v). auto. }
    unfold is_succeeded, is_failed, is_invalid. simpl.
    destruct (validated r), (structured r); reflexivity.
  - split; [|split]; intros k; rewrite in_map_iff; split.
    + intros ([k' v] & <- & Hin). apply filter_In in Hin as [Hin Hp].
      unfold is_succeeded in Hp. simpl in *. destruct v as [r| |]; try discriminate.
      apply andb_true_iff in Hp. eauto.
    + intros (r & Hin & Hv & Hs). exists (k, StructureResult r).
      split; [reflexivity|]. apply filter_In. split; [exact Hin|].
      unfold is_succeeded. simpl. now rewrite Hv, Hs.
    + intros ([k' v] & <- & Hin). apply filter_In in Hin as [Hin Hp].
      unfold is_failed in Hp. simpl in *. destruct v as [r| |]; try discriminate.
      apply andb_true_iff in Hp as [Hv Hs]. apply negb_true_iff in Hs. eauto.
    + intros (r & Hin & Hv & Hs). exists (k, StructureResult r).
      split; [reflexivity|]. apply filter_In. split; [exact Hin|].
      unfold is_failed. simpl. now rewrite Hv, Hs.
    + intros ([k' v] & <- & Hin). apply filter_In in Hin as [Hin Hp].
      unfold is_invalid in Hp. simpl in *. destruct v as [r| |]; try discriminate.
      apply negb_true_iff in Hp. eauto.
    + intros (r & Hin & Hv). exists (k, StructureResult r).
      split; [reflexivity|]. apply filter_In. split; [exact Hin|].
      unfold is_invalid. simpl. now rewrite Hv.
Qed.

Lemma structure_report_partition_witness :
  let done := OpResult true (Some "schema.yaml") true (Some "/o/a.json.gz")
                None (Some tt) (Some "d41d8cd98f00b204e9800998ecf8427e") in
  let checked := OpResult true (Some "schema.yaml") false None
                   None (Some tt) (Some "d41d8cd98f00b204e9800998ecf8427e") in
  let status_json := [("/home/u/a.csv", StructureResult done);
                      ("/home/u/b.csv", StructureResult checked)] in
  (length ["/home/u/a.csv"] + length ["/home/u/b.csv"] + length (@nil string)
   = length status_json)%nat
  /\ (In "/home/u/b.csv" ["/home/u/b.csv"] <->
        exists r, In ("/home/u/b.csv", StructureResult r) status_json
                  /\ validated r = true /\ structured r = false).
Proof.
  intros done checked status_json.
  destruct (structure_report_partition status_json
              ["/home/u/a.csv"] ["/home/u/b.csv"] [] eq_refl)
    as (Hlen & _ & Hfailed & _).
  - intros v [<-|[<-|[]]]; eexists; reflexivity.
  - split; [exact Hlen | exact (Hfailed "/home/u/b.csv")].
Defined.

(** X15: the summary of [featurize] lists every reported file once, with its
    number of featurized steps [n]: under "all" when [n] is the number of
    configured featurizers, else under "none" when [n] is zero, else under
    "some". *)
Theorem featurize_report_partition
    (n_tuples : nat) (status_json : PyDict.t status_value)
    (all_succeeded some_succeeded none_succeeded : list (string * nat)) :
  featurize_classify n_tuples status_json [] [] []
    = (all_succeeded, some_succeeded, none_succeeded) ->
  (forall v, In v (PyDict.values status_json) -> exists d, v = FeaturizeResult d) ->
  (length all_succeeded + length some_succeeded + length none_succeeded
   = length status_json)%nat
  /\ (forall file n, In (file, n) all_succeeded <->
        exists d, In (file, FeaturizeResult d) status_json
                  /\ n = count_true (feats_succeeded d) /\ n = n_tuples)
  /\ (forall file n, In (file, n) none_succeeded <->
        exists d, In (file, FeaturizeResult d) status_json
                  /\ n = count_true (feats_succeeded d)
                  /\ n <> n_tuples /\ n = 0%nat)
  /\ (forall file n, In (file, n) some_succeeded <->
        exists d, In (file, FeaturizeResult d) status_json
                  /\ n = count_true (feats_succeeded d)
                  /\ n <> n_tuples /\ n <> 0%nat).
Proof.
  rewrite featurize_classify_acc. intros H Hall. inversion H; subst; clear H.
  simpl. split.
  - rewrite !length_map. apply filter_three_way.
    intros [k v] Hin. destruct (Hall v) as [d ->].
    { apply in_map_iff. exists (k, v). auto. }
    unfold in_all, in_some, in_none, n_success_of. simpl.
    destruct (count_true (feats_succeeded d) =? n_tuples)%nat,
             (count_true (feats_succeeded d) =? 0)%nat; reflexivity.
  - split; [|split]; intros file n; rewrite in_map_iff; split.
    + intros ([k v] & E & Hin). apply filter_In in Hin as [Hin Hp].
      unfold in_all, with_count, n_success_of in *. simpl in *.
      destruct v as [|d|]; try discriminate. inversion E; subst.
      apply Nat.eqb_eq in Hp. eauto.
    + intros (d & Hin & -> & Hn). exists (file, FeaturizeResult d).
      split; [reflexivity|]. apply filter_In. split; [exact Hin|].
      unfold in_all, n_success_of. simpl. now apply Nat.eqb_eq.
    + intros ([k v] & E & Hin). apply filter_In in Hin as [Hin Hp].
      unfold in_none, with_count, n_success_of in *. simpl in *.
      destruct v as [|d|]; try discriminate. inversion E; subst.
      apply andb_true_iff in Hp as [H1 H2]. apply negb_true_iff in H1.
      apply Nat.eqb_neq in H1. apply Nat.eqb_eq in H2. eauto.
    + intros (d & Hin & -> & Hn & H0). exists (file, FeaturizeResult d).
      split; [reflexivity|]. apply filter_In. split; [exact Hin|].
      unfold in_none, n_success_of. simpl.
      apply Nat.eqb_neq in Hn. apply Nat.eqb_eq in H0. now rewrite Hn, H0.
    + intros ([k v] & E & Hin). apply filter_In in Hin as [Hin Hp].
      unfold in_some, with_count, n_success_of in *. simpl in *.
      destruct v as [|d|]; try discriminate. inversion E; subst.
      apply andb_true_iff in Hp as [H1 H2]. apply negb_true_iff in H1, H2.
      apply Nat.eqb_neq in H1, H2. eauto.
    + intros (d & Hin & -> & Hn & H0). exists (file, FeaturizeResult d).
      split; [reflexivity|]. apply filter_In. split; [exact Hin|].
      unfold in_some, n_success_of. simpl.
      apply Nat.eqb_neq in Hn, H0. now rewrite Hn, H0.
Qed.

Lemma featurize_report_partition_witness :
  let step ok := OpStep (OpSubresult None ok ok None None None) in
  let status_json :=
    [("/home/u/a.json",
      FeaturizeResult [("DeltaQFastCharge", step true);
                       ("CycleSummaryStats", step true)]);
     ("/home/u/b.json",
      FeaturizeResult [("DeltaQFastCharge", step true);
                       ("CycleSummaryStats", step false)]);
     ("/home/u/c.json",
      FeaturizeResult [("DeltaQFastCharge", step false);
                       ("CycleSummaryStats", step false)])] in
  (length [("/home/u/a.json", 2%nat)] + length [("/home/u/b.json", 1%nat)]
   + length [("/home/u/c.json", 0%nat)] = length status_json)%nat
  /\ (In ("/home/u/b.json", 1%nat) [("/home/u/b.json", 1%nat)] <->
        exists d, In ("/home/u/b.json", FeaturizeResult d) status_json
                  /\ 1%nat = count_true (feats_succeeded d)
                  /\ 1%nat <> 2%nat /\ 1%nat <> 0%nat).
Proof.
  intros step status_json.
  destruct (featurize_report_partition 2 status_json
              [("/home/u/a.json", 2%nat)] [("/home/u/b.json", 1%nat)]
              [("/home/u/c.json", 0%nat)] eq_refl)
    as (Hlen & _ & _ & Hsome).
  - intros v [<-|[<-|[<-|[]]]]; eexists; reflexivity.
  - split; [exact Hlen | exact (Hsome "/home/u/b.json" 1%nat)].
Defined.

(** ** What a run calls *)

Section AppendsOnly.
Context {St T : Type} (proj : St -> list T) (P : T -> Prop).

Lemma appends_only_ret {A} (a : A) : appends_only proj P (ret a).
Proof. intros s. exists []. split; [symmetry; apply app_nil_r | constructor]. Qed.

Lemma appends_only_raise {A} e : appends_only proj P (@raise St A e).
Proof. intros s. exists []. split; [symmetry; apply app_nil_r | constructor]. Qed.

Lemma appends_only_gets {A} (f : St -> A) : appends_only proj P (gets f).
Proof. intros s. exists []. split; [symmetry; apply app_nil_r | constructor]. Qed.

Lemma appends_only_modify (f : St -> St) :
  (forall s, proj (f s) = proj s) -> appends_only proj P (modify f).
Proof.
  intros Hf s. exists []. simpl. rewrite Hf.
  split; [symmetry; apply app_nil_r | constructor].
Qed.

Lemma appends_only_bind {A B} (c : M St A) (k : A -> M St B) :
  appends_only proj P c -> (forall a, appends_only proj P (k a)) ->
  appends_only proj P (bind c k).
Proof.
  intros Hc Hk s. unfold bind. destruct (Hc s) as (l1 & E1 & F1).
  destruct (c s) as [[a|e] s1]; simpl in *.
  - destruct (Hk a s1) as (l2 & E2 & F2). exists (l1 ++ l2).
    rewrite E2, E1, app_assoc. split; [reflexivity | now apply Forall_app].
  - exists l1. auto.
Qed.

Lemma appends_only_for_each {A} (l : list A) (body : A -> M St unit) :
  (forall x, appends_only proj P (body x)) -> appends_only proj P (for_each l body).
Proof.
  intros Hb. induction l as [|x l IH]; simpl.
  - apply appends_only_ret.
  - apply appends_only_bind; [apply Hb | intros _; exact IH].
Qed.
End AppendsOnly.

Lemma appends_only_call {A} (P : event -> Prop) ev (r : outcome A) :
  P ev -> appends_only m_trace P (call ev r).
Proof. intros HP m. exists [ev]. split; [reflexivity | auto]. Qed.

Lemma appends_only_lift {L T A} (proj : machine -> list T) (P : T -> Prop)
    (c : M machine A) :
  appends_only proj P c ->
  appends_only (fun sl : machine * L => proj (fst sl)) P (lift c).
Proof.
  intros Hc [m l]. unfold lift. simpl. destruct (Hc m) as (l1 & E & F).
  destruct (c m) as [r m']. simpl in *. eauto.
Qed.

Lemma appends_only_set_local {L T} (proj : machine -> list T) (P : T -> Prop)
    (f : L -> L) :
  appends_only (fun sl : machine * L => proj (fst sl)) P (set_local f).
Proof. apply appends_only_modify. reflexivity. Qed.

Lemma appends_only_with_local {L T A} (proj : machine -> list T) (P : T -> Prop)
    (l0 : L) (c : M (machine * L) A) :
  appends_only (fun sl : machine * L => proj (fst sl)) P c ->
  appends_only proj P (with_local l0 c).
Proof.
  intros Hc m. unfold with_local. destruct (Hc (m, l0)) as (l1 & E & F).
  destruct (c (m, l0)) as [r [m' l']]. simpl in *. eauto.
Qed.

(** One step of a proof about the calls of a run. *)
Ltac calls_step :=
  first
    [ apply appends_only_call; reflexivity
    | apply appends_only_modify; reflexivity
    | apply appends_only_ret
    | apply appends_only_raise
    | apply appends_only_gets
    | apply appends_only_set_local
    | apply appends_only_lift
    | apply appends_only_with_local
    | apply appends_only_for_each; intros ?
    | apply appends_only_bind; [|intros ?]
    | match goal with
      | |- appends_only _ _ (if ?b then _ else _) => destruct b
      | |- appends_only _ _ (match ?x with _ => _ end) => destruct x
      end ].

(** X16: a validation-only run never structures a file nor writes a structured
    file: of the datapath it only calls the loader and the validation, and the
    disk is left as it was. *)
Theorem validation_only_never_structures
    (w : world) (ctx : ContextPersister) (output_files : list string)
    (automatic no_raw : bool) (files : list string) :
  appends_only m_trace (fun ev => is_structuring ev = false)
    (structure_files w ctx output_files automatic true no_raw files)
  /\ preserves m_fs
       (structure_files w ctx output_files automatic true no_raw files).
Proof.
  split.
  - unfold structure_files, structure_file, structure_try, log_at, set_status.
    apply appends_only_bind; [calls_step | intros ?].
    apply appends_only_for_each. intros [i f]. simpl negb. cbv iota.
    repeat calls_step.
  - unfold structure_files, structure_file, structure_try, log_at, set_status.
    apply preserves_bind; [frame_step | intros ?].
    apply preserves_for_each. intros [i f]. simpl negb. cbv iota.
    frame_local.
Qed.

(** ** From the command line to the report *)

Lemma bind_log_at {A} (lv : level) (msg : string) (k : unit -> M machine A)
    (m : machine) :
  bind (log_at lv msg) k m
  = k tt (Machine (m_fs m) (m_heap m) (m_trace m)
            (m_log m ++ [LogRecord lv msg]) (m_status m)).
Proof. reflexivity. Qed.

Lemma bind_set_status {A} f (k : unit -> M machine A) (m : machine) :
  bind (set_status f) k m
  = k tt (Machine (m_fs m) (m_heap m) (m_trace m) (m_log m) (f (m_status m))).
Proof. reflexivity. Qed.

Lemma output_files_of_total (ctx : ContextPersister) (files : list string)
    (output_dir : option string) (output_filenames : list string) (m : machine) :
  (given output_dir = false -> output_filenames <> [] ->
   length files = length output_filenames) ->
  exists output_files m',
    output_files_of ctx files output_dir output_filenames m
      = (Ok output_files, m')
    /\ m_status m' = m_status m.
Proof.
  intros H. unfold output_files_of. destruct (given output_dir).
  - destruct (bool_decide (output_filenames <> [])); run_simpl; eauto.
  - destruct (decide (output_filenames <> [])) as [Hne|Hnil].
    + rewrite bool_decide_eq_true_2 by exact Hne. rewrite length_map.
      rewrite bool_decide_eq_false_2; [eauto|].
      intros Hlen. apply Hlen. now apply H.
    + rewrite bool_decide_eq_false_2 by exact Hnil. eauto.
Qed.

Lemma params_dir_of_total (e : beep_env) (ppd : option string) (m : machine) :
  exists pd m', params_dir_of e ppd m = (Ok pd, m') /\ m_status m' = m_status m.
Proof.
  unfold params_dir_of.
  destruct (given ppd), (given (BEEP_PARAMETERS_DIR e)); run_simpl; eauto.
Qed.

Lemma for_each_log_total {A} (l : list A) (lv : level) (msg : string) :
  forall m, exists m',
    for_each l (fun _ => log_at lv msg) m = (Ok tt, m')
    /\ m_status m' = m_status m /\ m_trace m' = m_trace m.
Proof.
  induction l as [|x l IH]; intros m; simpl.
  - exists m. auto.
  - unfold bind at 1. unfold log_at at 1, modify.
    match goal with |- context [for_each l _ ?m1] =>
      destruct (IH m1) as (m' & Hrun & Hs & Ht) end.
    exists m'. rewrite Hrun. auto.
Qed.

Lemma structure_report_total (validation_only : bool) (m : machine) :
  exists m',
    structure_report validation_only m = (Ok tt, m')
    /\ m_status m' = m_status m /\ m_trace m' = m_trace m.
Proof.
  unfold structure_report. unfold bind at 1. unfold gets.
  destruct (structure_classify (m_status m) [] [] []) as [[s f] i].
  do 3 (unfold bind at 1; unfold log_at at 1, modify).
  unfold bind at 1.
  match goal with |- context [for_each i _ ?m1] =>
    destruct (for_each_log_total i Info "\t\t- {inv}" m1) as (m2 & H2 & Hs2 & Ht2) end.
  rewrite H2. unfold bind at 1; unfold log_at at 1, modify.
  match goal with |- context [for_each f _ ?m1] =>
    destruct (for_each_log_total f Info "\t\t- {fail}" m1) as (m3 & H3 & Hs3 & Ht3) end.
  exists m3. split; [exact H3|]. split; [now rewrite Hs3, Hs2 | now rewrite Ht3, Ht2].
Qed.

Lemma structure_files_pass w ctx ofs a vo nr files m :
  (forall j f, files !! j = Some f ->
     passes (halt_on_error ctx) (structure_error w ofs a vo nr j f)) ->
  exists m',
    structure_files w ctx ofs a vo nr files m = (Ok tt, m')
    /\ PyDict.keys (m_status m') = first_seen files
    /\ forall f, In f files ->
         exists op, PyDict.get f (m_status m') = Some (StructureResult op).
Proof.
  intros H. unfold structure_files, enumerate.
  set (m0 := Machine (m_fs m) (m_heap m) (m_trace m) (m_log m) []).
  destruct (structure_loop_pass w ctx ofs a vo nr files 0%nat m0)
    as (m' & Hrun & Hkeys & Hnew & _).
  { intros j f Hf. simpl. now apply H. }
  exists m'. run_simpl. fold m0. rewrite Hrun. auto.
Qed.

(** X17: [add_metadata_to_status_json] sets the entry [metadata], replacing
    one that is there, keeps every other entry and the order of the keys, and
    a new [metadata] key comes last. *)
Theorem add_metadata_lookup
    (status_dict : PyDict.t status_value) (run_id : option Z)
    (tags : list string) :
  PyDict.get "metadata" (add_metadata_to_status_json status_dict run_id tags)
    = Some (MetadataBlock (Metadata run_id tags))
  /\ (forall k, k <> "metadata" ->
        PyDict.get k (add_metadata_to_status_json status_dict run_id tags)
        = PyDict.get k status_dict)
  /\ PyDict.keys (add_metadata_to_status_json status_dict run_id tags)
     = add_key "metadata" (PyDict.keys status_dict)
  /\ (forall run_id' tags',
        add_metadata_to_status_json
          (add_metadata_to_status_json status_dict run_id' tags') run_id tags
        = add_metadata_to_status_json status_dict run_id tags).
Proof.
  unfold add_metadata_to_status_json. split; [apply get_set_eq|].
  split; [intros k Hk; apply get_set_ne; congruence|].
  split; [apply keys_set|].
  intros r' t'. induction status_dict as [|[k v] d IH]; simpl.
  - reflexivity.
  - destruct (String.eqb_spec k "metadata") as [->|Hne]; simpl.
    + reflexivity.
    + destruct (String.eqb_spec k "metadata"); [contradiction|]. now rewrite IH.
Qed.

Lemma add_metadata_lookup_witness :
  let status_dict :=
    [("metadata", MetadataBlock (Metadata None []));
     ("/home/u/a.json", FeaturizeResult [])] in
  PyDict.get "metadata"
    (add_metadata_to_status_json status_dict (Some 7%Z) ["tag"])
  = Some (MetadataBlock (Metadata (Some 7%Z) ["tag"]))
  /\ PyDict.get "/home/u/a.json"
       (add_metadata_to_status_json status_dict (Some 7%Z) ["tag"])
     = Some (FeaturizeResult [])
  /\ PyDict.keys (add_metadata_to_status_json status_dict (Some 7%Z) ["tag"])
     = ["metadata"; "/home/u/a.json"].
Proof.
  intros status_dict.
  destruct (add_metadata_lookup status_dict (Some 7%Z) ["tag"])
    as (Hmd & Hother & Hkeys & _).
  split; [exact Hmd|]. split; [|exact Hkeys].
  apply (Hother "/home/u/a.json"). intros H. discriminate H.
Defined.

(** X18: a run of [structure] without a bucket, on files that exist, with
    consistent output names, without halting and without operator interrupt,
    returns normally whatever the files contain: the status has one entry per
    distinct input path, in order of first occurrence, and the metadata. *)
Theorem structure_reports_every_file
    (w : world) (e : beep_env) (ctx : ContextPersister)
    (files output_filenames : list string)
    (output_dir protocol_parameters_dir s3_bucket : option string)
    (automatic validation_only no_raw s3_use_cache : bool) (m : machine) :
  given s3_bucket = false ->
  (forall f, In f files -> PosixPath.abspath (cwd ctx) f ∈ m_fs m) ->
  (given output_dir = false -> output_filenames <> [] ->
   length files = length output_filenames) ->
  halt_on_error ctx = false ->
  (forall output_files j f err,
     structure_error w output_files automatic validation_only no_raw j f
       = Some err -> is_interrupt err = false) ->
  (given (output_status_json ctx) = true ->
   dumpfn w (default "" (output_status_json ctx)) = Ok tt) ->
  exists m',
    structure w e ctx files output_filenames output_dir
      protocol_parameters_dir s3_bucket automatic validation_only no_raw
      s3_use_cache m = (Ok tt, m')
    /\ PyDict.keys (m_status m')
       = add_key "metadata"
           (first_seen (map (PosixPath.abspath (cwd ctx)) files))
    /\ PyDict.get "metadata" (m_status m')
       = Some (MetadataBlock (Metadata (run_id ctx) (tags ctx))).
Proof.
  intros Hb Hex Hlen Hhalt Hint Hdump. unfold structure.
  rewrite (bind_ok _ _ _ _ _
             (resolve_files_local w e ctx files s3_bucket s3_use_cache m Hb Hex)). rewrite bind_log_at.
  match goal with |- exists _, bind _ _ ?m1 = _ /\ _ =>
    destruct (output_files_of_total ctx (map (PosixPath.abspath (cwd ctx)) files)
                output_dir output_filenames m1) as (ofs & m2 & Hout & _) end.
  { intros H1 H2. rewrite length_map. now apply Hlen. }
  rewrite (bind_ok _ _ _ _ _ Hout).
  destruct (params_dir_of_total e protocol_parameters_dir m2)
    as (pd & m3 & Hpd & _).
  rewrite (bind_ok _ _ _ _ _ Hpd).
  assert (Hwarn : exists m4,
    (if automatic && negb (given pd)
     then log_at Warning
       "--automatic was passed but no protocol parameters directory was specified! Either set BEEP_PARAMETERS_DIR or pass --protocol-parameters-dir to use autostructuring."
     else ret tt) m3 = (Ok tt, m4)).
  { destruct (automatic && negb (given pd)); run_simpl; eauto. }
  destruct Hwarn as (m4 & Hwarn). rewrite (bind_ok _ _ _ _ _ Hwarn).
  destruct (structure_files_pass w ctx ofs automatic validation_only no_raw
              (map (PosixPath.abspath (cwd ctx)) files) m4)
    as (m5 & Hloop & Hkeys & _).
  { intros j f Hf. rewrite Hhalt. apply passes_no_halt. intros err. apply Hint. }
  rewrite (bind_ok _ _ _ _ _ Hloop).
  destruct (structure_report_total validation_only m5) as (m6 & Hrep & Hs6 & _).
  rewrite (bind_ok _ _ _ _ _ Hrep).
  unfold write_status. rewrite bind_set_status.
  destruct (given (output_status_json ctx)) eqn:Hg.
  - rewrite (Hdump eq_refl). run_simpl. eexists. split; [reflexivity|]. simpl.
    rewrite Hs6. unfold add_metadata_to_status_json.
    rewrite keys_set, get_set_eq, Hkeys. auto.
  - run_simpl. eexists. split; [reflexivity|]. simpl.
    rewrite Hs6. unfold add_metadata_to_status_json.
    rewrite keys_set, get_set_eq, Hkeys. auto.
Qed.

Lemma structure_reports_every_file_witness :
  exists m',
    structure (Scenario.failing_on "/home/u/b.csv") Scenario.env
      (Scenario.ctx false) ["a.csv"; "b.csv"; "a.csv"] [] None None None
      false false false false
      (Scenario.boot ["/home/u/a.csv"; "/home/u/b.csv"] ∅) = (Ok tt, m')
    /\ PyDict.keys (m_status m')
       = ["/home/u/a.csv"; "/home/u/b.csv"; "metadata"]
    /\ PyDict.get "metadata" (m_status m')
       = Some (MetadataBlock (Metadata None [])).
Proof.
  apply (structure_reports_every_file (Scenario.failing_on "/home/u/b.csv")
           Scenario.env (Scenario.ctx false) ["a.csv"; "b.csv"; "a.csv"] []
           None None None false false false false
           (Scenario.boot ["/home/u/a.csv"; "/home/u/b.csv"] ∅) eq_refl).
  - intros f [<-|[<-|[<-|[]]]]; refine (bool_decide_unpack _ _);
      vm_compute; exact I.
  - intros _ H. destruct (H eq_refl).
  - reflexivity.
  - intros output_files j f err H. unfold structure_error in H. simpl in H.
    destruct (String.eqb f "/home/u/b.csv");
      [inversion H; reflexivity|].
    destruct (output_files !! j); inversion H; reflexivity.
  - intros H. discriminate H.
Defined.

Lemma resolve_fclasses_native (w : world) (names : list string) :
  forall acc m tuples,
  Forall2 (fun n t => native_tuple n = Some t) names tuples ->
  resolve_fclasses w (map (fun n => (n, PNone)) names) acc m
  = (Ok (acc ++ tuples), m).
Proof.
  induction names as [|n names IH]; intros acc m tuples H.
  - inversion H; subst. simpl. now rewrite app_nil_r.
  - inversion H as [|? t ? tuples' Hn Hrest]; subst. simpl.
    unfold native_tuple in Hn. unfold find_fclass.
    destruct (PyDict.get n native_fclasses_map) as [fc|]; [|discriminate Hn].
    inversion Hn; subst. unfold bind at 1. simpl. unfold bind at 1. simpl.
    rewrite (IH _ _ tuples' Hrest). now rewrite <- app_assoc.
Qed.

Lemma featurize_report_total (n_tuples : nat) (m : machine) :
  exists m',
    featurize_report n_tuples m = (Ok tt, m')
    /\ m_status m' = m_status m /\ m_trace m' = m_trace m.
Proof.
  unfold featurize_report. rewrite bind_log_at. unfold bind at 1. unfold gets.
  cbn [m_status].
  destruct (featurize_classify n_tuples (m_status m) [] [] []) as [[a s] n].
  rewrite bind_log_at. unfold bind at 1.
  match goal with |- context [for_each a _ ?m1] =>
    destruct (for_each_log_total a Info "\t\t- {filename}" m1)
      as (m2 & H2 & Hs2 & Ht2) end.
  rewrite H2.
  assert (Hsome : exists m3,
    (if (1 <? n_tuples)%nat
     then log_at Info "\tSome featurizers succeeded: {len(some_succeeded)}/{n_files}" ;;
          for_each s (fun _ =>
            log_at Info "\t\t- {filename}: {n_success}/{len(fclass_tuples)}")
     else ret tt) m2 = (Ok tt, m3)
    /\ m_status m3 = m_status m2 /\ m_trace m3 = m_trace m2).
  { destruct (1 <? n_tuples)%nat.
    - rewrite bind_log_at.
      match goal with |- context [for_each s _ ?m1] =>
        destruct (for_each_log_total s Info
                    "\t\t- {filename}: {n_success}/{len(fclass_tuples)}" m1)
          as (m3 & H3 & Hs3 & Ht3) end.
      exists m3. auto.
    - exists m2. auto. }
  destruct Hsome as (m3 & H3 & Hs3 & Ht3).
  rewrite (bind_ok _ _ _ _ _ H3). rewrite bind_log_at.
  match goal with |- context [for_each n _ ?m1] =>
    destruct (for_each_log_total n Info "\t\t- {filename}" m1)
      as (m4 & H4 & Hs4 & Ht4) end.
  exists m4. split; [exact H4|].
  split; [rewrite Hs4; simpl; now rewrite Hs3, Hs2
         | rewrite Ht4; simpl; now rewrite Ht3, Ht2].
Qed.

(** X19: the features of a class for a file are written directly in the output
    directory, under the class name, a dash and the base name of the file. *)
Theorem feature_output_basename (output_dir fclass_name file : string) :
  Str.contains_char "/" fclass_name = false ->
  PosixPath.basename (feature_output_path output_dir fclass_name file)
  = fclass_name +:+ "-" +:+ PosixPath.basename file.
Proof.
  intros H. unfold feature_output_path. rewrite basename_join.
  apply basename_no_sep. rewrite !contains_char_app.
  change (Str.contains_char PosixPath.sep) with (Str.contains_char "/").
  rewrite H. simpl. apply basename_has_no_sep.
Qed.

Lemma feature_output_basename_witness :
  PosixPath.basename
    (feature_output_path "/out" "DeltaQFastCharge" "/data/run/a.json")
  = "DeltaQFastCharge-a.json".
Proof.
  exact (feature_output_basename "/out" "DeltaQFastCharge" "/data/run/a.json"
           eq_refl).
Defined.

(** X20: a run of [featurize] with native featurizers named by [-f] (or [all])
    and no [-h], on files that load, without halting and without operator
    interrupt, returns normally whatever the featurizers raise: the status has
    one entry per distinct input path and the metadata, and the class
    dictionaries are left as they were. *)
Theorem featurize_reports_every_file
    (w : world) (ctx : ContextPersister) (files : list string)
    (output_dir : option string) (featurize_with : list string)
    (fclass_tuples : list (featurizer * loc)) (m : machine) :
  Forall2 (fun spec t => native_tuple (fst spec) = Some t)
    (select_featurizers featurize_with) fclass_tuples ->
  halt_on_error ctx = false ->
  (forall f, In f files ->
     succeeds (md5sum w (PosixPath.abspath (cwd ctx) f)) = true
     /\ succeeds (auto_load_processed w (PosixPath.abspath (cwd ctx) f)) = true) ->
  (forall od cls file hps err,
     step_error w od cls file hps = Some err -> is_interrupt err = false) ->
  (given (output_status_json ctx) = true ->
   dumpfn w (default "" (output_status_json ctx)) = Ok tt) ->
  exists m',
    featurize w ctx files output_dir featurize_with [] m = (Ok tt, m')
    /\ PyDict.keys (m_status m')
       = add_key "metadata"
           (first_seen (map (PosixPath.abspath (cwd ctx)) files))
    /\ PyDict.get "metadata" (m_status m')
       = Some (MetadataBlock (Metadata (run_id ctx) (tags ctx)))
    /\ m_heap m' = m_heap m.
Proof.
  intros Hnat Hhalt Hload Hint Hdump. unfold featurize. rewrite bind_log_at.
  assert (Hf : forall m0, featurizers_of w featurize_with [] m0
                          = (Ok fclass_tuples, m0)).
  { intros m0. unfold featurizers_of. simpl add_hyperparams.
    unfold bind at 1, ret.
    assert (E : select_featurizers featurize_with
                = map (fun n => (n, PNone))
                    (map fst (select_featurizers featurize_with))).
    { unfold select_featurizers.
      generalize (if bool_decide ("all" ∈ featurize_with)
                  then PyDict.keys core_fclasses_map else featurize_with).
      intros L. induction L as [|x L IHL]; simpl; [reflexivity|].
      now rewrite <- IHL. }
    rewrite E. apply (resolve_fclasses_native w _ [] m0 fclass_tuples).
    clear E. revert Hnat. generalize (select_featurizers featurize_with).
    intros l H. induction H; constructor; auto. }
  rewrite (bind_ok _ _ _ _ _ (Hf _)). rewrite bind_log_at.
  set (od := if given output_dir
             then PosixPath.abspath (cwd ctx) (default "" output_dir)
             else cwd ctx).
  match goal with |- exists _, bind _ _ ?m1 = _ /\ _ => set (m2 := m1) end.
  assert (Hloop : exists m3,
    featurize_files w ctx od fclass_tuples
      (map (PosixPath.abspath (cwd ctx)) files) m2 = (Ok tt, m3)
    /\ PyDict.keys (m_status m3)
       = first_seen (map (PosixPath.abspath (cwd ctx)) files)
    /\ m_heap m3 = m_heap m).
  { unfold featurize_files. rewrite bind_set_status.
    match goal with |- exists _, bind _ _ ?m1 = _ /\ _ => set (m0 := m1) end.
    destruct (featurize_files_pass w ctx od fclass_tuples
                (map (PosixPath.abspath (cwd ctx)) files) 0%nat m0)
      as (i' & m3 & Hrun & Hh & Hkeys & _).
    { intros f Hf'. apply in_map_iff in Hf' as (x & <- & Hx).
      destruct (Hload x Hx) as [H1 H2]. repeat split; auto.
      intros t Ht. rewrite Hhalt. apply passes_no_halt. intros err. apply Hint. }
    exists m3. rewrite (bind_ok _ _ _ _ _ Hrun). auto. }
  destruct Hloop as (m3 & Hloop & Hkeys & Hh3).
  rewrite (bind_ok _ _ _ _ _ Hloop).
  destruct (featurize_report_total (length fclass_tuples) m3)
    as (m4 & Hrep & Hs4 & _).
  assert (Hh4 : m_heap m4 = m_heap m3).
  { pose proof (f_equal snd Hrep) as E. simpl in E. rewrite <- E.
    clear. unfold featurize_report.
    assert (P : preserves m_heap (featurize_report (length fclass_tuples))).
    { unfold featurize_report, log_at.
      apply preserves_bind; [frame_step | intros ?].
      apply preserves_bind; [frame_step | intros st].
      destruct (featurize_classify _ st [] [] []) as [[alls somes] nones].
      repeat frame_step. }
    apply P. }
  rewrite (bind_ok _ _ _ _ _ Hrep).
  unfold write_status. rewrite bind_set_status.
  destruct (given (output_status_json ctx)) eqn:Hg.
  - rewrite (Hdump eq_refl). run_simpl. eexists. split; [reflexivity|]. simpl.
    rewrite Hs4. unfold add_metadata_to_status_json.
    rewrite keys_set, get_set_eq, Hkeys. repeat split; congruence.
  - run_simpl. eexists. split; [reflexivity|]. simpl.
    rewrite Hs4. unfold add_metadata_to_status_json.
    rewrite keys_set, get_set_eq, Hkeys. repeat split; congruence.
Qed.

Lemma featurize_reports_every_file_witness :
  exists m',
    featurize (Scenario.failing_on "/home/u/b.json") (Scenario.ctx false)
      ["a.json"; "b.json"] None ["DeltaQFastCharge"; "CycleSummaryStats"] []
      (Scenario.boot [] Scenario.declared) = (Ok tt, m')
    /\ PyDict.keys (m_status m')
       = ["/home/u/a.json"; "/home/u/b.json"; "metadata"]
    /\ PyDict.get "metadata" (m_status m')
       = Some (MetadataBlock (Metadata None []))
    /\ m_heap m' = Scenario.declared.
Proof.
  apply (featurize_reports_every_file (Scenario.failing_on "/home/u/b.json")
           (Scenario.ctx false) ["a.json"; "b.json"] None
           ["DeltaQFastCharge"; "CycleSummaryStats"]
           [(DeltaQFastCharge, 1%nat); (CycleSummaryStats, 3%nat)]
           (Scenario.boot [] Scenario.declared)).
  - repeat constructor.
  - reflexivity.
  - intros f _. split; reflexivity.
  - intros od cls file hps err H. unfold step_error in H. simpl in H.
    destruct (String.eqb file "/home/u/b.json"); inversion H; reflexivity.
  - intros H. discriminate H.
Defined.

(** X21: without a [secret] entry in the environment's [postgres] section,
    [secret_accessible] answers [True] and sends nothing to AWS; when the
    environment or its [postgres] section is missing it raises [KeyError],
    again without sending anything. *)
Theorem secret_accessible_without_secret {J}
    (h : SecretsManager.host J) (config : SecretsManager.config_t)
    (environment : string) (sent : list SecretsManager.request) :
  (forall section pg_config,
     PyDict.get environment config = Some section ->
     PyDict.get "postgres" section = Some pg_config ->
     PyDict.get "secret" pg_config = None ->
     SecretsManager.secret_accessible h config environment sent = (Ok true, sent))
  /\ (PyDict.get environment config = None ->
      SecretsManager.secret_accessible h config environment sent
      = (Raise SecretsManager.KeyError, sent))
  /\ (forall section,
        PyDict.get environment config = Some section ->
        PyDict.get "postgres" section = None ->
        SecretsManager.secret_accessible h config environment sent
        = (Raise SecretsManager.KeyError, sent)).
Proof.
  unfold SecretsManager.secret_accessible, SecretsManager.getitem.
  split; [|split].
  - intros section pg H1 H2 H3. rewrite H1. unfold bind at 1. simpl.
    rewrite H2. unfold bind at 1. simpl. now rewrite H3.
  - intros H1. now rewrite H1.
  - intros section H1 H2. rewrite H1. unfold bind at 1. simpl. now rewrite H2.
Qed.

Lemma secret_accessible_without_secret_witness :
  SecretsManager.secret_accessible Hosts.vault Hosts.config "local" []
  = (Ok true, [])
  /\ SecretsManager.secret_accessible Hosts.vault Hosts.config "prod" []
     = (Raise SecretsManager.KeyError, []).
Proof.
  destruct (secret_accessible_without_secret Hosts.vault Hosts.config "local" [])
    as (Hok & _ & _).
  destruct (secret_accessible_without_secret Hosts.vault Hosts.config "prod" [])
    as (_ & Hmissing & _).
  split.
  - apply (Hok [("postgres", [("host", "localhost")])] [("host", "localhost")]);
      reflexivity.
  - apply Hmissing. reflexivity.
Defined.

(** X22: with a [secret] entry, [secret_accessible] runs [get_secret] once,
    answers [True] when it returns and [False] when it raises an exception
    that derives from [Exception]; [KeyboardInterrupt], [SystemExit] and the
    like are let through. [get_secret] makes a session, then a
    [secretsmanager] client for us-west-2, then one request for the secret: a
    failure to make the session or the client ends it before any request.
    The secret is [json.loads] of [SecretString] when the response has one,
    else of the decoded [SecretBinary]; a response with neither raises
    [KeyError], so the answer is [False]. *)
Theorem secret_accessible_with_secret {J}
    (h : SecretsManager.host J) (config : SecretsManager.config_t)
    (environment secret_name : string) (section : PyDict.t (PyDict.t string))
    (pg_config : PyDict.t string) (sent : list SecretsManager.request) :
  PyDict.get environment config = Some section ->
  PyDict.get "postgres" section = Some pg_config ->
  PyDict.get "secret" pg_config = Some secret_name ->
  let session := SecretsManager.NewSession in
  let client := SecretsManager.NewClient "secretsmanager" "us-west-2" in
  let request := SecretsManager.GetSecretValue "us-west-2" secret_name in
  fst (SecretsManager.secret_accessible h config environment sent)
    = match fst (SecretsManager.get_secret h secret_name sent) with
      | Ok _ => Ok true
      | Raise e => if SecretsManager.is_exception e then Ok false else Raise e
      end
  /\ snd (SecretsManager.secret_accessible h config environment sent)
     = snd (SecretsManager.get_secret h secret_name sent)
  /\ (forall e,
        SecretsManager.new_session h = Raise e ->
        SecretsManager.get_secret h secret_name sent
        = (Raise e, sent ++ [session]))
  /\ (forall e,
        SecretsManager.new_session h = Ok tt ->
        SecretsManager.new_client h "secretsmanager" "us-west-2" = Raise e ->
        SecretsManager.get_secret h secret_name sent
        = (Raise e, sent ++ [session; client]))
  /\ (SecretsManager.new_session h = Ok tt ->
      SecretsManager.new_client h "secretsmanager" "us-west-2" = Ok tt ->
      SecretsManager.get_secret h secret_name sent
      = (match SecretsManager.get_secret_value h "us-west-2" secret_name with
         | Raise e => Raise e
         | Ok (SecretsManager.Response (Some s) _) =>
             SecretsManager.json_loads h s
         | Ok (SecretsManager.Response None (Some b)) =>
             match SecretsManager.b64decode h b with
             | Ok d => SecretsManager.json_loads h d
             | Raise e => Raise e
             end
         | Ok (SecretsManager.Response None None) =>
             Raise SecretsManager.KeyError
         end, sent ++ [session; client; request]))
  /\ (SecretsManager.new_session h = Ok tt ->
      SecretsManager.new_client h "secretsmanager" "us-west-2" = Ok tt ->
      SecretsManager.get_secret_value h "us-west-2" secret_name
        = Ok (SecretsManager.Response None None) ->
      SecretsManager.secret_accessible h config environment sent
      = (Ok false, sent ++ [session; client; request])).
Proof.
  intros H1 H2 H3 session client request.
  assert (E : SecretsManager.secret_accessible h config environment sent
              = try_except
                  (SecretsManager.get_secret h secret_name ;; ret true)
                  (fun e => if SecretsManager.is_exception e
                            then ret false else raise e) sent).
  { unfold SecretsManager.secret_accessible, SecretsManager.getitem.
    rewrite H1. unfold bind at 1, ret at 1. rewrite H2.
    unfold bind at 1, ret at 1. now rewrite H3. }
  rewrite E. clear E.
  assert (G : SecretsManager.get_secret h secret_name sent
              = match SecretsManager.new_session h with
                | Raise e => (Raise e, sent ++ [session])
                | Ok _ =>
                    match SecretsManager.new_client h "secretsmanager"
                            "us-west-2" with
                    | Raise e => (Raise e, sent ++ [session; client])
                    | Ok _ =>
                        (match SecretsManager.get_secret_value h "us-west-2"
                                 secret_name with
                         | Raise e => Raise e
                         | Ok (SecretsManager.Response (Some s) _) =>
                             SecretsManager.json_loads h s
                         | Ok (SecretsManager.Response None (Some b)) =>
                             match SecretsManager.b64decode h b with
                             | Ok d => SecretsManager.json_loads h d
                             | Raise e => Raise e
                             end
                         | Ok (SecretsManager.Response None None) =>
                             Raise SecretsManager.KeyError
                         end, sent ++ [session; client; request])
                    end
                end).
  { unfold SecretsManager.get_secret, try_except, bind, SecretsManager.send,
      SecretsManager.pure_call, modify, ret, raise. simpl.
    destruct (SecretsManager.new_session h) as [u|e]; simpl; [|reflexivity].
    destruct (SecretsManager.new_client h "secretsmanager" "us-west-2")
      as [u'|e]; simpl; [|now rewrite <- app_assoc].
    rewrite <- !app_assoc. simpl.
    destruct (SecretsManager.get_secret_value h "us-west-2" secret_name)
      as [[[s|] [b|]]|e]; simpl; try reflexivity.
    destruct (SecretsManager.b64decode h b) as [d|e]; reflexivity. }
  assert (A : forall r : outcome J * list SecretsManager.request,
            try_except (fun s => (match fst r with
                                  | Ok _ => Ok true
                                  | Raise e => Raise e
                                  end, snd r))
              (fun e => if SecretsManager.is_exception e
                        then ret false else raise e) sent
            = (match fst r with
               | Ok _ => Ok true
               | Raise e =>
                   if SecretsManager.is_exception e then Ok false else Raise e
               end, snd r)).
  { intros [[j|e] s']; unfold try_except; simpl; [reflexivity|].
    destruct (SecretsManager.is_exception e); reflexivity. }
  assert (B : try_except (SecretsManager.get_secret h secret_name ;; ret true)
                (fun e => if SecretsManager.is_exception e
                          then ret false else raise e) sent
              = (match fst (SecretsManager.get_secret h secret_name sent) with
                 | Ok _ => Ok true
                 | Raise e =>
                     if SecretsManager.is_exception e then Ok false
                     else Raise e
                 end, snd (SecretsManager.get_secret h secret_name sent))).
  { rewrite <- A. unfold try_except, bind, ret.
    destruct (SecretsManager.get_secret h secret_name sent) as [[j|e] s'];
      reflexivity. }
  rewrite B. cbn [fst snd].
  split; [reflexivity|]. split; [reflexivity|].
  split; [intros e He; rewrite G, He; reflexivity|].
  split; [intros e Hs Hc; rewrite G, Hs, Hc; reflexivity|].
  split; [intros Hs Hc; rewrite G, Hs, Hc; reflexivity|].
  intros Hs Hc Hr. rewrite G, Hs, Hc, Hr. reflexivity.
Qed.

Lemma secret_accessible_with_secret_witness :
  let session := SecretsManager.NewSession in
  let client := SecretsManager.NewClient "secretsmanager" "us-west-2" in
  SecretsManager.secret_accessible Hosts.vault Hosts.config "stage" []
  = (Ok true,
     [session; client; SecretsManager.GetSecretValue "us-west-2" "beep/stage"])
  /\ SecretsManager.secret_accessible Hosts.vault Hosts.config "broken" []
     = (Ok false,
        [session; client; SecretsManager.GetSecretValue "us-west-2" "beep/none"])
  /\ SecretsManager.secret_accessible Hosts.offline Hosts.config "stage" []
     = (Ok false, [session; client])
  /\ SecretsManager.secret_accessible Hosts.exiting Hosts.config "stage" []
     = (Raise (External "SystemExit"),
        [session; client; SecretsManager.GetSecretValue "us-west-2" "beep/stage"]).
Proof.
  intros session client.
  destruct (secret_accessible_with_secret Hosts.vault Hosts.config "stage"
              "beep/stage" [("postgres", [("secret", "beep/stage")])]
              [("secret", "beep/stage")] [] eq_refl eq_refl eq_refl)
    as (Hanswer & Hsent & _).
  destruct (secret_accessible_with_secret Hosts.vault Hosts.config "broken"
              "beep/none" [("postgres", [("secret", "beep/none")])]
              [("secret", "beep/none")] [] eq_refl eq_refl eq_refl)
    as (Hanswer' & Hsent' & _).
  destruct (secret_accessible_with_secret Hosts.offline Hosts.config "stage"
              "beep/stage" [("postgres", [("secret", "beep/stage")])]
              [("secret", "beep/stage")] [] eq_refl eq_refl eq_refl)
    as (Hanswer'' & Hsent'' & _).
  destruct (secret_accessible_with_secret Hosts.exiting Hosts.config "stage"
              "beep/stage" [("postgres", [("secret", "beep/stage")])]
              [("secret", "beep/stage")] [] eq_refl eq_refl eq_refl)
    as (Hanswer3 & Hsent3 & _).
  split; [|split; [|split]]; apply injective_projections;
    first [exact Hanswer | exact Hsent | exact Hanswer' | exact Hsent'
          | exact Hanswer'' | exact Hsent'' | exact Hanswer3 | exact Hsent3].
Defined.

(** ** Halting at the first error *)





























(** ** Hyperparameters that are not a dictionary *)

(** Line 685 on a value that is not a dictionary: a list of pairs is merged
    like a dictionary, an empty list changes nothing, and a literal that is
    not iterable raises [TypeError]. *)
Example hyperparameters_given_as_a_list :
  let m := Scenario.boot [] Scenario.declared in
  let r := configure DeltaQFastCharge (POther [("n_interp", HInt 5)] None) m in
  let r' := configure DeltaQFastCharge (POther [] None) m in
  fst r = Ok (DeltaQFastCharge, 1%nat)
  /\ effective (snd r) 1 !! "n_interp" = Some (HInt 5)
  /\ fst r' = Ok (DeltaQFastCharge, 1%nat)
  /\ effective (snd r') 1 = effective m 1
  /\ fst (configure DeltaQFastCharge (POther [] (Some TypeError)) m)
     = Raise TypeError.
Proof. vm_compute. repeat split; reflexivity. Qed.
